(** * pyschism.forcing.nws.nws2.gfs2: inventory, windowing and assembly

    A shallow embedding of [AWSGrib2Inventory] and [GFS] from
    [pyschism/forcing/nws/nws2/gfs2.py].

    - Python strings are [string], compared by code point ([String.le]).
    - The bucket listing, the object download and the grib decoder are the
      program's external collaborators; they are the variables of the
      sections below. A download that raises is one that has written
      nothing to the file; opening a local file, creating a directory and
      writing the NetCDF file do not fail.
    - The temporary directory of an inventory and the output files are
      finite maps from paths to contents; [__init__] and [gen_sflux]
      thread exceptions, the log and the output files through a small
      state-and-error monad.
    - Coordinates and field values are rationals: every float operation the
      program performs on them ([+ 360], [- 1.0], [+ 1.0], [-= 360], the
      comparisons) is exact on quarter-degree coordinates, and the cast
      [astype('float32')] is kept as a function [float32] of the model.
      The bounds of the box are Python floats: where NumPy compares the
      float32 coordinates with one of them it casts the bound to float32
      first, and so does the model.
    - A 2-D array is the list of its rows. *)

From Stdlib Require Import QArith Qround Qabs Lqa.
From stdpp Require Import base list strings gmap sorting pretty.

(** ** Python built-ins used by the module *)

Module Py.

(** [needle in hay] on [str]: [hay] has [needle] at some offset. *)
Fixpoint str_in (needle hay : string) : bool :=
  match hay with
  | EmptyString => String.prefix needle hay
  | String _ hay' => String.prefix needle hay || str_in needle hay'
  end.

(** [sorted(l)] on a list of [str]. The order on strings is total and its
    ties are equal strings, so the sorted list is the same for every
    sorting algorithm; a merge sort stands for Python's. *)
Definition sorted (l : list string) : list string := merge_sort String.le l.

(** A slice bound as [slice.indices] resolves it against a length: a
    negative bound counts from the end, and the result is clamped. *)
Definition bound (len i : Z) : Z :=
  let j := if (i <? 0)%Z then (i + len)%Z else i in
  Z.max 0 (Z.min len j).

(** [l[start:stop]] with integer bounds and step 1. *)
Definition slice {A} (start stop : Z) (l : list A) : list A :=
  let len := Z.of_nat (length l) in
  let lo := bound len start in
  let hi := bound len stop in
  take (Z.to_nat (hi - lo)) (drop (Z.to_nat lo) l).

(** [l[i:j]] where both bounds are known to be non-negative indices. *)
Definition islice {A} (i j : nat) (l : list A) : list A :=
  take (j - i) (drop i l).

(** [f'{n:02d}'] and the zero-padded fields of [strftime]. *)
Definition zfill (width : nat) (s : string) : string :=
  String.concat "" (replicate (width - String.length s) "0") +:+ s.

Definition fmt02d (n : nat) : string := zfill 2 (pretty n).

End Py.

(** ** NumPy operations used by the module *)

Abbreviation array1 := (list Q).
Abbreviation array2 := (list (list Q)).
Abbreviation array3 := (list (list (list Q))).

Inductive ndarray :=
| Arr1 (v : array1)
| Arr2 (m : array2)
| Arr3 (t : array3).

Module Np.

(** [np.where(mask)[0]] for a 1-D mask: the positions where it holds,
    ascending. *)
Fixpoint where_from {A} (p : A → bool) (i : nat) (l : list A) : list nat :=
  match l with
  | [] => []
  | x :: l' =>
      if p x then i :: where_from p (S i) l' else where_from p (S i) l'
  end.

Definition where_ {A} (p : A → bool) (l : list A) : list nat :=
  where_from p 0 l.

(** [a[idxs]] with an index array taken from [where_] on the same vector. *)
Definition take_idxs {A} (l : list A) (idxs : list nat) : list A :=
  omap (λ i, l !! i) idxs.

(** [np.meshgrid(x, y)], default ['xy'] indexing: both results have shape
    [(len(y), len(x))]. *)
Definition meshgrid (x y : array1) : array2 * array2 :=
  (replicate (length y) x, (λ v, replicate (length x) v) <$> y).

(** [np.rint]: nearest integer, ties to even. *)
Definition rint (q : Q) : Z :=
  let f := Qfloor q in
  let r := (q - inject_Z f)%Q in
  if Qle_bool r (1 # 2)
  then (if Qle_bool (1 # 2) r then (if Z.even f then f else f + 1)%Z else f)
  else (f + 1)%Z.

(** [np.round(q, decimals)]. *)
Definition round (decimals : nat) (q : Q) : Q :=
  let scale := inject_Z (10 ^ Z.of_nat decimals) in
  (inject_Z (rint (q * scale)) / scale)%Q.

(** [np.arange(1, n+1) / 24]. *)
Definition arange_div24 (n : nat) : array1 :=
  (λ h, inject_Z (Z.of_nat h) / 24)%Q <$> seq 1 n.

Definition shape2 (a : array2) : nat * nat :=
  (length a, length (default [] (head a))).

Definition shape (a : ndarray) : list nat :=
  match a with
  | Arr1 v => [length v]
  | Arr2 m => [length m; length (default [] (head m))]
  | Arr3 t =>
      let m := default [] (head t) in
      [length t; length m; length (default [] (head m))]
  end.

(** [np.array(l)] on a list of 2-D arrays: a 3-D array when all the
    entries have one shape. A ragged list is refused, by NumPy itself or
    (older versions, which build an object array) by the dataset
    constructor that receives the result. *)
Definition array (l : list array2) : option ndarray :=
  match l with
  | [] => Some (Arr1 [])
  | a :: _ =>
      if forallb (λ b, bool_decide (shape2 b = shape2 a)) l
      then Some (Arr3 l) else None
  end.

End Np.

(** ** AWSGrib2Inventory: the filtered listing and the selected slice *)

(** One entry of a [list_objects_v2] page. *)
Record s3_object := { Key : string; ObjSize : Z }.

(** One page of the paginator; ['Contents'] is absent on an empty page. *)
Record s3_page := { Contents : option (list s3_object) }.

(** The condition of the comprehension on line 50. *)
Definition keep_key (k : string) : bool :=
  Py.str_in "0p25" k && Py.str_in "pgrb2" k
  && negb (Py.str_in "goessim" k)
  && negb (Py.str_in "anl" k)
  && negb (Py.str_in "idx" k).

(** [file_metadata], lines 49-50. *)
Definition file_metadata (data : list s3_object) : list string :=
  Py.sorted (Key <$> filter (λ o, keep_key (Key o) = true) data).

(** [file_metadata[1:self.record*24+1]], line 52. *)
Definition selected (record : Z) (metadata : list string) : list string :=
  Py.slice 1 (record * 24 + 1) metadata.

(** ** xarray datasets *)

Inductive attr :=
| AStr (s : string)
| AInts (l : list Z).

Record variable := {
  dims : list string;
  values : ndarray;
  attrs : list (string * attr)
}.

Record Dataset := {
  data_vars : list (string * variable);
  coords : list (string * variable);
  sizes : gmap string nat
}.

Module Xr.

(** Lookup in a Python dict given as its items. *)
Fixpoint getitem {V} (k : string) (items : list (string * V)) : option V :=
  match items with
  | [] => None
  | (k', v) :: rest => if String.eqb k k' then Some v else getitem k rest
  end.

Fixpoint setitem {V} (k : string) (v : V) (items : list (string * V))
  : list (string * V) :=
  match items with
  | [] => [(k, v)]
  | (k', v') :: rest =>
      if String.eqb k k' then (k, v) :: rest else (k', v') :: setitem k v rest
  end.

(** The size table of a dataset under construction: every dimension name
    gets one length; a second, different length is a conflict. *)
Fixpoint add_dims (sz : gmap string nat) (ds : list string) (shp : list nat)
  : option (gmap string nat) :=
  match ds, shp with
  | [], [] => Some sz
  | d :: ds', n :: shp' =>
      match sz !! d with
      | None => add_dims (<[d := n]> sz) ds' shp'
      | Some m => if bool_decide (m = n) then add_dims sz ds' shp' else None
      end
  | _, _ => None
  end.

Fixpoint calculate_dimensions (sz : gmap string nat)
    (vars : list (string * (list string * ndarray)))
  : option (gmap string nat) :=
  match vars with
  | [] => Some sz
  | (_, (ds, a)) :: rest =>
      match add_dims sz ds (Np.shape a) with
      | Some sz' => calculate_dimensions sz' rest
      | None => None
      end
  end.

Definition as_variable (nv : string * (list string * ndarray))
  : string * variable :=
  (nv.1, {| dims := nv.2.1; values := nv.2.2; attrs := [] |}).

(** [xr.Dataset(data_vars, coords=...)]: refused ([ValueError]) when a
    variable's rank differs from its dimension list or two variables
    disagree on the length of a dimension. *)
Definition mk_dataset (dvars cvars : list (string * (list string * ndarray)))
  : option Dataset :=
  sz ← calculate_dimensions ∅ (cvars ++ dvars);
  Some {| data_vars := as_variable <$> dvars;
          coords := as_variable <$> cvars;
          sizes := sz |}.

(** [ds.name] / [ds[name]]: a data variable or a coordinate. *)
Definition getvar (name : string) (ds : Dataset) : option variable :=
  match getitem name (data_vars ds) with
  | Some v => Some v
  | None => getitem name (coords ds)
  end.

Definition with_attrs (a : list (string * attr)) (v : variable) : variable :=
  {| dims := dims v; values := values v; attrs := a |}.

(** [ds.name.attrs = a]. *)
Definition set_attrs (name : string) (a : list (string * attr)) (ds : Dataset)
  : Dataset :=
  match getitem name (data_vars ds) with
  | Some v =>
      {| data_vars := setitem name (with_attrs a v) (data_vars ds);
         coords := coords ds; sizes := sizes ds |}
  | None =>
      match getitem name (coords ds) with
      | Some v =>
          {| data_vars := data_vars ds;
             coords := setitem name (with_attrs a v) (coords ds);
             sizes := sizes ds |}
      | None => ds
      end
  end.

End Xr.

(** A file produced by [to_netcdf(path, mode, format, unlimited_dims)]. *)
Record netcdf_file := {
  nc_dataset : Dataset;
  nc_mode : string;
  nc_format : string;
  nc_unlimited_dims : string
}.

(** ** The grib decoder's interface *)

Abbreviation bytes := (list Byte.byte).

(** [backend_kwargs=dict(filter_by_keys={...})]. *)
Record filter_by_keys := {
  paramId : option Z;
  typeOfLevel : option string;
  stepType : option string
}.

(** What [xr.open_dataset(file, engine='cfgrib', ...)] gives the program:
    the two 1-D coordinate vectors and the named 2-D fields. *)
Record grib_dataset := {
  longitude : array1;
  latitude : array1;
  fields : list (string * array2)
}.

(** ** Effects: exceptions, the log, the output directory *)

Inductive exn :=
| ListingError
| KeyError (k : string)
| IndexError
| DecodeError (file : string)
| ValueError.

Inductive result (A : Type) :=
| Ok (a : A)
| Raise (e : exn).
Arguments Ok {A} a.
Arguments Raise {A} e.

Record world := {
  out_dirs : gset string;
  out_files : gmap string netcdf_file;
  log : list string
}.

Definition M (A : Type) : Type := world → world * result A.

Definition ret {A} (a : A) : M A := λ w, (w, Ok a).

Definition raise {A} (e : exn) : M A := λ w, (w, Raise e).

Definition bind {A B} (m : M A) (k : A → M B) : M B :=
  λ w, match m w with
       | (w', Ok a) => k a w'
       | (w', Raise e) => (w', Raise e)
       end.

Notation "'let!' x ':=' m 'in' k" := (bind m (λ x, k))
  (at level 10, x pattern, m at level 100, k at level 200).

Definition or_raise {A} (e : exn) (o : option A) : M A :=
  match o with
  | Some a => ret a
  | None => raise e
  end.

Definition add_log (msgs : list string) (w : world) : world :=
  {| out_dirs := out_dirs w; out_files := out_files w;
     log := log w ++ msgs |}.

(** [logger.info(msg)]. *)
Definition logger_info (msg : string) : M () :=
  λ w, (add_log [msg] w, Ok ()).

(** [path.mkdir(parents=True, exist_ok=True)]. *)
Definition mkdir (path : string) : M () :=
  λ w, ({| out_dirs := {[ path ]} ∪ out_dirs w; out_files := out_files w;
           log := log w |}, Ok ()).

(** [fout.to_netcdf(path, mode, format, unlimited_dims=...)]: the writer
    is outside the program and is taken to write the whole file. *)
Definition to_netcdf (ds : Dataset) (path mode format unlimited : string)
  : M () :=
  λ w, ({| out_dirs := out_dirs w;
           out_files :=
             <[ path := {| nc_dataset := ds; nc_mode := mode;
                           nc_format := format;
                           nc_unlimited_dims := unlimited |} ]> (out_files w);
           log := log w |}, Ok ()).

(** A monadic left fold: the body of a [for] loop over a list. *)
Fixpoint for_each {A S} (body : S → A → M S) (s : S) (l : list A) : M S :=
  match l with
  | [] => ret s
  | x :: l' => let! s' := body s x in for_each body s' l'
  end.

(** ** Dates *)

Record datetime := { year : nat; month : nat; day : nat; hour : nat }.

(** [date.strftime("%Y%m%d")]. *)
Definition strftime_Ymd (d : datetime) : string :=
  Py.zfill 4 (pretty (year d)) +:+ Py.fmt02d (month d) +:+ Py.fmt02d (day d).

(** ** class AWSGrib2Inventory *)

(** The state of an inventory object after [__init__]: its attributes and
    the contents of its temporary directory, keyed by path relative to
    [self.tmpdir]. *)
Record inventory := {
  start_date : datetime;
  inv_record : Z;
  product : string;
  forecast_cycle : datetime;
  cycle : nat;
  tmpdir : gmap string bytes
}.

(** [s] without the leading [pre], when it starts with it. *)
Fixpoint strip_prefix (pre s : string) : option string :=
  match pre, s with
  | EmptyString, _ => Some s
  | String a pre', String b s' =>
      if Ascii.eqb a b then strip_prefix pre' s' else None
  | String _ _, EmptyString => None
  end.

(** [s] without the trailing [suf], when it ends with it. *)
Fixpoint strip_suffix (suf s : string) : option string :=
  if String.eqb s suf then Some EmptyString
  else match s with
       | EmptyString => None
       | String c s' => String c <$> strip_suffix suf s'
       end.

(** [glob] with one [*] in the last path component: the path is
    [pre ++ stem ++ suf] and the stem stays inside the directory. *)
Definition glob_match (pre suf path : string) : bool :=
  match strip_prefix pre path with
  | Some rest =>
      match strip_suffix suf rest with
      | Some stem => negb (Py.str_in "/" stem)
      | None => false
      end
  | None => false
  end.

(** The [Prefix] of the listing, lines 41-42. *)
Definition cycle_dir (d : datetime) (cyc : nat) (prod : string) : string :=
  "gfs." +:+ strftime_Ymd d +:+ "/" +:+ Py.fmt02d cyc +:+ "/" +:+ prod
  +:+ "/".

Section Retriever.

(** [paginator.paginate(Bucket, Prefix)]: the pages, or the listing raises. *)
Variable list_objects_v2 : string → option (list s3_page).

(** [s3.download_fileobj(bucket, key, f)]: the bytes written to [f], or the
    call raises before anything is written. *)
Variable download_fileobj : string → option bytes.

(** Lines 44-47: [data.append(obj)] for every object of every page. *)
Fixpoint collect (pages : list s3_page) : option (list s3_object) :=
  match pages with
  | [] => Some []
  | p :: rest =>
      objs ← Contents p;
      more ← collect rest;
      Some (objs ++ more)
  end.

(** Lines 53-62, one iteration: the file is opened for writing (created
    empty, its parent directories with it) before the download is tried,
    and an exception of the download is swallowed with a log line. *)
Definition fetch (fs : gmap string bytes) (key : string)
  : M (gmap string bytes) :=
  let key2 := key +:+ ".grib2" in
  let opened := <[ key2 := [] ]> fs in
  let! _ := logger_info ("Downloading file " +:+ key +:+ ", ") in
  match download_fileobj key with
  | Some content => ret (<[ key2 := content ]> opened)
  | None =>
      let! _ := logger_info ("file " +:+ key +:+ " is not available") in
      ret opened
  end.

(** [AWSGrib2Inventory.__init__]. *)
Definition AWSGrib2Inventory (date : datetime) (record : Z) (prod : string)
  : M inventory :=
  let cyc := hour date in
  let! pages := or_raise ListingError
                  (list_objects_v2 (cycle_dir date cyc prod)) in
  let! data := or_raise (KeyError "Contents") (collect pages) in
  let! fs := for_each fetch ∅ (selected record (file_metadata data)) in
  ret {| start_date := date; inv_record := record; product := prod;
         forecast_cycle := date; cycle := cyc; tmpdir := fs |}.

End Retriever.

(** The glob pattern of [files] up to its [*], relative to [self.tmpdir]. *)
Definition grib_prefix (d : datetime) (cyc : nat) (prod : string) : string :=
  cycle_dir d cyc prod +:+ "gfs.t" +:+ Py.fmt02d cyc +:+ "z.pgrb2.0p25.f".

Definition files_prefix (inv : inventory) : string :=
  grib_prefix (forecast_cycle inv) (cycle inv) (product inv).

(** [AWSGrib2Inventory.files]: the common [tmpdir] prefix of the real paths
    does not change their lexical order. *)
Definition files (inv : inventory) : list string :=
  Py.sorted (filter (λ p, glob_match (files_prefix inv) ".grib2" p = true)
               (elements (dom (tmpdir inv)))).

(** ** class GFS *)

Record bbox := { xmin : Q; xmax : Q; ymin : Q; ymax : Q }.

(** What [modified_latlon] returns: the two coordinate grids and the four
    window indices. *)
Record latlon := {
  nx_grid : array2;
  ny_grid : array2;
  idx_ymin : nat;
  idx_ymax : nat;
  idx_xmin : nat;
  idx_xmax : nat
}.

(** The eight lists filled by the loop of [gen_sflux]. *)
Record series := {
  prate : list array2;
  dlwrf : list array2;
  dswrf : list array2;
  stmp : list array2;
  spfh : list array2;
  uwind : list array2;
  vwind : list array2;
  prmsl : list array2
}.

(** [x < y] on coordinates. *)
Definition Qltb (x y : Q) : bool := negb (Qle_bool y x).

(** [x + 360 if x < 0 else x], lines 266-267. *)
Definition wrap360 (x : Q) : Q := if Qltb x 0 then (x + 360)%Q else x.

(** [(v >= lo) & (v <= hi)], lines 274-275. *)
Definition within (lo hi v : Q) : bool := Qle_bool lo v && Qle_bool v hi.

(** [lon2[np.where(lon2 > 180)] -= 360], lines 282-283. *)
Definition unwrap180 (v : Q) : Q := if Qltb 180 v then (v - 360)%Q else v.

(** The three shapes of [filter_by_keys] the program uses. *)
Definition by_paramId (id : Z) : filter_by_keys :=
  {| paramId := Some id; typeOfLevel := None; stepType := None |}.

Definition by_level (lev : string) : filter_by_keys :=
  {| paramId := None; typeOfLevel := Some lev; stepType := None |}.

Definition by_step_level (st lev : string) : filter_by_keys :=
  {| paramId := None; typeOfLevel := Some lev; stepType := Some st |}.

Definition empty_series : series :=
  {| prate := []; dlwrf := []; dswrf := []; stmp := []; spfh := [];
     uwind := []; vwind := []; prmsl := [] |}.

Definition grid_dims : list string := ["time"; "ny_grid"; "nx_grid"].

Section Extractor.

Variable list_objects_v2 : string → option (list s3_page).
Variable download_fileobj : string → option bytes.

(** The decoder on the bytes of a local file, under a selection filter;
    [None] when it raises. *)
Variable cfgrib : bytes → filter_by_keys → option grib_dataset.

(** [astype('float32')] on one value. *)
Variable float32 : Q → Q.

(** [(a >= lo) & (a <= hi)] on a float32 array [a] with Python-float
    bounds [lo] and [hi] (lines 274-275): NumPy makes both comparisons in
    float32, the type of the array, so each bound is cast to float32
    before it is compared. *)
Definition within32 (lo hi : Q) : Q → bool :=
  within (float32 lo) (float32 hi).

(** [xr.open_dataset(file, engine='cfgrib', backend_kwargs=...)] on a path
    of the inventory's temporary directory. *)
Definition open_dataset (inv : inventory) (file : string)
    (flt : filter_by_keys) : M grib_dataset :=
  or_raise (DecodeError file)
    (content ← tmpdir inv !! file; cfgrib content flt).

(** [GFS.modified_latlon], lines 264-290. *)
Definition modified_latlon (box : bbox) (inv : inventory) (grbfile : string)
  : M latlon :=
  let xmin' := wrap360 (xmin box) in
  let xmax' := wrap360 (xmax box) in
  let! ds := open_dataset inv grbfile (by_step_level "instant" "surface") in
  let lon := float32 <$> longitude ds in
  let lat := float32 <$> latitude ds in
  let lon_idxs := Np.where_ (within32 (xmin' - 1) (xmax' + 1)) lon in
  let lat_idxs := Np.where_ (within32 (ymin box - 1) (ymax box + 1)) lat in
  let! iymin := or_raise IndexError (head lat_idxs) in
  let! iymax := or_raise IndexError (last lat_idxs) in
  let! ixmin := or_raise IndexError (head lon_idxs) in
  let! ixmax := or_raise IndexError (last lon_idxs) in
  let lon2 := unwrap180 <$> Np.take_idxs lon lon_idxs in
  let lat2 := Np.take_idxs lat lat_idxs in
  let! _ := logger_info
              ("idx_ymin is " +:+ pretty iymin +:+ ", idx_ymax is "
               +:+ pretty iymax +:+ ", idx_xmin is " +:+ pretty ixmin
               +:+ ", idx_xmax is " +:+ pretty ixmax) in
  let grids := Np.meshgrid lon2 (reverse lat2) in
  ret {| nx_grid := grids.1; ny_grid := grids.2;
         idx_ymin := iymin; idx_ymax := iymax;
         idx_xmin := ixmin; idx_xmax := ixmax |}.

(** [a[idx_ymin:idx_ymax+1, idx_xmin:idx_xmax+1].astype('float32')]. *)
Definition window (ll : latlon) (a : array2) : array2 :=
  fmap float32
    <$> (Py.islice (idx_xmin ll) (S (idx_xmax ll))
           <$> Py.islice (idx_ymin ll) (S (idx_ymax ll)) a).

(** [tmp = ds[key2][...]; tmp[::-1, :]]: one field of an open dataset,
    windowed and with its rows reversed. *)
Definition take_field (ll : latlon) (ds : grib_dataset) (key2 : string)
  : M array2 :=
  let! a := or_raise (KeyError key2) (Xr.getitem key2 (fields ds)) in
  ret (reverse (window ll a)).

(** Lines 139-177, one iteration of the loop over [enumerate(grbfiles)].
    The loops over [Vars] and over the variables of a group are unrolled in
    the order of the dict; the lists that [Vars] refers to are the eight
    lists stacked later, and their appends are the record built at the
    end (an exception before it leaves [gen_sflux] with the lists). *)
Definition extract (inv : inventory) (ll : latlon) (acc : series)
    (entry : nat * string) : M series :=
  let file := entry.2 in
  let! _ := logger_info ("file " +:+ pretty entry.1 +:+ " is " +:+ file) in
  let! ds := open_dataset inv file (by_paramId 174096) in
  let! sh2 := take_field ll ds "sh2" in
  let! ds := open_dataset inv file (by_paramId 167) in
  let! t2m := take_field ll ds "t2m" in
  let! ds := open_dataset inv file (by_paramId 165) in
  let! u10 := take_field ll ds "u10" in
  let! ds := open_dataset inv file (by_paramId 166) in
  let! v10 := take_field ll ds "v10" in
  let! ds := open_dataset inv file (by_level "meanSea") in
  let! msl := take_field ll ds "prmsl" in
  let! ds := open_dataset inv file (by_step_level "instant" "surface") in
  let! pr := take_field ll ds "prate" in
  let! ds := open_dataset inv file (by_step_level "avg" "surface") in
  let! dl := take_field ll ds "dlwrf" in
  let! dsw := take_field ll ds "dswrf" in
  ret {| prate := prate acc ++ [pr]; dlwrf := dlwrf acc ++ [dl];
         dswrf := dswrf acc ++ [dsw]; stmp := stmp acc ++ [t2m];
         spfh := spfh acc ++ [sh2]; uwind := uwind acc ++ [u10];
         vwind := vwind acc ++ [v10]; prmsl := prmsl acc ++ [msl] |}.

(** Line 189: [np.round(np.arange(1, n+1)/24, 4).astype('float32')]. *)
Definition time_coord (n : nat) : array1 :=
  float32 <$> (Np.round 4 <$> Np.arange_div24 n).

(** Lines 179-192: the eight stacked series and the three coordinates. *)
Definition assemble (acc : series) (ll : latlon) (nfiles : nat) : M Dataset :=
  let! a_stmp := or_raise ValueError (Np.array (stmp acc)) in
  let! a_spfh := or_raise ValueError (Np.array (spfh acc)) in
  let! a_uwind := or_raise ValueError (Np.array (uwind acc)) in
  let! a_vwind := or_raise ValueError (Np.array (vwind acc)) in
  let! a_prmsl := or_raise ValueError (Np.array (prmsl acc)) in
  let! a_prate := or_raise ValueError (Np.array (prate acc)) in
  let! a_dlwrf := or_raise ValueError (Np.array (dlwrf acc)) in
  let! a_dswrf := or_raise ValueError (Np.array (dswrf acc)) in
  or_raise ValueError
    (Xr.mk_dataset
       [("stmp", (grid_dims, a_stmp)); ("spfh", (grid_dims, a_spfh));
        ("uwind", (grid_dims, a_uwind)); ("vwind", (grid_dims, a_vwind));
        ("prmsl", (grid_dims, a_prmsl)); ("prate", (grid_dims, a_prate));
        ("dlwrf", (grid_dims, a_dlwrf)); ("dswrf", (grid_dims, a_dswrf))]
       [("time", (["time"], Arr1 (time_coord nfiles)));
        ("lon", (["ny_grid"; "nx_grid"], Arr2 (nx_grid ll)));
        ("lat", (["ny_grid"; "nx_grid"], Arr2 (ny_grid ll)))]).

(** Lines 194-259: the attribute assignments, in source order. *)
Definition annotate (date : datetime) (fout : Dataset) : Dataset :=
  let cyc := hour date in
  let bdate := Z.of_nat <$> [year date; month date; day date; hour date] in
  let fout := Xr.set_attrs "time"
    [("long_name", AStr "Time"); ("standard_name", AStr "time");
     ("base_date", AInts (bdate ++ [0%Z]));
     ("units", AStr ("days since " +:+ pretty (year date) +:+ "-"
                     +:+ pretty (month date) +:+ "-" +:+ pretty (day date)
                     +:+ " " +:+ Py.fmt02d cyc +:+ ":00 UTC"))] fout in
  let fout := Xr.set_attrs "lat"
    [("units", AStr "degrees_north"); ("long_name", AStr "Latitude");
     ("standard_name", AStr "latitude")] fout in
  let fout := Xr.set_attrs "lon"
    [("units", AStr "degrees_east"); ("long_name", AStr "Longitude");
     ("standard_name", AStr "longitude")] fout in
  let fout := Xr.set_attrs "uwind"
    [("units", AStr "m/s"); ("long_name", AStr "10m_above_ground/UGRD");
     ("standard_name", AStr "eastward_wind")] fout in
  let fout := Xr.set_attrs "vwind"
    [("units", AStr "m/s"); ("long_name", AStr "10m_above_ground/VGRD");
     ("standard_name", AStr "northward_wind")] fout in
  let fout := Xr.set_attrs "spfh"
    [("units", AStr "kg kg-1");
     ("long_name", AStr "2m_above_ground/Specific Humidity");
     ("standard_name", AStr "specific_humidity")] fout in
  let fout := Xr.set_attrs "prmsl"
    [("units", AStr "Pa"); ("long_name", AStr "Pressure reduced to MSL");
     ("standard_name", AStr "air_pressure_at_sea_level")] fout in
  let fout := Xr.set_attrs "stmp"
    [("units", AStr "K"); ("long_name", AStr "2m_above_ground/Temperature")]
    fout in
  let fout := Xr.set_attrs "prate"
    [("units", AStr "kg m-2 s-1"); ("long_name", AStr "Precipitation rate")]
    fout in
  let fout := Xr.set_attrs "dlwrf"
    [("units", AStr "W m-2");
     ("long_name", AStr "Downward short-wave radiation flux")] fout in
  Xr.set_attrs "dswrf"
    [("units", AStr "W m-2");
     ("long_name", AStr "Downward long-wave radiation flux")] fout.

(** The output file of a day: [path / f'gfs_{ymd}{cycle:02d}.nc']. *)
Definition out_path (date : datetime) : string :=
  strftime_Ymd date +:+ "/gfs_" +:+ strftime_Ymd date
  +:+ Py.fmt02d (hour date) +:+ ".nc".

(** [GFS.gen_sflux], lines 110-261. [pscr] only places the temporary
    directory and is not a parameter of the model. *)
Definition gen_sflux (box : bbox) (date : datetime) (record : Z) : M () :=
  let! inv := AWSGrib2Inventory list_objects_v2 download_fileobj
                date record "atmos" in
  let grbfiles := files inv in
  let! _ := mkdir (strftime_Ymd date) in
  let! first := or_raise IndexError (head grbfiles) in
  let! ll := modified_latlon box inv first in
  let! acc := for_each (extract inv ll) empty_series
                (zip (seq 0 (length grbfiles)) grbfiles) in
  let! fout := assemble acc ll (length grbfiles) in
  to_netcdf (annotate date fout) (out_path date) "w" "NETCDF3_CLASSIC" "time".

End Extractor.

(** * Properties *)

(** ** Strings: substrings and the lexical order *)

(** [needle] occurs in [hay]. *)
Definition substring_of (needle hay : string) : Prop :=
  ∃ a b, hay = a +:+ needle +:+ b.

Lemma app_String (c : Ascii.ascii) (s b : string) :
  String c s +:+ b = String c (s +:+ b).
Proof. reflexivity. Qed.

Lemma app_empty_l (b : string) : "" +:+ b = b.
Proof. reflexivity. Qed.

Lemma app_empty_r (a : string) : a +:+ "" = a.
Proof. induction a as [|c a IH]; [done|]. by rewrite app_String, IH. Qed.

Lemma app_assoc_str (a b c : string) : (a +:+ b) +:+ c = a +:+ b +:+ c.
Proof.
  induction a as [|x a IH]; [done|]. by rewrite !app_String, IH.
Qed.

Lemma prefix_split (s1 s2 : string) :
  String.prefix s1 s2 = true ↔ ∃ b, s2 = s1 +:+ b.
Proof.
  revert s2. induction s1 as [|c s1 IH]; intros s2; simpl.
  - destruct s2; split; eauto.
  - destruct s2 as [|d s2].
    + split; [done | intros [b Hb]; discriminate].
    + simpl. setoid_rewrite app_String.
      destruct (Ascii.ascii_dec c d) as [->|Hne].
      * rewrite IH. split; intros [b Hb]; exists b; congruence.
      * split; [done | intros [b Hb]; congruence].
Qed.

Lemma str_in_spec (needle hay : string) :
  Py.str_in needle hay = true ↔ substring_of needle hay.
Proof.
  unfold substring_of. induction hay as [|c hay IH].
  - cbn [Py.str_in]. rewrite prefix_split. split.
    + intros [b Hb]. exists "", b. done.
    + intros (a & b & Hab). destruct a; [eauto|discriminate].
  - cbn [Py.str_in]. rewrite orb_true_iff, prefix_split, IH. split.
    + intros [[b Hb]|(a & b & Hab)].
      * exists "", b. done.
      * exists (String c a), b. by rewrite app_String, Hab.
    + intros (a & b & Hab). destruct a as [|d a].
      * left. eauto.
      * right. exists a, b. rewrite app_String in Hab. congruence.
Qed.

Lemma str_in_false (needle hay : string) :
  Py.str_in needle hay = false ↔ ¬ substring_of needle hay.
Proof.
  rewrite <- str_in_spec. destruct (Py.str_in needle hay); naive_solver.
Qed.

Lemma sorted_Permutation (l : list string) : Py.sorted l ≡ₚ l.
Proof. apply merge_sort_Permutation. Qed.

Lemma sorted_StronglySorted (l : list string) :
  StronglySorted String.le (Py.sorted l).
Proof. apply (StronglySorted_merge_sort String.le). Qed.

Lemma sorted_length (l : list string) : length (Py.sorted l) = length l.
Proof. apply Permutation_length, sorted_Permutation. Qed.

Lemma elem_of_sorted (l : list string) (x : string) : x ∈ Py.sorted l ↔ x ∈ l.
Proof. by rewrite sorted_Permutation. Qed.

(** ** The filtered listing *)

Lemma keep_key_spec (k : string) :
  keep_key k = true ↔
    substring_of "0p25" k ∧ substring_of "pgrb2" k
    ∧ ¬ substring_of "goessim" k ∧ ¬ substring_of "anl" k
    ∧ ¬ substring_of "idx" k.
Proof.
  unfold keep_key.
  rewrite !andb_true_iff, !negb_true_iff, !str_in_spec, !str_in_false.
  tauto.
Qed.

(** C3. For every remote listing, the keys retained by [__init__] are
    exactly the listed keys that contain ["0p25"] and ["pgrb2"] and none of
    ["goessim"], ["anl"], ["idx"] (each as often as it is listed), and they
    are arranged in lexically ascending order. *)
Theorem file_metadata_filtered_sorted (data : list s3_object) :
  (∀ k, k ∈ file_metadata data ↔
        k ∈ Key <$> data
        ∧ substring_of "0p25" k ∧ substring_of "pgrb2" k
        ∧ ¬ substring_of "goessim" k ∧ ¬ substring_of "anl" k
        ∧ ¬ substring_of "idx" k)
  ∧ file_metadata data
      ≡ₚ filter (λ k, keep_key k = true) (Key <$> data)
  ∧ StronglySorted String.le (file_metadata data).
Proof.
  assert (Hperm : file_metadata data
                    ≡ₚ filter (λ k, keep_key k = true) (Key <$> data)).
  { unfold file_metadata. rewrite sorted_Permutation.
    induction data as [|o data IH]; [done|].
    rewrite fmap_cons, !filter_cons. simpl.
    destruct (decide (keep_key (Key o) = true)); simpl; by rewrite IH. }
  split; [|split; [done | apply sorted_StronglySorted]].
  intros k. rewrite Hperm, list_elem_of_filter, keep_key_spec. tauto.
Qed.

(** ** The selected slice *)

Lemma slice_1_stop (A : Type) (l : list A) (n : Z) :
  (0 ≤ n)%Z → Py.slice 1 (n + 1) l = take (Z.to_nat n) (drop 1 l).
Proof.
  intros Hn. unfold Py.slice, Py.bound.
  destruct (Z.ltb_spec 1 0) as [?|_]; [lia|].
  destruct (Z.ltb_spec (n + 1) 0) as [?|_]; [lia|].
  destruct l as [|x l]; [by rewrite !drop_nil, !take_nil|].
  cbn [length]. rewrite Nat2Z.inj_succ.
  replace (Z.to_nat (Z.max 0 (Z.min (Z.succ (Z.of_nat (length l))) 1)))
    with 1%nat by lia.
  destruct (decide (n ≤ Z.of_nat (length l))%Z) as [Hle|Hgt].
  - f_equal. lia.
  - cbn [drop]. rewrite drop_0, !take_ge; [done| |]; lia.
Qed.

Lemma selected_eq (record : Z) (metadata : list string) :
  (0 ≤ record)%Z →
  selected record metadata = take (Z.to_nat (record * 24)) (drop 1 metadata).
Proof. intros ?. unfold selected. apply slice_1_stop. lia. Qed.

(** C2. When the sorted filtered listing holds the per-hour keys of hours
    [0..N] (position [h] holds hour [h], and the key of hour 0 is none of
    the others), the keys selected for download are the keys of hours
    [1 .. min(N, record*24)], in that order: the slice starts at the second
    entry, hour 0 is excluded, and it has exactly [min(N, record*24)]
    entries. [record] is a count, so it is not negative. *)
Theorem selected_skips_hour_0
    (key : nat → string) (N : nat) (record : Z) (data : list s3_object) :
  (∀ h, 1 ≤ h ≤ N → key h ≠ key 0) →
  (0 ≤ record)%Z →
  file_metadata data = key <$> seq 0 (S N) →
  let sel := selected record (file_metadata data) in
  let n := N `min` Z.to_nat (record * 24) in
  sel = key <$> seq 1 n
  ∧ length sel = n
  ∧ (key 0 ∉ sel)
  ∧ (∀ i, i < n → sel !! i = file_metadata data !! S i)
  ∧ (0 < n → head sel = Some (key 1)).
Proof.
  intros Hkey0 Hrec Hfm sel n.
  assert (Hsel : sel = key <$> seq 1 n).
  { unfold sel. rewrite selected_eq, Hfm by done.
    rewrite <- fmap_drop, <- fmap_take. f_equal.
    rewrite drop_seq, take_seq. f_equal. cbn. unfold n. lia. }
  split; [done|]. rewrite Hsel. split; [by rewrite length_fmap, length_seq|].
  split.
  { intros (h & Heq & Hin)%list_elem_of_fmap.
    apply elem_of_seq in Hin. apply (Hkey0 h); [unfold n in Hin; lia|done]. }
  split.
  - intros i Hi. rewrite Hfm, !list_lookup_fmap, !lookup_seq_lt by lia. done.
  - intros Hn. destruct n; [lia|]. done.
Qed.

(** ** The temporary directory after [__init__] *)

Lemma add_log_nil (w : world) : add_log [] w = w.
Proof. destruct w. unfold add_log. simpl. by rewrite app_nil_r. Qed.

Lemma add_log_app (a b : list string) (w : world) :
  add_log b (add_log a w) = add_log (a ++ b) w.
Proof. unfold add_log. simpl. by rewrite app_assoc. Qed.

Lemma length_app_str (a b : string) :
  String.length (a +:+ b) = String.length a + String.length b.
Proof.
  induction a as [|c a IH]; [done|]. rewrite app_String. simpl. by rewrite IH.
Qed.

Lemma app_inj_r (s a b : string) : a +:+ s = b +:+ s → a = b.
Proof.
  revert b. induction a as [|c a IH]; intros [|d b] Heq; [done| | |].
  - apply (f_equal String.length) in Heq.
    rewrite app_String, app_empty_l in Heq. simpl in Heq.
    rewrite length_app_str in Heq. lia.
  - apply (f_equal String.length) in Heq.
    rewrite app_String, app_empty_l in Heq. simpl in Heq.
    rewrite length_app_str in Heq. lia.
  - rewrite !app_String in Heq. injection Heq as -> Heq. f_equal. by apply IH.
Qed.

Definition grib2_name (key : string) : string := key +:+ ".grib2".

Global Instance grib2_name_inj : Inj (=) (=) grib2_name.
Proof. intros a b. apply app_inj_r. Qed.

Section RetrieverFacts.

Variable list_objects_v2 : string → option (list s3_page).
Variable download_fileobj : string → option bytes.

(** The directory after the loop of lines 52-62 over [keys]. *)
Definition fetched (fs : gmap string bytes) (keys : list string)
  : gmap string bytes :=
  foldl (λ fs k, <[ grib2_name k := default [] (download_fileobj k) ]> fs)
    fs keys.

(** The log lines of that loop. *)
Definition fetch_log (keys : list string) : list string :=
  keys ≫= λ k,
    ("Downloading file " +:+ k +:+ ", ")
    :: match download_fileobj k with
       | Some _ => []
       | None => ["file " +:+ k +:+ " is not available"]
       end.

Lemma fetch_run (fs : gmap string bytes) (k : string) (w : world) :
  fetch download_fileobj fs k w
  = (add_log (fetch_log [k]) w, Ok (fetched fs [k])).
Proof.
  unfold fetch, fetched, fetch_log, bind, logger_info, ret, grib2_name.
  simpl. destruct (download_fileobj k); simpl.
  - by rewrite insert_insert_eq.
  - by rewrite add_log_app.
Qed.

Lemma fetch_log_cons (k : string) (keys : list string) :
  fetch_log (k :: keys) = fetch_log [k] ++ fetch_log keys.
Proof. unfold fetch_log. simpl. by rewrite app_nil_r. Qed.

Lemma for_each_fetch_run (keys : list string) (fs : gmap string bytes)
    (w : world) :
  for_each (fetch download_fileobj) fs keys w
  = (add_log (fetch_log keys) w, Ok (fetched fs keys)).
Proof.
  revert fs w. induction keys as [|k keys IH]; intros fs w.
  - simpl. unfold ret. by rewrite add_log_nil.
  - cbn [for_each]. unfold bind at 1. rewrite fetch_run, IH.
    by rewrite add_log_app, (fetch_log_cons k keys).
Qed.

Lemma fetched_dom (keys : list string) (fs : gmap string bytes) :
  dom (fetched fs keys) = list_to_set (grib2_name <$> keys) ∪ dom fs.
Proof.
  revert fs. induction keys as [|k keys IH]; intros fs.
  - simpl. by rewrite (left_id_L ∅ (∪)).
  - change (fetched fs (k :: keys))
      with (fetched (<[ grib2_name k := default [] (download_fileobj k) ]> fs)
              keys).
    apply set_eq. intros x. rewrite IH, dom_insert_L, fmap_cons.
    cbn [list_to_set]. rewrite !elem_of_union. tauto.
Qed.

Lemma fetched_lookup_other (keys : list string) (fs : gmap string bytes)
    (p : string) :
  p ∉ grib2_name <$> keys → fetched fs keys !! p = fs !! p.
Proof.
  revert fs. induction keys as [|k keys IH]; intros fs Hp; [done|].
  change (fetched fs (k :: keys))
    with (fetched (<[ grib2_name k := default [] (download_fileobj k) ]> fs)
            keys).
  rewrite fmap_cons, not_elem_of_cons in Hp. destruct Hp as [Hne Hp].
  rewrite IH by done. by rewrite lookup_insert_ne.
Qed.

Lemma fetched_lookup (keys : list string) (fs : gmap string bytes)
    (k : string) :
  k ∈ keys →
  fetched fs keys !! grib2_name k = Some (default [] (download_fileobj k)).
Proof.
  revert fs. induction keys as [|k' keys IH]; intros fs Hk.
  - by apply elem_of_nil in Hk.
  - change (fetched fs (k' :: keys))
      with (fetched (<[ grib2_name k' := default [] (download_fileobj k') ]> fs)
              keys).
    destruct (decide (k ∈ keys)) as [Hin|Hnin]; [by apply IH|].
    apply elem_of_cons in Hk as [->|?]; [|done].
    rewrite fetched_lookup_other.
    + by rewrite lookup_insert_eq.
    + by rewrite (list_elem_of_fmap_inj grib2_name).
Qed.

(** [__init__] never raises once the listing has been read, whatever the
    downloads do. *)
Lemma AWSGrib2Inventory_run (date : datetime) (record : Z) (prod : string)
    (pages : list s3_page) (data : list s3_object) (w : world) :
  list_objects_v2 (cycle_dir date (hour date) prod) = Some pages →
  collect pages = Some data →
  let keys := selected record (file_metadata data) in
  AWSGrib2Inventory list_objects_v2 download_fileobj date record prod w
  = (add_log (fetch_log keys) w,
     Ok {| start_date := date; inv_record := record; product := prod;
           forecast_cycle := date; cycle := hour date;
           tmpdir := fetched ∅ keys |}).
Proof.
  intros Hpages Hdata keys. unfold AWSGrib2Inventory, bind, or_raise, ret.
  by rewrite Hpages, Hdata, for_each_fetch_run.
Qed.

End RetrieverFacts.

(** ** The glob of [files] *)

Lemma strip_prefix_spec (pre s rest : string) :
  strip_prefix pre s = Some rest ↔ s = pre +:+ rest.
Proof.
  revert s. induction pre as [|a pre IH]; intros s.
  - rewrite app_empty_l. simpl. split; congruence.
  - rewrite app_String. destruct s as [|b s]; simpl; [split; congruence|].
    destruct (Ascii.eqb_spec a b) as [->|Hne]; [|split; congruence].
    rewrite IH. split; congruence.
Qed.

Lemma strip_suffix_unfold (suf s : string) :
  strip_suffix suf s
  = if String.eqb s suf then Some EmptyString
    else match s with
         | EmptyString => None
         | String c s' => String c <$> strip_suffix suf s'
         end.
Proof. by destruct s. Qed.

Lemma strip_suffix_spec (suf s stem : string) :
  strip_suffix suf s = Some stem ↔ s = stem +:+ suf.
Proof.
  revert stem. induction s as [|c s IH]; intros stem;
    rewrite strip_suffix_unfold.
  - destruct (String.eqb_spec "" suf) as [<-|Hne].
    + destruct stem; [done|]. rewrite app_String. naive_solver.
    + split; [done|]. intros Heq. destruct stem; [|done].
      by rewrite app_empty_l in Heq.
  - destruct (String.eqb_spec (String c s) suf) as [<-|Hne].
    + split.
      * by intros [= <-].
      * intros Heq. apply (f_equal String.length) in Heq.
        rewrite length_app_str in Heq. destruct stem; [done|].
        simpl in Heq. lia.
    + destruct stem as [|d stem].
      * rewrite app_empty_l. split; [|done].
        destruct (strip_suffix suf s); done.
      * rewrite app_String. specialize (IH stem).
        destruct (strip_suffix suf s) as [t|]; simpl.
        -- split.
           ++ intros [= -> ->]. f_equal. by apply IH.
           ++ intros [= -> Heq]. do 2 f_equal. apply IH in Heq.
              by injection Heq.
        -- split; [done|]. intros [= -> Heq]. by apply IH in Heq.
Qed.

(** The model of the glob is the pattern [pre*suf] with a [*] that does
    not cross a directory separator. *)
Lemma glob_match_spec (pre suf path : string) :
  glob_match pre suf path = true ↔
    ∃ stem, path = pre +:+ stem +:+ suf ∧ ¬ substring_of "/" stem.
Proof.
  unfold glob_match. split.
  - destruct (strip_prefix pre path) as [rest|] eqn:Hpre; [|done].
    destruct (strip_suffix suf rest) as [stem|] eqn:Hsuf; [|done].
    rewrite negb_true_iff, str_in_false. intros Hstem.
    apply strip_prefix_spec in Hpre. apply strip_suffix_spec in Hsuf.
    exists stem. by subst.
  - intros (stem & -> & Hstem).
    rewrite (proj2 (strip_prefix_spec pre _ (stem +:+ suf)) eq_refl).
    rewrite (proj2 (strip_suffix_spec suf _ stem) eq_refl).
    by rewrite negb_true_iff, str_in_false.
Qed.

(** A per-hour key of the cycle: what [files] looks for, before the
    [.grib2] suffix. *)
Definition per_hour_key (date : datetime) (prod key : string) : Prop :=
  ∃ stem, key = grib_prefix date (hour date) prod +:+ stem
          ∧ ¬ substring_of "/" stem.

Lemma per_hour_key_glob (date : datetime) (prod key : string) :
  per_hour_key date prod key →
  glob_match (grib_prefix date (hour date) prod) ".grib2" (grib2_name key)
  = true.
Proof.
  intros (stem & -> & Hstem). apply glob_match_spec. exists stem.
  unfold grib2_name. by rewrite app_assoc_str.
Qed.

Lemma elem_of_files (inv : inventory) (p : string) :
  p ∈ files inv ↔
    glob_match (files_prefix inv) ".grib2" p = true ∧ is_Some (tmpdir inv !! p).
Proof.
  unfold files.
  by rewrite elem_of_sorted, list_elem_of_filter, elem_of_elements, elem_of_dom.
Qed.

Lemma files_StronglySorted (inv : inventory) :
  StronglySorted String.le (files inv).
Proof. apply sorted_StronglySorted. Qed.

Lemma files_NoDup (inv : inventory) : NoDup (files inv).
Proof.
  unfold files. rewrite sorted_Permutation.
  apply NoDup_filter, NoDup_elements.
Qed.

(** When every selected key is a distinct per-hour key, [files] lists
    exactly their local names. *)
Lemma files_Permutation (inv : inventory) (keys : list string) :
  dom (tmpdir inv) = list_to_set (grib2_name <$> keys) →
  NoDup keys →
  Forall (per_hour_key (forecast_cycle inv) (product inv)) keys →
  cycle inv = hour (forecast_cycle inv) →
  files inv ≡ₚ grib2_name <$> keys.
Proof.
  intros Hdom Hnd Hkeys Hcyc. apply NoDup_Permutation.
  - apply files_NoDup.
  - by apply (NoDup_fmap_2 grib2_name).
  - intros p. rewrite elem_of_files, <- elem_of_dom, Hdom, elem_of_list_to_set.
    split; [tauto|]. intros Hp. split; [|done].
    apply list_elem_of_fmap in Hp as (k & -> & Hk).
    rewrite Forall_forall in Hkeys. unfold files_prefix. rewrite Hcyc.
    by apply per_hour_key_glob, Hkeys.
Qed.

Lemma slice_sublist (A : Type) (start stop : Z) (l : list A) :
  Py.slice start stop l `sublist_of` l.
Proof.
  unfold Py.slice. etrans; [apply sublist_take | apply sublist_drop].
Qed.

(** Distinct bucket keys give distinct selected keys. *)
Lemma selected_NoDup (record : Z) (data : list s3_object) :
  NoDup (Key <$> data) → NoDup (selected record (file_metadata data)).
Proof.
  intros Hnd. eapply sublist_NoDup; [|apply slice_sublist].
  unfold file_metadata. rewrite sorted_Permutation.
  eapply sublist_NoDup; [exact Hnd|].
  apply fmap_sublist, sublist_filter.
Qed.

(** ** Running the monad *)

Lemma bind_Ok_inv {A B} (m : M A) (k : A → M B) (w w' : world) (b : B) :
  bind m k w = (w', Ok b) → ∃ a w1, m w = (w1, Ok a) ∧ k a w1 = (w', Ok b).
Proof.
  unfold bind. destruct (m w) as [w1 [a|e]]; [eauto | discriminate].
Qed.

Lemma or_raise_Ok_inv {A} (e : exn) (o : option A) (w w' : world) (a : A) :
  or_raise e o w = (w', Ok a) → o = Some a ∧ w' = w.
Proof. destruct o; unfold or_raise, ret, raise; naive_solver. Qed.

Lemma ret_Ok_inv {A} (a b : A) (w w' : world) :
  ret a w = (w', Ok b) → b = a ∧ w' = w.
Proof. unfold ret. naive_solver. Qed.

(** A computation that leaves the output files alone, whatever it
    returns. *)
Definition quiet {A} (m : M A) : Prop :=
  ∀ w, out_files (m w).1 = out_files w.

Lemma quiet_ret {A} (a : A) : quiet (ret a).
Proof. done. Qed.

Lemma quiet_raise {A} (e : exn) : quiet (raise (A:=A) e).
Proof. done. Qed.

Lemma quiet_or_raise {A} (e : exn) (o : option A) : quiet (or_raise e o).
Proof. by destruct o. Qed.

Lemma quiet_logger_info (msg : string) : quiet (logger_info msg).
Proof. done. Qed.

Lemma quiet_mkdir (path : string) : quiet (mkdir path).
Proof. done. Qed.

Lemma quiet_bind {A B} (m : M A) (k : A → M B) :
  quiet m → (∀ a, quiet (k a)) → quiet (bind m k).
Proof.
  intros Hm Hk w. unfold bind. specialize (Hm w).
  destruct (m w) as [w1 [a|e]]; simpl in *; [|done].
  by rewrite Hk.
Qed.

Lemma quiet_for_each {A S} (body : S → A → M S) (s : S) (l : list A) :
  (∀ s x, quiet (body s x)) → quiet (for_each body s l).
Proof.
  intros Hbody. revert s. induction l as [|x l IH]; intros s; simpl.
  - apply quiet_ret.
  - apply quiet_bind; auto.
Qed.

Ltac quiet_step :=
  first
    [ apply quiet_ret | apply quiet_raise | apply quiet_or_raise
    | apply quiet_logger_info | apply quiet_mkdir
    | apply quiet_bind | apply quiet_for_each
    | match goal with
      | |- quiet (match ?x with _ => _ end) => destruct x
      end ].

Ltac quiet_tac := repeat (intros; quiet_step).

(** A computation whose only change to the output files, if any, is one
    file written when it returns normally. *)
Definition writes_last (path : string) (written : netcdf_file → Prop)
    (m : M ()) : Prop :=
  ∀ w, match m w with
       | (w', Raise _) => out_files w' = out_files w
       | (w', Ok _) =>
           ∃ nc, written nc ∧ out_files w' = <[ path := nc ]> (out_files w)
       end.

Lemma writes_last_bind {A} path written (m : M A) (k : A → M ()) :
  quiet m → (∀ a, writes_last path written (k a)) →
  writes_last path written (bind m k).
Proof.
  intros Hm Hk w. unfold bind. specialize (Hm w).
  destruct (m w) as [w1 [a|e]]; simpl in *; [|done].
  specialize (Hk a w1). destruct (k a w1) as [w2 [[]|e]]; by rewrite <- Hm.
Qed.

Lemma writes_last_weaken path (P Q : netcdf_file → Prop) (m : M ()) :
  (∀ nc, P nc → Q nc) → writes_last path P m → writes_last path Q m.
Proof.
  intros HPQ Hm w. specialize (Hm w).
  destruct (m w) as [w1 [[]|e]]; [|done].
  destruct Hm as (nc & ? & ?). eauto.
Qed.

Lemma writes_last_to_netcdf (ds : Dataset) (path mode format unl : string) :
  writes_last path
    (λ nc, nc = {| nc_dataset := ds; nc_mode := mode; nc_format := format;
                   nc_unlimited_dims := unl |})
    (to_netcdf ds path mode format unl).
Proof. intros w. simpl. eauto. Qed.

(** ** Index selection *)

Lemma Qltb_spec (x y : Q) : Qltb x y = true ↔ (x < y)%Q.
Proof.
  unfold Qltb. rewrite negb_true_iff, <- not_true_iff_false, Qle_bool_iff.
  split; [apply Qnot_le_lt | apply Qlt_not_le].
Qed.

Lemma within_spec (lo hi v : Q) :
  within lo hi v = true ↔ (lo <= v)%Q ∧ (v <= hi)%Q.
Proof. unfold within. by rewrite andb_true_iff, !Qle_bool_iff. Qed.

Lemma elem_of_where_from {A} (p : A → bool) (i j : nat) (l : list A) :
  j ∈ Np.where_from p i l ↔ ∃ k x, j = i + k ∧ l !! k = Some x ∧ p x = true.
Proof.
  revert i. induction l as [|y l IH]; intros i; simpl.
  - rewrite elem_of_nil. split; [done|]. by intros (k & x & _ & ? & _).
  - assert (Hrest : j ∈ Np.where_from p (S i) l ↔
              ∃ k x, j = i + S k ∧ l !! k = Some x ∧ p x = true).
    { rewrite IH. by setoid_rewrite Nat.add_succ_r. }
    destruct (p y) eqn:Hy; [rewrite elem_of_cons|]; rewrite Hrest; split.
    + intros [->|(k & x & ? & ? & ?)].
      * exists 0, y. by rewrite Nat.add_0_r.
      * by exists (S k), x.
    + intros ([|k] & x & -> & Hk & Hx).
      * left. by rewrite Nat.add_0_r.
      * right. by exists k, x.
    + intros (k & x & ? & ? & ?). by exists (S k), x.
    + intros ([|k] & x & -> & Hk & Hx).
      * simpl in Hk. congruence.
      * by exists k, x.
Qed.

Lemma elem_of_where {A} (p : A → bool) (j : nat) (l : list A) :
  j ∈ Np.where_ p l ↔ ∃ x, l !! j = Some x ∧ p x = true.
Proof.
  unfold Np.where_. rewrite elem_of_where_from. split.
  - intros (k & x & -> & Hk & Hx). eauto.
  - intros (x & Hj & Hx). by exists j, x.
Qed.

Lemma where_from_sorted {A} (p : A → bool) (i : nat) (l : list A) :
  StronglySorted lt (Np.where_from p i l).
Proof.
  revert i. induction l as [|y l IH]; intros i; simpl; [constructor|].
  destruct (p y); [|done]. constructor; [done|].
  apply Forall_forall. intros j (k & x & -> & _)%elem_of_where_from. lia.
Qed.



Lemma take_idxs_where_from {A} (p : A → bool) (pre l : list A) :
  Np.take_idxs (pre ++ l) (Np.where_from p (length pre) l)
  = filter (λ x, p x = true) l.
Proof.
  revert pre. induction l as [|y l IH]; intros pre; [done|].
  specialize (IH (pre ++ [y])).
  rewrite <- app_assoc, length_app, Nat.add_1_r in IH. simpl in IH.
  rewrite filter_cons. simpl. destruct (p y) eqn:Hy.
  - rewrite decide_True by done. unfold Np.take_idxs in *. simpl.
    rewrite list_lookup_middle by done. simpl. f_equal. exact IH.
  - rewrite decide_False by done. exact IH.
Qed.

(** [a[np.where(mask)[0]]] keeps the elements that satisfy the mask. *)
Lemma take_idxs_where {A} (p : A → bool) (l : list A) :
  Np.take_idxs l (Np.where_ p l) = filter (λ x, p x = true) l.
Proof. apply (take_idxs_where_from p [] l). Qed.

Lemma take_idxs_seq {A} (l : list A) (a n : nat) :
  a + n ≤ length l → Np.take_idxs l (seq a n) = take n (drop a l).
Proof.
  revert a. induction n as [|n IH]; intros a Hlen; [by rewrite take_0|].
  unfold Np.take_idxs in *. simpl.
  destruct (lookup_lt_is_Some_2 l a) as [x Hx]; [lia|].
  rewrite Hx. simpl. rewrite IH by lia.
  rewrite (drop_S l x a Hx). done.
Qed.

Lemma length_take_idxs_where {A} (p : A → bool) (l : list A) :
  length (Np.take_idxs l (Np.where_ p l)) = length (Np.where_ p l).
Proof.
  unfold Np.take_idxs. generalize (λ j, proj1 (elem_of_where p j l)).
  induction (Np.where_ p l) as [|j js IH]; intros Hall; [done|].
  simpl. destruct (Hall j) as (x & -> & _); [left|].
  simpl. f_equal. apply IH. intros j' Hj'. apply Hall. by right.
Qed.

(** A strictly increasing list of indices that is as long as the interval
    from its first to its last element is that interval. *)
Lemma sorted_interval (l : list nat) (a b : nat) :
  StronglySorted lt l → head l = Some a → last l = Some b →
  S b - a ≤ length l → l = seq a (S b - a).
Proof.
  intros Hs. revert a. induction Hs as [|x l Hs IH Hall]; intros a Ha Hb Hlen.
  { done. }
  assert (x = a) as -> by (simpl in Ha; congruence). clear Ha.
  destruct l as [|y l].
  - assert (a = b) as -> by (simpl in Hb; congruence).
    by replace (S b - b) with 1 by lia.
  - rewrite last_cons_cons in Hb. apply Forall_cons in Hall as [Hay _].
    simpl in Hlen.
    assert (Hl : y :: l = seq y (S b - y)) by (apply IH; simpl; [done..|lia]).
    assert (S b - y ≠ 0) by (intros Hz; by rewrite Hz in Hl).
    assert (length (y :: l) = S b - y) as Hlen'
      by (by rewrite Hl at 1; rewrite length_seq).
    simpl in Hlen'. assert (y = S a) as -> by lia.
    rewrite Hl. replace (S b - a) with (S (S b - S a)) by lia. done.
Qed.

Lemma meshgrid_x_rows (x y : array1) (row : array1) :
  row ∈ (Np.meshgrid x y).1 → row = x.
Proof. simpl. by intros [-> _]%elem_of_replicate. Qed.

Lemma meshgrid_y_lookup (x y : array1) (i : nat) :
  (Np.meshgrid x y).2 !! i = (λ v, replicate (length x) v) <$> (y !! i).
Proof. simpl. apply list_lookup_fmap. Qed.

(** ** Slices of the native grid *)

Lemma islice_length {A} (i j : nat) (l : list A) :
  j ≤ length l → length (Py.islice i j l) = j - i.
Proof. intros Hj. unfold Py.islice. rewrite length_take, length_drop. lia. Qed.

Lemma islice_lookup {A} (i j k : nat) (l : list A) :
  k < j - i → Py.islice i j l !! k = l !! (i + k).
Proof.
  intros Hk. unfold Py.islice. by rewrite lookup_take_lt, lookup_drop.
Qed.

Lemma sorted_head_le_last (l : list nat) (a b : nat) :
  StronglySorted lt l → head l = Some a → last l = Some b → a ≤ b.
Proof.
  intros Hs Ha Hb. destruct Hs as [|x l Hs Hall]; [done|].
  assert (x = a) as -> by (simpl in Ha; congruence).
  destruct l as [|y l]; [simpl in Hb; injection Hb; lia|].
  rewrite last_cons_cons in Hb. apply last_Some_elem_of in Hb.
  rewrite Forall_forall in Hall. specialize (Hall b Hb). lia.
Qed.

Lemma where_bounds {A} (p : A → bool) (l : list A) (a b : nat) :
  head (Np.where_ p l) = Some a → last (Np.where_ p l) = Some b →
  a ≤ b ∧ b < length l.
Proof.
  intros Ha Hb. split.
  - eapply sorted_head_le_last; [apply (where_from_sorted p 0 l)|done..].
  - apply last_Some_elem_of, elem_of_where in Hb as (x & Hx & _).
    by eapply lookup_lt_Some.
Qed.

(** ** The size table of a dataset *)

Lemma add_dims_Some (sz sz' : gmap string nat) (ds : list string)
    (shp : list nat) :
  Xr.add_dims sz ds shp = Some sz' →
  sz ⊆ sz' ∧ Forall2 (λ d n, sz' !! d = Some n) ds shp.
Proof.
  revert sz shp. induction ds as [|d ds IH]; intros sz [|n shp] Hadd;
    simpl in Hadd; try done.
  { assert (sz' = sz) as -> by congruence. split; [done|constructor]. }
  destruct (sz !! d) as [m|] eqn:Hd.
  - case_bool_decide as Hmn; [subst m|done].
    destruct (IH _ _ Hadd) as [Hsub Hall]. split; [done|].
    constructor; [|done]. by eapply lookup_weaken.
  - destruct (IH _ _ Hadd) as [Hsub Hall]. split.
    + etrans; [|exact Hsub]. by apply insert_subseteq.
    + constructor; [|done]. eapply lookup_weaken; [|exact Hsub].
      apply lookup_insert_eq.
Qed.

Lemma calculate_dimensions_Some (sz sz' : gmap string nat)
    (vars : list (string * (list string * ndarray))) :
  Xr.calculate_dimensions sz vars = Some sz' →
  sz ⊆ sz'
  ∧ Forall (λ nv, Forall2 (λ d n, sz' !! d = Some n) nv.2.1 (Np.shape nv.2.2))
      vars.
Proof.
  revert sz. induction vars as [|[name [ds a]] vars IH]; intros sz Hc;
    simpl in Hc.
  { assert (sz' = sz) as -> by congruence. split; [done|constructor]. }
  destruct (Xr.add_dims sz ds (Np.shape a)) as [sz1|] eqn:Hadd; [|done].
  apply add_dims_Some in Hadd as [Hsub1 Hall1].
  destruct (IH _ Hc) as [Hsub Hall]. split; [by etrans|].
  constructor; [|done]. simpl.
  eapply Forall2_impl; [exact Hall1|]. intros d n Hdn.
  eapply lookup_weaken; [exact Hdn | exact Hsub].
Qed.

Lemma array_cons_Some (a : array2) (l : list array2) (t : ndarray) :
  Np.array (a :: l) = Some t → t = Arr3 (a :: l).
Proof.
  unfold Np.array. destruct (forallb _ _); [|done]. by intros [= <-].
Qed.

Lemma glob_grib2_name (date : datetime) (prod key : string) :
  glob_match (grib_prefix date (hour date) prod) ".grib2" (grib2_name key)
  = true
  ↔ per_hour_key date prod key.
Proof.
  split; [|apply per_hour_key_glob].
  intros (stem & Heq & Hstem)%glob_match_spec. exists stem. split; [|done].
  unfold grib2_name in Heq. rewrite <- app_assoc_str in Heq.
  by apply app_inj_r in Heq.
Qed.

(** ** Lexical order and forecast-hour order *)

Lemma le_app_prefix (p a b : string) :
  String.le (p +:+ a) (p +:+ b) ↔ String.le a b.
Proof.
  unfold String.le, String.leb.
  assert (String.compare (p +:+ a) (p +:+ b) = String.compare a b) as ->;
    [|done].
  induction p as [|c p IH]; [by rewrite !app_empty_l|].
  rewrite !app_String. simpl.
  assert (Ascii.compare c c = Eq) as ->; [|done].
  unfold Ascii.compare. by rewrite N.compare_refl.
Qed.

Lemma sorted_lookup_le {A} (R : relation A) (l : list A) (i j : nat) (x y : A) :
  StronglySorted R l → i < j → l !! i = Some x → l !! j = Some y → R x y.
Proof.
  intros Hs. revert i j. induction Hs as [|a l Hs IH Hall]; intros i j Hij Hi Hj.
  - done.
  - destruct j as [|j]; [lia|]. simpl in Hj. destruct i as [|i].
    + simpl in Hi. injection Hi as <-.
      rewrite Forall_forall in Hall. apply Hall.
      by eapply list_elem_of_lookup_2.
    + simpl in Hi. apply (IH i j); [lia|done..].
Qed.

(** The part of a local file name after the common prefix, for forecast
    hour [h]: three digits, zero-padded, as the bucket names its objects. *)
Definition hour_stem (h : nat) : string := Py.zfill 3 (pretty h) +:+ ".grib2".

Lemma hour_stem_succ (h : nat) :
  h < 999 → String.le (hour_stem h) (hour_stem (S h)).
Proof.
  assert (forallb (λ h, String.leb (hour_stem h) (hour_stem (S h)))
            (seq 0 999) = true) as Hall by (vm_compute; reflexivity).
  intros Hh. rewrite forallb_forall in Hall.
  apply Is_true_true, Hall, list_elem_of_In, elem_of_seq. lia.
Qed.

Lemma hour_stem_mono (h1 h2 : nat) :
  h1 ≤ h2 → h2 < 1000 → String.le (hour_stem h1) (hour_stem h2).
Proof.
  induction 1 as [|h2 Hle IH]; intros Hlt; [done|].
  etrans; [apply IH; lia|apply hour_stem_succ; lia].
Qed.

(** In [files], names of three-digit forecast hours come in the order of
    their hours. *)
Lemma files_hour_order (inv : inventory) (i j hi hj : nat) :
  hi < 1000 → hj < 1000 →
  files inv !! i = Some (files_prefix inv +:+ hour_stem hi) →
  files inv !! j = Some (files_prefix inv +:+ hour_stem hj) →
  i < j → hi < hj.
Proof.
  intros Hhi Hhj Hi Hj Hij.
  destruct (decide (hi < hj)) as [|Hge]; [done|]. exfalso.
  pose proof (sorted_lookup_le _ _ _ _ _ _ (files_StronglySorted inv)
                Hij Hi Hj) as Hle.
  assert (String.le (files_prefix inv +:+ hour_stem hj)
            (files_prefix inv +:+ hour_stem hi)) as Hge'.
  { apply le_app_prefix, hour_stem_mono; lia. }
  assert (files_prefix inv +:+ hour_stem hi
          = files_prefix inv +:+ hour_stem hj) as Heq
    by (by apply (anti_symm String.le)).
  rewrite <- Heq in Hj.
  pose proof (NoDup_lookup _ _ _ _ (files_NoDup inv) Hi Hj). lia.
Qed.

(** ** Rounding to four decimals *)

Lemma Qle_bool_false (x y : Q) : Qle_bool x y = false → (y < x)%Q.
Proof.
  intros Hb. apply Qnot_le_lt. intros Hle.
  apply Qle_bool_iff in Hle. congruence.
Qed.

Lemma rint_bounds (q : Q) :
  (inject_Z (Np.rint q) - q <= 1 # 2)%Q ∧ (q - inject_Z (Np.rint q) <= 1 # 2)%Q.
Proof.
  unfold Np.rint.
  pose proof (Qfloor_le q) as Hlo. pose proof (Qlt_floor q) as Hhi.
  rewrite inject_Z_plus in Hhi. change (inject_Z 1) with 1%Q in Hhi.
  destruct (Qle_bool (q - inject_Z (Qfloor q)) (1 # 2)) eqn:H1.
  - apply Qle_bool_iff in H1.
    destruct (Qle_bool (1 # 2) (q - inject_Z (Qfloor q))) eqn:H2.
    + apply Qle_bool_iff in H2. destruct (Z.even (Qfloor q)).
      * split; lra.
      * rewrite inject_Z_plus. change (inject_Z 1) with 1%Q. split; lra.
    + split; lra.
  - apply Qle_bool_false in H1.
    rewrite inject_Z_plus. change (inject_Z 1) with 1%Q. split; lra.
Qed.

Lemma rint_inject_Z (q : Q) (z : Z) : (q == inject_Z z)%Q → Np.rint q = z.
Proof.
  intros Hq. unfold Np.rint.
  assert (Qfloor q = z) as -> by (by rewrite Hq, Qfloor_Z).
  assert (Qle_bool (q - inject_Z z) (1 # 2) = true) as ->
    by (apply Qle_bool_iff; lra).
  destruct (Qle_bool (1 # 2) (q - inject_Z z)) eqn:H2; [|done].
  apply Qle_bool_iff in H2. lra.
Qed.

Lemma round4_bounds (q : Q) :
  (Np.round 4 q - q <= 1 # 20000)%Q ∧ (q - Np.round 4 q <= 1 # 20000)%Q.
Proof.
  unfold Np.round.
  change (inject_Z (10 ^ Z.of_nat 4)) with (10000 # 1)%Q.
  destruct (rint_bounds (q * (10000 # 1))) as [Hlo Hhi].
  set (z := inject_Z (Np.rint (q * (10000 # 1)))) in *.
  assert (z / (10000 # 1) == z * (1 # 10000))%Q as -> by (by field).
  split; lra.
Qed.

Lemma inject_Z_nat_lt (h h' : nat) :
  h < h' → (inject_Z (Z.of_nat h) + 1 <= inject_Z (Z.of_nat h'))%Q.
Proof.
  intros Hlt. change 1%Q with (inject_Z 1). rewrite <- inject_Z_plus.
  rewrite <- Zle_Qle. lia.
Qed.

Lemma round4_value (h : nat) :
  ∃ z, (Np.round 4 (inject_Z (Z.of_nat h) / 24) == inject_Z z / 10000)%Q
       ∧ (Np.round 4 (inject_Z (Z.of_nat h) / 24)
          - inject_Z (Z.of_nat h) / 24 <= 1 # 20000)%Q
       ∧ (inject_Z (Z.of_nat h) / 24
          - Np.round 4 (inject_Z (Z.of_nat h) / 24) <= 1 # 20000)%Q.
Proof. eexists. split; [reflexivity|apply round4_bounds]. Qed.

Section ExtractorFacts.

Variable list_objects_v2 : string → option (list s3_page).
Variable download_fileobj : string → option bytes.
Variable cfgrib : bytes → filter_by_keys → option grib_dataset.
Variable float32 : Q → Q.

Lemma quiet_AWSGrib2Inventory date record prod :
  quiet (AWSGrib2Inventory list_objects_v2 download_fileobj date record prod).
Proof. unfold AWSGrib2Inventory, fetch. quiet_tac. Qed.

Lemma quiet_open_dataset inv file flt :
  quiet (open_dataset cfgrib inv file flt).
Proof. unfold open_dataset. quiet_tac. Qed.

Lemma quiet_modified_latlon box inv file :
  quiet (modified_latlon cfgrib float32 box inv file).
Proof.
  unfold modified_latlon.
  repeat (intros; first [apply quiet_open_dataset | quiet_step]).
Qed.

Lemma quiet_extract inv ll acc entry :
  quiet (extract cfgrib float32 inv ll acc entry).
Proof.
  unfold extract, take_field.
  repeat (intros; first [apply quiet_open_dataset | quiet_step]).
Qed.

Lemma quiet_assemble acc ll n : quiet (assemble float32 acc ll n).
Proof. unfold assemble. quiet_tac. Qed.

(** C8. [gen_sflux] writes the day's file as its last step only: when it
    raises (in the listing, the window computation, the decoding or the
    assembly) the output files are what they were before the call, and when
    it returns it has written exactly one file, the annotated dataset, at
    the day's path. *)
Theorem gen_sflux_writes_last (box : bbox) (date : datetime) (record : Z)
    (w : world) :
  match gen_sflux list_objects_v2 download_fileobj cfgrib float32
          box date record w with
  | (w', Raise _) => out_files w' = out_files w
  | (w', Ok _) =>
      ∃ fout, out_files w'
              = <[ out_path date :=
                     {| nc_dataset := annotate date fout; nc_mode := "w";
                        nc_format := "NETCDF3_CLASSIC";
                        nc_unlimited_dims := "time" |} ]> (out_files w)
  end.
Proof.
  assert (Hlast : writes_last (out_path date)
            (λ nc, ∃ fout,
               nc = {| nc_dataset := annotate date fout; nc_mode := "w";
                       nc_format := "NETCDF3_CLASSIC";
                       nc_unlimited_dims := "time" |})
            (gen_sflux list_objects_v2 download_fileobj cfgrib float32
               box date record)).
  { unfold gen_sflux.
    apply writes_last_bind; [apply quiet_AWSGrib2Inventory | intros inv].
    apply writes_last_bind; [apply quiet_mkdir | intros _].
    apply writes_last_bind; [apply quiet_or_raise | intros first].
    apply writes_last_bind; [apply quiet_modified_latlon | intros ll].
    apply writes_last_bind;
      [apply quiet_for_each; intros; apply quiet_extract | intros acc].
    apply writes_last_bind; [apply quiet_assemble | intros fout].
    eapply writes_last_weaken; [|apply writes_last_to_netcdf].
    intros nc ->. by exists fout. }
  specialize (Hlast w).
  destruct (gen_sflux _ _ _ _ _ _ _ w) as [w' [[]|e]]; [|done].
  destruct Hlast as (nc & [fout ->] & Hout). by exists fout.
Qed.

(** ** The window of [modified_latlon] *)

Definition native_lon (ds : grib_dataset) : array1 := float32 <$> longitude ds.

Definition native_lat (ds : grib_dataset) : array1 := float32 <$> latitude ds.

(** The longitudes and latitudes the padded box keeps, its bounds
    compared as float32. *)
Definition lon_match (box : bbox) : Q → bool :=
  within32 float32 (wrap360 (xmin box) - 1) (wrap360 (xmax box) + 1).

Definition lat_match (box : bbox) : Q → bool :=
  within32 float32 (ymin box - 1) (ymax box + 1).

Lemma lon_match_spec box v :
  lon_match box v = true
  ↔ (float32 (wrap360 (xmin box) - 1) <= v)%Q
    ∧ (v <= float32 (wrap360 (xmax box) + 1))%Q.
Proof. apply within_spec. Qed.

Lemma lat_match_spec box v :
  lat_match box v = true
  ↔ (float32 (ymin box - 1) <= v)%Q ∧ (v <= float32 (ymax box + 1))%Q.
Proof. apply within_spec. Qed.

Definition lon_idxs (box : bbox) (ds : grib_dataset) : list nat :=
  Np.where_ (lon_match box) (native_lon ds).

Definition lat_idxs (box : bbox) (ds : grib_dataset) : list nat :=
  Np.where_ (lat_match box) (native_lat ds).

(** What [modified_latlon] computes from the decoded coordinates. *)
Definition window_of (box : bbox) (ds : grib_dataset) : option latlon :=
  iymin ← head (lat_idxs box ds);
  iymax ← last (lat_idxs box ds);
  ixmin ← head (lon_idxs box ds);
  ixmax ← last (lon_idxs box ds);
  let lon2 := unwrap180 <$> Np.take_idxs (native_lon ds) (lon_idxs box ds) in
  let lat2 := Np.take_idxs (native_lat ds) (lat_idxs box ds) in
  Some {| nx_grid := (Np.meshgrid lon2 (reverse lat2)).1;
          ny_grid := (Np.meshgrid lon2 (reverse lat2)).2;
          idx_ymin := iymin; idx_ymax := iymax;
          idx_xmin := ixmin; idx_xmax := ixmax |}.

Definition idx_message (ll : latlon) : string :=
  "idx_ymin is " +:+ pretty (idx_ymin ll) +:+ ", idx_ymax is "
  +:+ pretty (idx_ymax ll) +:+ ", idx_xmin is " +:+ pretty (idx_xmin ll)
  +:+ ", idx_xmax is " +:+ pretty (idx_xmax ll).

(** The bytes of a local file, decoded under a filter. *)
Definition decoded (inv : inventory) (file : string) (flt : filter_by_keys)
  : option grib_dataset :=
  content ← tmpdir inv !! file; cfgrib content flt.

Lemma open_dataset_run inv file flt w :
  open_dataset cfgrib inv file flt w
  = match decoded inv file flt with
    | Some ds => (w, Ok ds)
    | None => (w, Raise (DecodeError file))
    end.
Proof. unfold open_dataset, decoded, or_raise. by destruct (_ ≫= _). Qed.

Lemma modified_latlon_run box inv file w :
  modified_latlon cfgrib float32 box inv file w
  = match decoded inv file (by_step_level "instant" "surface") with
    | None => (w, Raise (DecodeError file))
    | Some ds =>
        match window_of box ds with
        | Some ll => (add_log [idx_message ll] w, Ok ll)
        | None => (w, Raise IndexError)
        end
    end.
Proof.
  unfold modified_latlon, bind. rewrite open_dataset_run.
  destruct (decoded inv file _) as [ds|]; [|done].
  unfold window_of. fold (native_lon ds) (native_lat ds).
  fold (lon_match box) (lat_match box).
  fold (lon_idxs box ds) (lat_idxs box ds).
  destruct (head (lat_idxs box ds)) as [iymin|]; [|done].
  destruct (last (lat_idxs box ds)) as [iymax|]; [|done].
  destruct (head (lon_idxs box ds)) as [ixmin|]; [|done].
  destruct (last (lon_idxs box ds)) as [ixmax|]; [|done].
  done.
Qed.


Lemma window_of_Some box ds ll :
  window_of box ds = Some ll →
  head (lat_idxs box ds) = Some (idx_ymin ll)
  ∧ last (lat_idxs box ds) = Some (idx_ymax ll)
  ∧ head (lon_idxs box ds) = Some (idx_xmin ll)
  ∧ last (lon_idxs box ds) = Some (idx_xmax ll)
  ∧ nx_grid ll
    = replicate (length (lat_idxs box ds))
        (unwrap180 <$> filter (λ v, lon_match box v = true) (native_lon ds))
  ∧ ny_grid ll
    = (λ v, replicate (length (lon_idxs box ds)) v)
        <$> reverse (filter (λ v, lat_match box v = true) (native_lat ds)).
Proof.
  unfold window_of. intros Hw.
  destruct (head (lat_idxs box ds)) as [iymin|]; [|done].
  destruct (last (lat_idxs box ds)) as [iymax|]; [|done].
  destruct (head (lon_idxs box ds)) as [ixmin|]; [|done].
  destruct (last (lon_idxs box ds)) as [ixmax|]; [|done].
  simpl in Hw. injection Hw as <-. simpl.
  unfold lon_idxs, lat_idxs.
  rewrite !length_fmap, !length_reverse, !length_take_idxs_where.
  by rewrite !take_idxs_where.
Qed.

Lemma modified_latlon_Ok_inv box inv file w w' ll :
  modified_latlon cfgrib float32 box inv file w = (w', Ok ll) →
  ∃ ds, decoded inv file (by_step_level "instant" "surface") = Some ds
        ∧ window_of box ds = Some ll
        ∧ w' = add_log [idx_message ll] w.
Proof.
  rewrite modified_latlon_run.
  destruct (decoded inv file _) as [ds|]; [|done].
  destruct (window_of box ds) as [ll'|] eqn:Hwin; [|done].
  intros [= <- <-]. by exists ds.
Qed.

Lemma unwrap180_range (v : Q) :
  (0 <= v)%Q → (v < 360)%Q → (-180 < unwrap180 v)%Q ∧ (unwrap180 v <= 180)%Q.
Proof.
  intros H0 H360. unfold unwrap180.
  destruct (Qltb 180 v) eqn:Hv.
  - apply Qltb_spec in Hv. split; lra.
  - apply not_true_iff_false in Hv. rewrite Qltb_spec in Hv.
    apply Qnot_lt_le in Hv. split; lra.
Qed.

Lemma wrap360_neg (x : Q) : (x < 0)%Q → wrap360 x = (x + 360)%Q.
Proof. intros Hx. unfold wrap360. by rewrite (proj2 (Qltb_spec x 0) Hx). Qed.

Lemma wrap360_nonneg (x : Q) : (0 <= x)%Q → wrap360 x = x.
Proof.
  intros Hx. unfold wrap360. destruct (Qltb x 0) eqn:Hlt; [|done].
  apply Qltb_spec in Hlt. lra.
Qed.

(** The box with its west bound replaced. *)
Definition with_xmin (x : Q) (box : bbox) : bbox :=
  {| xmin := x; xmax := xmax box; ymin := ymin box; ymax := ymax box |}.

(** C5. Under the product's native convention (longitudes in [0, 360)),
    every longitude of the grid returned by [modified_latlon] lies in
    (-180, 180]; and a box whose [xmin] is a negative longitude gives the
    same result (grids, the four window indices, log line) as the box with
    [xmin + 360] in its place. *)
Theorem modified_latlon_longitude_convention box inv file w :
  (∀ ds w' ll,
     decoded inv file (by_step_level "instant" "surface") = Some ds →
     Forall (λ v, (0 <= v)%Q ∧ (v < 360)%Q) (native_lon ds) →
     modified_latlon cfgrib float32 box inv file w = (w', Ok ll) →
     Forall (Forall (λ v, (-180 < v)%Q ∧ (v <= 180)%Q)) (nx_grid ll))
  ∧ ((xmin box < 0)%Q → (-360 <= xmin box)%Q →
     modified_latlon cfgrib float32 box inv file w
     = modified_latlon cfgrib float32
         (with_xmin (xmin box + 360) box) inv file w).
Proof.
  split.
  - intros ds w' ll Hds Hnative Hrun.
    apply modified_latlon_Ok_inv in Hrun as (ds' & Hds' & Hwin & _).
    assert (ds' = ds) as -> by congruence.
    apply window_of_Some in Hwin as (_ & _ & _ & _ & -> & _).
    apply Forall_replicate, Forall_fmap, Forall_forall.
    intros v [_ Hv]%list_elem_of_filter. simpl.
    rewrite Forall_forall in Hnative. destruct (Hnative v Hv).
    by apply unwrap180_range.
  - intros Hneg Hge. rewrite !modified_latlon_run.
    destruct (decoded inv file _) as [ds|]; [|done].
    assert (Hw : window_of (with_xmin (xmin box + 360) box) ds
                 = window_of box ds).
    { unfold window_of, lon_idxs, lat_idxs, lon_match, lat_match. simpl.
      rewrite (wrap360_neg (xmin box)) by done.
      rewrite (wrap360_nonneg (xmin box + 360)) by lra. done. }
    by rewrite Hw.
Qed.



(** ** The loop of [gen_sflux] *)

(** The eight output variables, as [Vars] pairs them with a grib short
    name, a selection filter and a list. *)
Inductive gvar :=
| Vstmp | Vspfh | Vuwind | Vvwind | Vprmsl | Vprate | Vdlwrf | Vdswrf.

Definition var_name (v : gvar) : string :=
  match v with
  | Vstmp => "stmp" | Vspfh => "spfh" | Vuwind => "uwind"
  | Vvwind => "vwind" | Vprmsl => "prmsl" | Vprate => "prate"
  | Vdlwrf => "dlwrf" | Vdswrf => "dswrf"
  end.

Definition grib_name (v : gvar) : string :=
  match v with
  | Vstmp => "t2m" | Vspfh => "sh2" | Vuwind => "u10" | Vvwind => "v10"
  | Vprmsl => "prmsl" | Vprate => "prate"
  | Vdlwrf => "dlwrf" | Vdswrf => "dswrf"
  end.

Definition var_filter (v : gvar) : filter_by_keys :=
  match v with
  | Vstmp => by_paramId 167
  | Vspfh => by_paramId 174096
  | Vuwind => by_paramId 165
  | Vvwind => by_paramId 166
  | Vprmsl => by_level "meanSea"
  | Vprate => by_step_level "instant" "surface"
  | Vdlwrf | Vdswrf => by_step_level "avg" "surface"
  end.

Definition var_series (v : gvar) (acc : series) : list array2 :=
  match v with
  | Vstmp => stmp acc | Vspfh => spfh acc | Vuwind => uwind acc
  | Vvwind => vwind acc | Vprmsl => prmsl acc | Vprate => prate acc
  | Vdlwrf => dlwrf acc | Vdswrf => dswrf acc
  end.

(** The field of a variable as the decoder returns it for a local file. *)
Definition native_field (inv : inventory) (file : string) (v : gvar)
  : option array2 :=
  ds ← decoded inv file (var_filter v);
  Xr.getitem (grib_name v) (fields ds).

Lemma take_field_run ll ds key2 w :
  take_field float32 ll ds key2 w
  = match Xr.getitem key2 (fields ds) with
    | Some a => (w, Ok (reverse (window float32 ll a)))
    | None => (w, Raise (KeyError key2))
    end.
Proof. unfold take_field, bind, or_raise. by destruct (Xr.getitem _ _). Qed.

Ltac extract_step :=
  first
    [ rewrite open_dataset_run
    | rewrite take_field_run
    | match goal with
      | |- context [decoded ?i ?f ?flt] =>
          let E := fresh "Hds" in destruct (decoded i f flt) eqn:E; [|done]
      | |- context [Xr.getitem ?k (fields ?d)] =>
          let E := fresh "Hfld" in
          destruct (Xr.getitem k (fields d)) eqn:E; [|done]
      end ].

Lemma extract_Ok_inv inv ll acc entry w w' acc' :
  extract cfgrib float32 inv ll acc entry w = (w', Ok acc') →
  ∀ v, ∃ a, native_field inv entry.2 v = Some a
            ∧ var_series v acc'
              = var_series v acc ++ [reverse (window float32 ll a)].
Proof.
  unfold extract, bind. simpl. repeat extract_step.
  intros [= <- <-] v. unfold native_field.
  destruct v; simpl; simplify_option_eq; eauto.
Qed.


Lemma extract_loop_Ok_inv inv ll (fs : list string) :
  ∀ i acc w w' acc',
    for_each (extract cfgrib float32 inv ll) acc
      (zip (seq i (length fs)) fs) w = (w', Ok acc') →
    ∀ v, ∃ natives,
      Forall2 (λ f a, native_field inv f v = Some a) fs natives
      ∧ var_series v acc'
        = var_series v acc
          ++ ((λ a, reverse (window float32 ll a)) <$> natives).
Proof.
  induction fs as [|f fs IH]; intros i acc w w' acc' Hrun v.
  - apply ret_Ok_inv in Hrun as [-> _]. exists []. split; [constructor|].
    by rewrite app_nil_r.
  - cbn [length seq zip zip_with for_each] in Hrun.
    apply bind_Ok_inv in Hrun as (acc1 & w1 & Hone & Hrest).
    destruct (extract_Ok_inv _ _ _ _ _ _ _ Hone v) as (a & Ha & Hacc1).
    destruct (IH _ _ _ _ _ Hrest v) as (natives & Hnat & Hacc').
    exists (a :: natives). split; [by constructor|].
    rewrite Hacc', Hacc1, <- app_assoc. done.
Qed.

(** The three coordinates handed to [xr.Dataset]. *)
Definition coords_of (ll : latlon) (n : nat)
  : list (string * (list string * ndarray)) :=
  [("time", (["time"], Arr1 (time_coord float32 n)));
   ("lon", (["ny_grid"; "nx_grid"], Arr2 (nx_grid ll)));
   ("lat", (["ny_grid"; "nx_grid"], Arr2 (ny_grid ll)))].

(** The eight data variables handed to [xr.Dataset], in source order. *)
Definition data_vars_of (arr : gvar → ndarray)
  : list (string * (list string * ndarray)) :=
  (λ v, (var_name v, (grid_dims, arr v)))
    <$> [Vstmp; Vspfh; Vuwind; Vvwind; Vprmsl; Vprate; Vdlwrf; Vdswrf].

Lemma assemble_Ok_inv acc ll n w w' fout :
  assemble float32 acc ll n w = (w', Ok fout) →
  w' = w
  ∧ ∃ arr sz,
      (∀ v, Np.array (var_series v acc) = Some (arr v))
      ∧ Xr.calculate_dimensions ∅ (coords_of ll n ++ data_vars_of arr)
        = Some sz
      ∧ fout = {| data_vars := Xr.as_variable <$> data_vars_of arr;
                  coords := Xr.as_variable <$> coords_of ll n;
                  sizes := sz |}.
Proof.
  unfold assemble, bind, or_raise, ret, raise.
  destruct (Np.array (stmp acc)) as [a1|] eqn:H1; [|done].
  destruct (Np.array (spfh acc)) as [a2|] eqn:H2; [|done].
  destruct (Np.array (uwind acc)) as [a3|] eqn:H3; [|done].
  destruct (Np.array (vwind acc)) as [a4|] eqn:H4; [|done].
  destruct (Np.array (prmsl acc)) as [a5|] eqn:H5; [|done].
  destruct (Np.array (prate acc)) as [a6|] eqn:H6; [|done].
  destruct (Np.array (dlwrf acc)) as [a7|] eqn:H7; [|done].
  destruct (Np.array (dswrf acc)) as [a8|] eqn:H8; [|done].
  pose (arr := λ v, match v with
                    | Vstmp => a1 | Vspfh => a2 | Vuwind => a3 | Vvwind => a4
                    | Vprmsl => a5 | Vprate => a6 | Vdlwrf => a7 | Vdswrf => a8
                    end).
  change (Xr.mk_dataset _ _)
    with (Xr.mk_dataset (data_vars_of arr) (coords_of ll n)).
  unfold Xr.mk_dataset.
  destruct (Xr.calculate_dimensions ∅ _) as [sz|] eqn:Hsz; [|done].
  simpl. intros [= <- <-]. split; [done|]. exists arr, sz.
  split; [by intros []|]. done.
Qed.


Lemma quiet_run {A} (m : M A) (w w' : world) (r : result A) :
  quiet m → m w = (w', r) → out_files w' = out_files w.
Proof. intros Hq Hrun. specialize (Hq w). by rewrite Hrun in Hq. Qed.

(** The dataset [gen_sflux] hands to [to_netcdf]. *)
Definition day_dataset (date : datetime) (ll : latlon) (n : nat)
    (arr : gvar → ndarray) (sz : gmap string nat) : Dataset :=
  annotate date
    {| data_vars := Xr.as_variable <$> data_vars_of arr;
       coords := Xr.as_variable <$> coords_of ll n;
       sizes := sz |}.

(** What a normal return of [gen_sflux] went through. *)
Lemma gen_sflux_Ok_inv box date record w w' :
  gen_sflux list_objects_v2 download_fileobj cfgrib float32
    box date record w = (w', Ok ()) →
  ∃ inv w1 first ds0 ll arr sz,
    AWSGrib2Inventory list_objects_v2 download_fileobj date record "atmos" w
    = (w1, Ok inv)
    ∧ head (files inv) = Some first
    ∧ decoded inv first (by_step_level "instant" "surface") = Some ds0
    ∧ window_of box ds0 = Some ll
    ∧ (∀ v, ∃ natives,
         Forall2 (λ f a, native_field inv f v = Some a) (files inv) natives
         ∧ arr v = Arr3 ((λ a, reverse (window float32 ll a)) <$> natives))
    ∧ Xr.calculate_dimensions ∅
        (coords_of ll (length (files inv)) ++ data_vars_of arr) = Some sz
    ∧ out_files w'
      = <[ out_path date :=
             {| nc_dataset := day_dataset date ll (length (files inv)) arr sz;
                nc_mode := "w"; nc_format := "NETCDF3_CLASSIC";
                nc_unlimited_dims := "time" |} ]> (out_files w).
Proof.
  unfold gen_sflux. intros Hrun.
  apply bind_Ok_inv in Hrun as (inv & w1 & Hinv & Hrun).
  apply bind_Ok_inv in Hrun as ([] & w2 & Hmk & Hrun).
  apply bind_Ok_inv in Hrun as (first & w3 & Hfirst & Hrun).
  apply or_raise_Ok_inv in Hfirst as [Hfirst ->].
  apply bind_Ok_inv in Hrun as (ll & w4 & Hll & Hrun).
  apply bind_Ok_inv in Hrun as (acc & w5 & Hloop & Hrun).
  apply bind_Ok_inv in Hrun as (fout & w6 & Hasm & Hrun).
  pose proof (quiet_run _ _ _ _ (quiet_AWSGrib2Inventory _ _ _) Hinv) as Q1.
  pose proof (quiet_run _ _ _ _ (quiet_mkdir _) Hmk) as Q2.
  pose proof (quiet_run _ _ _ _ (quiet_modified_latlon _ _ _) Hll) as Q4.
  pose proof (quiet_run _ _ _ _
                (quiet_for_each _ _ _ (quiet_extract inv ll)) Hloop) as Q5.
  apply modified_latlon_Ok_inv in Hll as (ds0 & Hds0 & Hwin & _).
  apply assemble_Ok_inv in Hasm as (-> & arr & sz & Harr & Hsz & ->).
  exists inv, w1, first, ds0, ll, arr, sz.
  split; [done|]. split; [done|]. split; [done|]. split; [done|].
  split; [|split; [done|]].
  - intros v.
    destruct (extract_loop_Ok_inv _ _ _ _ _ _ _ _ Hloop v)
      as (natives & Hnat & Hser).
    exists natives. split; [done|].
    specialize (Harr v). rewrite Hser in Harr.
    assert (var_series v empty_series = []) as Hnil by (by destruct v).
    rewrite Hnil, app_nil_l in Harr.
    destruct natives as [|a natives].
    + apply Forall2_nil_inv_r in Hnat. by rewrite Hnat in Hfirst.
    + by apply array_cons_Some in Harr.
  - unfold to_netcdf in Hrun. injection Hrun as <-.
    simpl. by rewrite Q5, Q4, Q2, Q1.
Qed.


(** ** The attributes of the written dataset *)

(** The attribute table as the specification tabulates it (section 4.2),
    row by row; [stmp], [prate], [dlwrf] and [dswrf] have no
    [standard_name], and the long names of [dlwrf] and [dswrf] are the
    swapped ones. *)
Definition attribute_table (v : gvar) : list (string * attr) :=
  match v with
  | Vuwind => [("units", AStr "m/s");
               ("long_name", AStr "10m_above_ground/UGRD");
               ("standard_name", AStr "eastward_wind")]
  | Vvwind => [("units", AStr "m/s");
               ("long_name", AStr "10m_above_ground/VGRD");
               ("standard_name", AStr "northward_wind")]
  | Vspfh => [("units", AStr "kg kg-1");
              ("long_name", AStr "2m_above_ground/Specific Humidity");
              ("standard_name", AStr "specific_humidity")]
  | Vprmsl => [("units", AStr "Pa");
               ("long_name", AStr "Pressure reduced to MSL");
               ("standard_name", AStr "air_pressure_at_sea_level")]
  | Vstmp => [("units", AStr "K");
              ("long_name", AStr "2m_above_ground/Temperature")]
  | Vprate => [("units", AStr "kg m-2 s-1");
               ("long_name", AStr "Precipitation rate")]
  | Vdlwrf => [("units", AStr "W m-2");
               ("long_name", AStr "Downward short-wave radiation flux")]
  | Vdswrf => [("units", AStr "W m-2");
               ("long_name", AStr "Downward long-wave radiation flux")]
  end.

Lemma day_dataset_var date ll n arr sz v :
  Xr.getvar (var_name v) (day_dataset date ll n arr sz)
  = Some {| dims := grid_dims; values := arr v; attrs := attribute_table v |}.
Proof. by destruct v. Qed.

Lemma day_dataset_time date ll n arr sz :
  ∃ a, Xr.getvar "time" (day_dataset date ll n arr sz)
       = Some {| dims := ["time"]; values := Arr1 (time_coord float32 n);
                 attrs := a |}.
Proof. by eexists. Qed.

Lemma day_dataset_lon date ll n arr sz :
  ∃ a, Xr.getvar "lon" (day_dataset date ll n arr sz)
       = Some {| dims := ["ny_grid"; "nx_grid"]; values := Arr2 (nx_grid ll);
                 attrs := a |}.
Proof. by eexists. Qed.

Lemma day_dataset_lat date ll n arr sz :
  ∃ a, Xr.getvar "lat" (day_dataset date ll n arr sz)
       = Some {| dims := ["ny_grid"; "nx_grid"]; values := Arr2 (ny_grid ll);
                 attrs := a |}.
Proof. by eexists. Qed.

(** C6. The dataset written by [gen_sflux] carries, for each of the eight
    variables, exactly the attributes of the specification's table: units
    and standard names as tabulated, no [standard_name] on [stmp],
    [prate], [dlwrf], [dswrf], and the long name of [dlwrf] reading
    short-wave while that of [dswrf] reads long-wave. *)
Theorem gen_sflux_attribute_table box date record w w' :
  gen_sflux list_objects_v2 download_fileobj cfgrib float32
    box date record w = (w', Ok ()) →
  ∃ nc, out_files w' !! out_path date = Some nc
    ∧ (∀ v, ∃ var, Xr.getvar (var_name v) (nc_dataset nc) = Some var
                   ∧ attrs var = attribute_table v)
    ∧ (∀ v, v ∈ [Vstmp; Vprate; Vdlwrf; Vdswrf] →
            Xr.getitem "standard_name" (attribute_table v) = None)
    ∧ Xr.getitem "long_name" (attribute_table Vdlwrf)
      = Some (AStr "Downward short-wave radiation flux")
    ∧ Xr.getitem "long_name" (attribute_table Vdswrf)
      = Some (AStr "Downward long-wave radiation flux").
Proof.
  intros Hrun.
  apply gen_sflux_Ok_inv in Hrun
    as (inv & w1 & first & ds0 & ll & arr & sz & _ & _ & _ & _ & _ & _ & Hout).
  eexists. split; [by rewrite Hout, lookup_insert_eq|].
  split; [|split; [|done]].
  - intros v. eexists. split; [apply day_dataset_var|done].
  - intros v Hv. repeat (apply elem_of_cons in Hv as [->|Hv]; [done|]).
    by apply elem_of_nil in Hv.
Qed.


(** ** Shapes on the product's fixed grid *)

Definition has_shape2 (ny nx : nat) (m : array2) : Prop :=
  length m = ny ∧ Forall (λ row, length row = nx) m.

Definition has_shape3 (nt ny nx : nat) (t : array3) : Prop :=
  length t = nt ∧ Forall (has_shape2 ny nx) t.

Lemma time_coord_length (n : nat) : length (time_coord float32 n) = n.
Proof.
  unfold time_coord, Np.arange_div24. by rewrite !length_fmap, length_seq.
Qed.

Lemma time_coord_lookup (n h : nat) :
  1 ≤ h ≤ n →
  time_coord float32 n !! (h - 1)
  = Some (float32 (Np.round 4 (inject_Z (Z.of_nat h) / 24))).
Proof.
  intros Hh. unfold time_coord, Np.arange_div24.
  rewrite !list_lookup_fmap, lookup_seq_lt by lia. simpl.
  by replace (S (h - 1)) with h by lia.
Qed.

Lemma decoded_cfgrib inv file flt ds :
  decoded inv file flt = Some ds → ∃ content, cfgrib content flt = Some ds.
Proof.
  unfold decoded. destruct (tmpdir inv !! file) as [content|]; [|done].
  simpl. eauto.
Qed.

Section FixedGrid.

(** The product has one native grid, [nlat] by [nlon]: every dataset the
    decoder returns has coordinate vectors of these lengths and fields of
    this shape. *)
Variables nlat nlon : nat.

Hypothesis cfgrib_grid :
  ∀ content flt ds,
    cfgrib content flt = Some ds →
    length (latitude ds) = nlat ∧ length (longitude ds) = nlon
    ∧ ∀ name a, Xr.getitem name (fields ds) = Some a → has_shape2 nlat nlon a.

Lemma native_field_shape inv file v a :
  native_field inv file v = Some a → has_shape2 nlat nlon a.
Proof.
  unfold native_field. intros Hf.
  destruct (decoded inv file (var_filter v)) as [ds|] eqn:Hds; [|done].
  apply decoded_cfgrib in Hds as [content Hds].
  destruct (cfgrib_grid _ _ _ Hds) as (_ & _ & Hfields). by eapply Hfields.
Qed.

Lemma window_bounds inv file flt box ds ll :
  decoded inv file flt = Some ds → window_of box ds = Some ll →
  idx_ymin ll ≤ idx_ymax ll < nlat ∧ idx_xmin ll ≤ idx_xmax ll < nlon.
Proof.
  intros [content Hds]%decoded_cfgrib Hwin.
  destruct (cfgrib_grid _ _ _ Hds) as (Hlat & Hlon & _).
  apply window_of_Some in Hwin as (Hy0 & Hy1 & Hx0 & Hx1 & _).
  pose proof (where_bounds _ _ _ _ Hy0 Hy1) as Hy.
  pose proof (where_bounds _ _ _ _ Hx0 Hx1) as Hx.
  unfold native_lat, native_lon in *. rewrite length_fmap in Hy, Hx.
  lia.
Qed.

Lemma window_shape ll a :
  has_shape2 nlat nlon a → idx_ymax ll < nlat → idx_xmax ll < nlon →
  has_shape2 (S (idx_ymax ll) - idx_ymin ll) (S (idx_xmax ll) - idx_xmin ll)
    (window float32 ll a).
Proof.
  intros [Hrows Hcols] Hy Hx. unfold window. split.
  - rewrite !length_fmap. apply islice_length. lia.
  - apply Forall_fmap, Forall_fmap. unfold Py.islice at 2.
    apply Forall_take, Forall_drop.
    eapply Forall_impl; [exact Hcols|]. intros row Hrow. simpl in *.
    rewrite length_fmap. apply islice_length. lia.
Qed.

Lemma reverse_shape ny nx m :
  has_shape2 ny nx m → has_shape2 ny nx (reverse m).
Proof.
  intros [? ?]. split; [by rewrite length_reverse | by apply Forall_reverse].
Qed.

(** C1. For every day on which [gen_sflux] builds its dataset from [H]
    retrieved files and a window of extent [(Ny, Nx)], each of the eight
    output variables has dimensions (time, ny_grid, nx_grid) and shape
    [(H, Ny, Nx)], and its slice at position [h] is the windowed,
    row-reversed field of the file at position [h] of the file list. The
    file list is in ascending lexical order, which for the three-digit,
    zero-padded forecast hours of the file names is forecast-hour order:
    a file of an earlier hour stands before a file of a later one. The
    time coordinate has length [H] with [round(h/24, 4)] (as float32) at
    position [h-1] for [h = 1..H]: the multiple of 0.0001 that lies within
    0.00005 of [h/24]. *)
Theorem gen_sflux_output_shapes box date record w w' :
  gen_sflux list_objects_v2 download_fileobj cfgrib float32
    box date record w = (w', Ok ()) →
  ∃ inv first ll nc,
    (AWSGrib2Inventory list_objects_v2 download_fileobj
       date record "atmos" w).2 = Ok inv
    ∧ head (files inv) = Some first
    ∧ (modified_latlon cfgrib float32 box inv first w).2 = Ok ll
    ∧ out_files w' !! out_path date = Some nc
    ∧ StronglySorted String.le (files inv)
    ∧ (∀ i j hi hj, hi < 1000 → hj < 1000 →
         files inv !! i = Some (files_prefix inv +:+ hour_stem hi) →
         files inv !! j = Some (files_prefix inv +:+ hour_stem hj) →
         i < j → hi < hj)
    ∧ (∀ v, ∃ t a,
         Xr.getvar (var_name v) (nc_dataset nc)
         = Some {| dims := ["time"; "ny_grid"; "nx_grid"];
                   values := Arr3 t; attrs := a |}
         ∧ has_shape3 (length (files inv))
             (S (idx_ymax ll) - idx_ymin ll) (S (idx_xmax ll) - idx_xmin ll) t
         ∧ ∀ h file, files inv !! h = Some file →
             ∃ native, native_field inv file v = Some native
                       ∧ t !! h = Some (reverse (window float32 ll native)))
    ∧ (∃ tv a,
         Xr.getvar "time" (nc_dataset nc)
         = Some {| dims := ["time"]; values := Arr1 tv; attrs := a |}
         ∧ length tv = length (files inv)
         ∧ ∀ h, 1 ≤ h ≤ length (files inv) →
             ∃ t z,
               tv !! (h - 1) = Some (float32 t)
               ∧ t = Np.round 4 (inject_Z (Z.of_nat h) / 24)
               ∧ (t == inject_Z z / 10000)%Q
               ∧ (t - inject_Z (Z.of_nat h) / 24 <= 1 # 20000)%Q
               ∧ (inject_Z (Z.of_nat h) / 24 - t <= 1 # 20000)%Q).
Proof.
  intros Hrun.
  apply gen_sflux_Ok_inv in Hrun
    as (inv & w1 & first & ds0 & ll & arr & sz
        & Hinv & Hfirst & Hds0 & Hwin & Hvars & _ & Hout).
  destruct (window_bounds _ _ _ _ _ _ Hds0 Hwin) as [Hy Hx].
  exists inv, first, ll. eexists.
  split; [by rewrite Hinv|]. split; [done|].
  split. { rewrite modified_latlon_run, Hds0, Hwin. done. }
  split; [by rewrite Hout, lookup_insert_eq|].
  split; [apply files_StronglySorted|].
  split; [intros i j hi hj; apply files_hour_order|].
  simpl. split.
  - intros v. destruct (Hvars v) as (natives & Hnat & Harr).
    eexists _, _. split; [rewrite day_dataset_var, Harr; done|].
    split; [split|].
    + rewrite length_fmap. symmetry. by eapply Forall2_length.
    + apply Forall_fmap, Forall_forall. intros a Ha. simpl.
      apply reverse_shape, window_shape; [|lia..].
      apply list_elem_of_lookup in Ha as [h Hh].
      destruct (Forall2_lookup_r _ _ _ _ _ Hnat Hh) as (f & _ & Hf).
      by eapply native_field_shape.
    + intros h file Hfile.
      destruct (Forall2_lookup_l _ _ _ _ _ Hnat Hfile) as (a & Ha & Hf).
      exists a. split; [done|]. by rewrite list_lookup_fmap, Ha.
  - destruct (day_dataset_time date ll (length (files inv)) arr sz) as [a Ha].
    eexists _, a. split; [exact Ha|].
    split; [apply time_coord_length|].
    intros h Hh. destruct (round4_value h) as (z & Hz & Hlo & Hhi).
    eexists _, z. split; [by apply time_coord_lookup|]. done.
Qed.

(** On a normal return the dimension check of [xr.Dataset] has passed, so
    the fields' window and the coordinate grids have one shape: the
    matching indices fill the whole interval between the first and the
    last of them. *)
Lemma window_contiguous box inv first ds0 ll arr sz n :
  head (files inv) = Some first →
  decoded inv first (by_step_level "instant" "surface") = Some ds0 →
  window_of box ds0 = Some ll →
  (∀ v, ∃ natives,
     Forall2 (λ f a, native_field inv f v = Some a) (files inv) natives
     ∧ arr v = Arr3 ((λ a, reverse (window float32 ll a)) <$> natives)) →
  Xr.calculate_dimensions ∅ (coords_of ll n ++ data_vars_of arr) = Some sz →
  lat_idxs box ds0 = seq (idx_ymin ll) (S (idx_ymax ll) - idx_ymin ll)
  ∧ lon_idxs box ds0 = seq (idx_xmin ll) (S (idx_xmax ll) - idx_xmin ll).
Proof.
  intros Hfirst Hds0 Hwin Hvars Hsz.
  destruct (window_bounds _ _ _ _ _ _ Hds0 Hwin) as [Hy Hx].
  pose proof (window_of_Some _ _ _ Hwin) as (Hy0 & Hy1 & Hx0 & Hx1 & Hnx & _).
  apply calculate_dimensions_Some in Hsz as [_ Hall].
  apply Forall_app in Hall as [Hco Hdv].
  apply Forall_cons in Hco as [_ Hco]. apply Forall_cons in Hco as [Hlon _].
  apply Forall_cons in Hdv as [Hstmp _]. simpl in Hlon, Hstmp.
  destruct (Hvars Vstmp) as (natives & Hnat & Harr). rewrite Harr in Hstmp.
  destruct (files inv) as [|f fs]; [done|].
  apply Forall2_cons_inv_l in Hnat as (a0 & rest & Ha0 & _ & ->).
  pose proof (native_field_shape _ _ _ _ Ha0) as Hshape.
  assert (Hwin_shape : has_shape2 (S (idx_ymax ll) - idx_ymin ll)
                         (S (idx_xmax ll) - idx_xmin ll)
                         (reverse (window float32 ll a0)))
    by (apply reverse_shape, window_shape; [done|lia..]).
  destruct Hwin_shape as [Hrows Hcols].
  simpl in Hstmp.
  apply Forall2_cons in Hstmp as [_ Hstmp].
  apply Forall2_cons in Hstmp as [Hny Hstmp].
  apply Forall2_cons in Hstmp as [Hnx' _].
  apply Forall2_cons in Hlon as [Hny2 Hlon].
  apply Forall2_cons in Hlon as [Hnx2 _].
  rewrite Hrows in Hny.
  assert (Hlat_len : length (lat_idxs box ds0) = S (idx_ymax ll) - idx_ymin ll).
  { rewrite Hnx, length_replicate in Hny2. congruence. }
  assert (Hlon_len : length (lon_idxs box ds0) = S (idx_xmax ll) - idx_xmin ll).
  { rewrite Hnx in Hnx2.
    destruct (length (lat_idxs box ds0)) as [|k] eqn:Hk; [lia|].
    simpl in Hnx2. rewrite length_fmap in Hnx2.
    unfold lon_idxs. rewrite <- length_take_idxs_where, take_idxs_where.
    destruct (reverse (window float32 ll a0)) as [|row rows] eqn:Hrev;
      [simpl in Hrows; lia|].
    apply Forall_cons in Hcols as [Hrow _]. simpl in Hnx'.
    rewrite Hrow in Hnx'. congruence. }
  split; apply sorted_interval;
    try apply (where_from_sorted _ 0); try done; lia.
Qed.

(** C4. On every day for which [gen_sflux] builds its dataset, the rows
    of every field and the rows of the latitude grid come from the native
    grid by one and the same reversal: row [i] of the latitude grid holds
    the native latitude of row [idx_ymax - i], and row [i] of each of the
    eight fields, at every hour, is the (windowed, float32) native row
    [idx_ymax - i] of that field. When the native latitude vector is
    descending, output latitude increases with the row index. *)
Theorem field_rows_follow_latitude_rows box date record w w' :
  gen_sflux list_objects_v2 download_fileobj cfgrib float32
    box date record w = (w', Ok ()) →
  ∃ inv first ds0 ll nc g a,
    (AWSGrib2Inventory list_objects_v2 download_fileobj
       date record "atmos" w).2 = Ok inv
    ∧ head (files inv) = Some first
    ∧ decoded inv first (by_step_level "instant" "surface") = Some ds0
    ∧ (modified_latlon cfgrib float32 box inv first w).2 = Ok ll
    ∧ out_files w' !! out_path date = Some nc
    ∧ Xr.getvar "lat" (nc_dataset nc)
      = Some {| dims := ["ny_grid"; "nx_grid"]; values := Arr2 g; attrs := a |}
    ∧ length g = S (idx_ymax ll) - idx_ymin ll
    ∧ (∀ i, i < S (idx_ymax ll) - idx_ymin ll →
         ∃ y, native_lat ds0 !! (idx_ymax ll - i) = Some y
              ∧ g !! i = Some (replicate (S (idx_xmax ll) - idx_xmin ll) y)
              ∧ ∀ v h file, files inv !! h = Some file →
                  ∃ t a' native row,
                    Xr.getvar (var_name v) (nc_dataset nc)
                    = Some {| dims := ["time"; "ny_grid"; "nx_grid"];
                              values := Arr3 t; attrs := a' |}
                    ∧ native_field inv file v = Some native
                    ∧ native !! (idx_ymax ll - i) = Some row
                    ∧ t !! h ≫= (.!! i)
                      = Some (float32
                                <$> Py.islice (idx_xmin ll) (S (idx_xmax ll))
                                      row))
    ∧ ((∀ j k x y, j < k → native_lat ds0 !! j = Some x →
                   native_lat ds0 !! k = Some y → (y < x)%Q) →
       ∀ i j ri rj vi vj, i < j → g !! i = Some ri → g !! j = Some rj →
                          vi ∈ ri → vj ∈ rj → (vi < vj)%Q).
Proof.
  intros Hrun.
  apply gen_sflux_Ok_inv in Hrun
    as (inv & w1 & first & ds0 & ll & arr & sz
        & Hinv & Hfirst & Hds0 & Hwin & Hvars & Hsz & Hout).
  destruct (window_bounds _ _ _ _ _ _ Hds0 Hwin) as [Hy Hx].
  destruct (window_contiguous _ _ _ _ _ _ _ _ Hfirst Hds0 Hwin Hvars Hsz)
    as [Hlat Hlon].
  pose proof (window_of_Some _ _ _ Hwin) as (_ & _ & _ & _ & _ & Hny).
  destruct (decoded_cfgrib _ _ _ _ Hds0) as [content Hcontent].
  destruct (cfgrib_grid _ _ _ Hcontent) as (Hnlat & _ & _).
  set (Ny := S (idx_ymax ll) - idx_ymin ll) in *.
  set (Nx := S (idx_xmax ll) - idx_xmin ll) in *.
  assert (Hrows : ∀ i, i < Ny →
            ∃ y, native_lat ds0 !! (idx_ymax ll - i) = Some y
                 ∧ ny_grid ll !! i = Some (replicate Nx y)).
  { intros i Hi. rewrite Hny.
    rewrite <- (take_idxs_where (lat_match box) (native_lat ds0)).
    fold (lat_idxs box ds0). rewrite Hlat, Hlon, length_seq.
    fold Ny Nx. rewrite take_idxs_seq
      by (unfold native_lat; rewrite length_fmap; unfold Ny; lia).
    assert (Hlen : length (take Ny (drop (idx_ymin ll) (native_lat ds0))) = Ny).
    { rewrite length_take, length_drop. unfold native_lat.
      rewrite length_fmap. unfold Ny. lia. }
    rewrite list_lookup_fmap, reverse_lookup by (rewrite Hlen; lia).
    rewrite Hlen, lookup_take_lt, lookup_drop by lia.
    replace (idx_ymin ll + (Ny - S i)) with (idx_ymax ll - i)
      by (unfold Ny; lia).
    destruct (lookup_lt_is_Some_2 (native_lat ds0) (idx_ymax ll - i))
      as [y Hyv].
    { unfold native_lat. rewrite length_fmap. lia. }
    exists y. by rewrite Hyv. }
  destruct (day_dataset_lat date ll (length (files inv)) arr sz) as [a Ha].
  exists inv, first, ds0, ll. eexists _, (ny_grid ll), a.
  split; [by rewrite Hinv|]. split; [done|]. split; [done|].
  split. { rewrite modified_latlon_run, Hds0, Hwin. done. }
  split; [by rewrite Hout, lookup_insert_eq|]. simpl.
  split; [exact Ha|]. split.
  { rewrite Hny, length_fmap, length_reverse.
    rewrite <- (take_idxs_where (lat_match box) (native_lat ds0)).
    rewrite length_take_idxs_where. fold (lat_idxs box ds0).
    by rewrite Hlat, length_seq. }
  split.
  - intros i Hi. destruct (Hrows i Hi) as (y & Hyv & Hg).
    exists y. split; [done|]. split; [done|].
    intros v h file Hfile.
    destruct (Hvars v) as (natives & Hnat & Harr).
    destruct (Forall2_lookup_l _ _ _ _ _ Hnat Hfile) as (native & Hnative & Hf).
    destruct (native_field_shape _ _ _ _ Hf) as [Hnrows Hncols].
    destruct (lookup_lt_is_Some_2 native (idx_ymax ll - i)) as [row Hrow];
      [lia|].
    eexists _, _, native, row.
    split; [rewrite day_dataset_var, Harr; done|].
    split; [done|]. split; [done|].
    rewrite list_lookup_fmap, Hnative. simpl.
    assert (Hwlen : length (window float32 ll native) = Ny).
    { apply window_shape; [done|lia..]. }
    rewrite reverse_lookup by (rewrite Hwlen; lia).
    rewrite Hwlen. unfold window.
    rewrite !list_lookup_fmap, islice_lookup by (fold Ny; lia).
    replace (idx_ymin ll + (Ny - S i)) with (idx_ymax ll - i)
      by (unfold Ny; lia).
    by rewrite Hrow.
  - intros Hdesc i j ri rj vi vj Hij Hri Hrj Hvi Hvj.
    assert (j < Ny) as Hj.
    { apply lookup_lt_Some in Hrj. revert Hrj.
      rewrite Hny, length_fmap, length_reverse.
      rewrite <- (take_idxs_where (lat_match box) (native_lat ds0)).
      rewrite length_take_idxs_where. fold (lat_idxs box ds0).
      by rewrite Hlat, length_seq. }
    destruct (Hrows i ltac:(lia)) as (yi & Hyi & Hgi).
    destruct (Hrows j Hj) as (yj & Hyj & Hgj).
    rewrite Hgi in Hri. rewrite Hgj in Hrj.
    injection Hri as <-. injection Hrj as <-.
    apply elem_of_replicate in Hvi as [-> _].
    apply elem_of_replicate in Hvj as [-> _].
    eapply (Hdesc (idx_ymax ll - j) (idx_ymax ll - i)); [lia|done..].
Qed.

End FixedGrid.

(** ** Failed downloads *)

Lemma inventory_files_of_keys date record prod pages data w :
  list_objects_v2 (cycle_dir date (hour date) prod) = Some pages →
  collect pages = Some data →
  let keys := selected record (file_metadata data) in
  ∃ w' inv,
    AWSGrib2Inventory list_objects_v2 download_fileobj date record prod w
    = (w', Ok inv)
    ∧ log w' = log w ++ fetch_log download_fileobj keys
    ∧ forecast_cycle inv = date ∧ cycle inv = hour date ∧ product inv = prod
    ∧ tmpdir inv = fetched download_fileobj ∅ keys
    ∧ dom (tmpdir inv) = list_to_set (grib2_name <$> keys).
Proof.
  intros Hpages Hdata keys.
  rewrite (AWSGrib2Inventory_run _ _ _ _ _ pages data w Hpages Hdata).
  eexists _, _. split; [done|]. simpl.
  repeat (split; [done|]).
  by rewrite fetched_dom, dom_empty_L, (right_id_L ∅ (∪)).
Qed.

(** The selected keys whose local name the pattern of [files] matches,
    each once. *)
Definition globbed_keys (date : datetime) (prod : string)
    (keys : list string) : list string :=
  remove_dups
    (filter (λ k, glob_match (grib_prefix date (hour date) prod) ".grib2"
                    (grib2_name k) = true) keys).

Lemma inventory_files_perm date prod (keys : list string) inv :
  forecast_cycle inv = date → cycle inv = hour date → product inv = prod →
  dom (tmpdir inv) = list_to_set (grib2_name <$> keys) →
  files inv ≡ₚ grib2_name <$> globbed_keys date prod keys.
Proof.
  intros Hfc Hcyc Hprod Hdom.
  apply NoDup_Permutation; [apply files_NoDup| |].
  { apply NoDup_fmap_2; [apply _|apply NoDup_remove_dups]. }
  intros p. rewrite elem_of_files. unfold files_prefix, globbed_keys.
  rewrite Hfc, Hcyc, Hprod, list_elem_of_fmap. split.
  - intros [Hglob Hsome]. apply elem_of_dom in Hsome.
    rewrite Hdom in Hsome. apply elem_of_list_to_set in Hsome.
    apply list_elem_of_fmap in Hsome as (k & -> & Hk).
    exists k. split; [done|].
    by apply elem_of_remove_dups, list_elem_of_filter.
  - intros (k & -> & Hk).
    apply elem_of_remove_dups, list_elem_of_filter in Hk as [Hglob Hk].
    split; [done|]. apply elem_of_dom. rewrite Hdom.
    apply elem_of_list_to_set, list_elem_of_fmap. eauto.
Qed.

(** C9, as the code has it. [__init__] opens the local file of every
    selected key before it tries the download, so whatever the downloads
    do the file exists afterwards, with the downloaded bytes or, when the
    download raised, with no bytes at all. The pattern of [files] matches
    the file of a selected key exactly when the key is a per-hour key
    [gfs.tHHz.pgrb2.0p25.f*] of the cycle directory. So [files] is the same
    list whatever downloads fail, and it has as many entries as there are
    distinct selected keys of that form: as many as keys were selected
    when these are distinct per-hour keys, fewer otherwise. *)
Theorem files_independent_of_downloads date record prod pages data w :
  list_objects_v2 (cycle_dir date (hour date) prod) = Some pages →
  collect pages = Some data →
  let keys := selected record (file_metadata data) in
  ∃ w' inv,
    AWSGrib2Inventory list_objects_v2 download_fileobj date record prod w
    = (w', Ok inv)
    ∧ (∀ k, k ∈ keys →
         tmpdir inv !! grib2_name k = Some (default [] (download_fileobj k)))
    ∧ (∀ k, k ∈ keys → download_fileobj k = None →
         tmpdir inv !! grib2_name k = Some [])
    ∧ (∀ k, k ∈ keys →
         grib2_name k ∈ files inv ↔ per_hour_key date prod k)
    ∧ files inv
      = Py.sorted
          (filter (λ p, glob_match (grib_prefix date (hour date) prod)
                          ".grib2" p = true)
             (elements (list_to_set (grib2_name <$> keys) : gset string)))
    ∧ (∀ download' w2 w2' inv2,
         AWSGrib2Inventory list_objects_v2 download' date record prod w2
         = (w2', Ok inv2) →
         files inv2 = files inv)
    ∧ files inv ≡ₚ grib2_name <$> globbed_keys date prod keys
    ∧ length (files inv) = length (globbed_keys date prod keys)
    ∧ (NoDup (Key <$> data) → Forall (per_hour_key date prod) keys →
       length (files inv) = length keys).
Proof.
  intros Hpages Hdata keys.
  destruct (inventory_files_of_keys date record prod pages data w Hpages Hdata)
    as (w' & inv & Hrun & _ & Hfc & Hcyc & Hprod & Htmp & Hdom).
  exists w', inv. split; [done|].
  assert (Hlook : ∀ k, k ∈ keys →
            tmpdir inv !! grib2_name k
            = Some (default [] (download_fileobj k))).
  { intros k Hk. rewrite Htmp. by apply fetched_lookup. }
  assert (Hany : ∀ dl w2 w2' inv2,
            AWSGrib2Inventory list_objects_v2 dl date record prod w2
            = (w2', Ok inv2) →
            files inv2
            = Py.sorted
                (filter (λ p, glob_match (grib_prefix date (hour date) prod)
                                ".grib2" p = true)
                   (elements (list_to_set (grib2_name <$> keys)
                              : gset string)))).
  { intros dl w2 w2' inv2 Hrun2.
    rewrite (AWSGrib2Inventory_run _ _ _ _ _ pages data w2 Hpages Hdata)
      in Hrun2.
    injection Hrun2 as <- <-. unfold files, files_prefix. simpl.
    by rewrite (fetched_dom list_objects_v2 dl), dom_empty_L,
         (right_id_L ∅ (∪)). }
  pose proof (inventory_files_perm date prod keys inv Hfc Hcyc Hprod Hdom)
    as Hperm.
  assert (Hlen : length (files inv) = length (globbed_keys date prod keys))
    by (by rewrite Hperm, length_fmap).
  split; [done|]. split.
  { intros k Hk Hfail. by rewrite (Hlook k Hk), Hfail. }
  split.
  { intros k Hk. rewrite elem_of_files. unfold files_prefix.
    rewrite Hfc, Hcyc, Hprod, (Hlook k Hk), glob_grib2_name.
    split; [by intros [? _]|]. intros Hper. split; [done|eauto]. }
  split; [by apply (Hany download_fileobj w w')|].
  split.
  { intros dl w2 w2' inv2 Hrun2.
    by rewrite (Hany dl w2 w2' inv2 Hrun2), (Hany _ _ _ _ Hrun). }
  split; [done|]. split; [done|].
  intros Hnd Hper. rewrite Hlen. apply Permutation_length.
  apply NoDup_Permutation;
    [apply NoDup_remove_dups|by apply selected_NoDup|].
  intros k. unfold globbed_keys.
  rewrite elem_of_remove_dups, list_elem_of_filter.
  split; [by intros [_ ?]|]. intros Hk. split; [|done].
  rewrite Forall_forall in Hper. by apply per_hour_key_glob, Hper.
Qed.

End ExtractorFacts.

(** * A worked day: cycle 2023-01-01 00Z on a 5 x 4 grid *)

Module Demo.

Definition date : datetime :=
  {| year := 2023; month := 1; day := 1; hour := 0 |}.

Definition hour_key (h : nat) : string :=
  "gfs.20230101/00/atmos/gfs.t00z.pgrb2.0p25.f" +:+ Py.zfill 3 (pretty h).

Definition obj (k : string) : s3_object := {| Key := k; ObjSize := 1 |}.

(** Two pages: the hours 0..3 out of order, an analysis file and an index
    sidecar. *)
Definition pages : list s3_page :=
  [ {| Contents :=
         Some [obj (hour_key 2); obj (hour_key 0);
               obj "gfs.20230101/00/atmos/gfs.t00z.pgrb2.0p25.anl"] |};
    {| Contents :=
         Some [obj (hour_key 1);
               obj "gfs.20230101/00/atmos/gfs.t00z.pgrb2.0p25.f001.idx";
               obj (hour_key 3)] |} ].

Definition data : list s3_object :=
  [obj (hour_key 2); obj (hour_key 0);
   obj "gfs.20230101/00/atmos/gfs.t00z.pgrb2.0p25.anl";
   obj (hour_key 1);
   obj "gfs.20230101/00/atmos/gfs.t00z.pgrb2.0p25.f001.idx";
   obj (hour_key 3)].

Definition listing (prefix : string) : option (list s3_page) :=
  if String.eqb prefix "gfs.20230101/00/atmos/" then Some pages else None.

(** Every download succeeds. *)
Definition download_all (k : string) : option bytes := Some [Byte.x47].

(** The download of hour 2 raises; the others succeed. *)
Definition download_but_2 (k : string) : option bytes :=
  if String.eqb k (hour_key 2) then None else Some [Byte.x47].

Definition field (base : Z) : array2 :=
  (λ i, (λ j, inject_Z (base + Z.of_nat (10 * i + j))) <$> seq 0 4)
    <$> seq 0 5.

Definition grid : grib_dataset :=
  {| longitude := [0; 90; 180; 270]%Q;
     latitude := [90; 45; 0; -45; -90]%Q;
     fields := [("sh2", field 100); ("t2m", field 200); ("u10", field 300);
                ("v10", field 400); ("prmsl", field 500);
                ("prate", field 600); ("dlwrf", field 700);
                ("dswrf", field 800)] |}.

(** A decoder that refuses a file with no bytes and reads the same grid
    from any other. *)
Definition decoder (content : bytes) (flt : filter_by_keys)
  : option grib_dataset :=
  match content with
  | [] => None
  | _ :: _ => Some grid
  end.

Definition f32 (q : Q) : Q := q.

Definition box : bbox :=
  {| xmin := -97; xmax := -60; ymin := -10; ymax := 50 |}.

Definition box_263 : bbox :=
  {| xmin := 263; xmax := -60; ymin := -10; ymax := 50 |}.


Definition w0 : world := {| out_dirs := ∅; out_files := ∅; log := [] |}.

(** An inventory holding one downloaded file. *)
Definition inv1 : inventory :=
  {| start_date := date; inv_record := 1; product := "atmos";
     forecast_cycle := date; cycle := 0;
     tmpdir := {[ grib2_name (hour_key 1) := [Byte.x47] ]} |}.

Lemma decoder_grid :
  ∀ content flt ds,
    decoder content flt = Some ds →
    length (latitude ds) = 5 ∧ length (longitude ds) = 4
    ∧ ∀ name a, Xr.getitem name (fields ds) = Some a → has_shape2 5 4 a.
Proof.
  intros [|b content] flt ds Hds; [done|]. injection Hds as <-.
  split; [done|]. split; [done|]. intros name a Hget. simpl in Hget.
  repeat (destruct (String.eqb name _);
          [injection Hget as <-; split; [done | by repeat constructor]|]).
  done.
Qed.

Lemma listing_pages : listing (cycle_dir date (hour date) "atmos") = Some pages.
Proof. reflexivity. Qed.

Lemma collect_pages : collect pages = Some data.
Proof. reflexivity. Qed.

Lemma metadata : file_metadata data = hour_key <$> seq 0 4.
Proof. vm_compute. reflexivity. Qed.

(** The keys selected for one requested day. *)
Definition selected_keys : list string := selected 1 (file_metadata data).

Lemma selected_keys_eq : selected_keys = hour_key <$> [1; 2; 3].
Proof. vm_compute. reflexivity. Qed.

Lemma keys_distinct : NoDup (Key <$> data).
Proof. refine (bool_decide_unpack _ _). vm_compute. exact I. Qed.

Lemma keys_per_hour : Forall (per_hour_key date "atmos") selected_keys.
Proof.
  rewrite selected_keys_eq.
  repeat constructor.
  - exists "001". split; [reflexivity|]. by apply str_in_false.
  - exists "002". split; [reflexivity|]. by apply str_in_false.
  - exists "003". split; [reflexivity|]. by apply str_in_false.
Qed.

(** The whole day, with every download succeeding. *)
Definition run_all : world * result () :=
  gen_sflux listing download_all decoder f32 box date 1 w0.

Lemma run_all_ok : run_all = (run_all.1, Ok ()).
Proof. vm_compute. reflexivity. Qed.

(** The same day when the download of hour 2 raises. *)
Definition run_but_2 : world * result () :=
  gen_sflux listing download_but_2 decoder f32 box date 1 w0.

(** The inventory of that day. *)
Definition inventory_but_2 : world * inventory :=
  match AWSGrib2Inventory listing download_but_2 date 1 "atmos" w0 with
  | (w, Ok inv) => (w, inv)
  | (w, Raise _) =>
      (w, {| start_date := date; inv_record := 1; product := "atmos";
             forecast_cycle := date; cycle := 0; tmpdir := ∅ |})
  end.

(** A decoder that reads the grid from any file, an empty one included. *)
Definition decoder_any (content : bytes) (flt : filter_by_keys)
  : option grib_dataset := Some grid.

(** The day of the failed download under that decoder. *)
Definition run_but_2_tolerant : world * result () :=
  gen_sflux listing download_but_2 decoder_any f32 box date 1 w0.

Lemma hour_2_selected : hour_key 2 ∈ selected_keys.
Proof. rewrite selected_keys_eq. right. left. Qed.

(** The first time coordinates: 1/24, 2/24 and 3/24 of a day to four
    decimals. *)
Example time_values :
  Np.round 4 <$> Np.arange_div24 3
  = [(417 # 10000)%Q; (833 # 10000)%Q; (1250 # 10000)%Q].
Proof. reflexivity. Qed.

Lemma decoded_inv1 :
  decoded decoder inv1 (grib2_name (hour_key 1))
    (by_step_level "instant" "surface") = Some grid.
Proof. reflexivity. Qed.

End Demo.

(** * The properties on the worked day *)

(** The worked listing meets the hypotheses of C2: four hours listed, one
    day requested, hours 1 to 3 selected. *)
Lemma selected_skips_hour_0_witness :
  (∀ h, 1 ≤ h ≤ 3 → Demo.hour_key h ≠ Demo.hour_key 0)
  ∧ (0 ≤ 1)%Z
  ∧ file_metadata Demo.data = Demo.hour_key <$> seq 0 4
  ∧ selected 1 (file_metadata Demo.data) = Demo.hour_key <$> [1; 2; 3]
  ∧ length (selected 1 (file_metadata Demo.data)) = 3
  ∧ (Demo.hour_key 0 ∉ selected 1 (file_metadata Demo.data))
  ∧ head (selected 1 (file_metadata Demo.data)) = Some (Demo.hour_key 1).
Proof.
  assert (Hkeys : ∀ h, 1 ≤ h ≤ 3 → Demo.hour_key h ≠ Demo.hour_key 0).
  { intros h Hh.
    destruct h as [|[|[|[|h]]]]; [lia| | | |lia]; by vm_compute. }
  assert (Hrec : (0 ≤ 1)%Z) by lia.
  destruct (selected_skips_hour_0 Demo.hour_key 3 1 Demo.data
              Hkeys Hrec Demo.metadata) as (Hsel & Hlen & Hnot & _ & Hhead).
  split; [exact Hkeys|]. split; [exact Hrec|].
  split; [exact Demo.metadata|]. split; [exact Hsel|].
  split; [exact Hlen|]. split; [exact Hnot|].
  apply Hhead. simpl. lia.
Defined.

(** The worked day meets the hypotheses of C1. *)
Lemma gen_sflux_output_shapes_witness :
  (∀ content flt ds,
     Demo.decoder content flt = Some ds →
     length (latitude ds) = 5 ∧ length (longitude ds) = 4
     ∧ ∀ name a, Xr.getitem name (fields ds) = Some a → has_shape2 5 4 a)
  ∧ Demo.run_all = (Demo.run_all.1, Ok ())
  ∧ ∃ inv first ll nc,
      (AWSGrib2Inventory Demo.listing Demo.download_all
         Demo.date 1 "atmos" Demo.w0).2 = Ok inv
      ∧ head (files inv) = Some first
      ∧ (modified_latlon Demo.decoder Demo.f32 Demo.box inv first
           Demo.w0).2 = Ok ll
      ∧ out_files Demo.run_all.1 !! out_path Demo.date = Some nc
      ∧ StronglySorted String.le (files inv)
      ∧ (∀ i j hi hj, hi < 1000 → hj < 1000 →
           files inv !! i = Some (files_prefix inv +:+ hour_stem hi) →
           files inv !! j = Some (files_prefix inv +:+ hour_stem hj) →
           i < j → hi < hj)
      ∧ (∀ v, ∃ t a,
           Xr.getvar (var_name v) (nc_dataset nc)
           = Some {| dims := ["time"; "ny_grid"; "nx_grid"];
                     values := Arr3 t; attrs := a |}
           ∧ has_shape3 (length (files inv))
               (S (idx_ymax ll) - idx_ymin ll)
               (S (idx_xmax ll) - idx_xmin ll) t
           ∧ ∀ h file, files inv !! h = Some file →
               ∃ native,
                 native_field Demo.decoder inv file v = Some native
                 ∧ t !! h = Some (reverse (window Demo.f32 ll native)))
      ∧ (∃ tv a,
           Xr.getvar "time" (nc_dataset nc)
           = Some {| dims := ["time"]; values := Arr1 tv; attrs := a |}
           ∧ length tv = length (files inv)
           ∧ ∀ h, 1 ≤ h ≤ length (files inv) →
               ∃ t z,
                 tv !! (h - 1) = Some (Demo.f32 t)
                 ∧ t = Np.round 4 (inject_Z (Z.of_nat h) / 24)
                 ∧ (t == inject_Z z / 10000)%Q
                 ∧ (t - inject_Z (Z.of_nat h) / 24 <= 1 # 20000)%Q
                 ∧ (inject_Z (Z.of_nat h) / 24 - t <= 1 # 20000)%Q).
Proof.
  split; [exact Demo.decoder_grid|]. split; [exact Demo.run_all_ok|].
  exact (gen_sflux_output_shapes Demo.listing Demo.download_all Demo.decoder
           Demo.f32 5 4 Demo.decoder_grid Demo.box Demo.date 1 Demo.w0
           Demo.run_all.1 Demo.run_all_ok).
Defined.

(** The worked day meets the hypotheses of C4. *)
Lemma field_rows_follow_latitude_rows_witness :
  (∀ content flt ds,
     Demo.decoder content flt = Some ds →
     length (latitude ds) = 5 ∧ length (longitude ds) = 4
     ∧ ∀ name a, Xr.getitem name (fields ds) = Some a → has_shape2 5 4 a)
  ∧ Demo.run_all = (Demo.run_all.1, Ok ())
  ∧ ∃ inv first ds0 ll nc g a,
      (AWSGrib2Inventory Demo.listing Demo.download_all
         Demo.date 1 "atmos" Demo.w0).2 = Ok inv
      ∧ head (files inv) = Some first
      ∧ decoded Demo.decoder inv first (by_step_level "instant" "surface")
        = Some ds0
      ∧ (modified_latlon Demo.decoder Demo.f32 Demo.box inv first
           Demo.w0).2 = Ok ll
      ∧ out_files Demo.run_all.1 !! out_path Demo.date = Some nc
      ∧ Xr.getvar "lat" (nc_dataset nc)
        = Some {| dims := ["ny_grid"; "nx_grid"]; values := Arr2 g;
                  attrs := a |}
      ∧ length g = S (idx_ymax ll) - idx_ymin ll
      ∧ (∀ i, i < S (idx_ymax ll) - idx_ymin ll →
           ∃ y, native_lat Demo.f32 ds0 !! (idx_ymax ll - i) = Some y
                ∧ g !! i
                  = Some (replicate (S (idx_xmax ll) - idx_xmin ll) y)
                ∧ ∀ v h file, files inv !! h = Some file →
                    ∃ t a' native row,
                      Xr.getvar (var_name v) (nc_dataset nc)
                      = Some {| dims := ["time"; "ny_grid"; "nx_grid"];
                                values := Arr3 t; attrs := a' |}
                      ∧ native_field Demo.decoder inv file v = Some native
                      ∧ native !! (idx_ymax ll - i) = Some row
                      ∧ t !! h ≫= (.!! i)
                        = Some (Demo.f32
                                  <$> Py.islice (idx_xmin ll)
                                        (S (idx_xmax ll)) row))
      ∧ ((∀ j k x y, j < k → native_lat Demo.f32 ds0 !! j = Some x →
                     native_lat Demo.f32 ds0 !! k = Some y → (y < x)%Q) →
         ∀ i j ri rj vi vj, i < j → g !! i = Some ri → g !! j = Some rj →
                            vi ∈ ri → vj ∈ rj → (vi < vj)%Q).
Proof.
  split; [exact Demo.decoder_grid|]. split; [exact Demo.run_all_ok|].
  exact (field_rows_follow_latitude_rows Demo.listing Demo.download_all
           Demo.decoder Demo.f32 5 4 Demo.decoder_grid Demo.box Demo.date 1
           Demo.w0 Demo.run_all.1 Demo.run_all_ok).
Defined.

(** On the worked grid the box with [xmin = -97] gives the result of the
    box with [xmin = 263], and the longitudes of the grid it returns lie in
    (-180, 180]. *)
Lemma modified_latlon_longitude_convention_witness :
  Forall (λ v, (0 <= v)%Q ∧ (v < 360)%Q) (native_lon Demo.f32 Demo.grid)
  ∧ (xmin Demo.box < 0)%Q ∧ (-360 <= xmin Demo.box)%Q
  ∧ (∀ w' ll,
       modified_latlon Demo.decoder Demo.f32 Demo.box Demo.inv1
         (grib2_name (Demo.hour_key 1)) Demo.w0 = (w', Ok ll) →
       Forall (Forall (λ v, (-180 < v)%Q ∧ (v <= 180)%Q)) (nx_grid ll))
  ∧ modified_latlon Demo.decoder Demo.f32 Demo.box Demo.inv1
      (grib2_name (Demo.hour_key 1)) Demo.w0
    = modified_latlon Demo.decoder Demo.f32 Demo.box_263 Demo.inv1
        (grib2_name (Demo.hour_key 1)) Demo.w0.
Proof.
  assert (Hnative : Forall (λ v, (0 <= v)%Q ∧ (v < 360)%Q)
                      (native_lon Demo.f32 Demo.grid)).
  { repeat constructor; by vm_compute. }
  assert (Hneg : (xmin Demo.box < 0)%Q) by reflexivity.
  assert (Hge : (-360 <= xmin Demo.box)%Q) by (by vm_compute).
  destruct (modified_latlon_longitude_convention Demo.decoder Demo.f32
              Demo.box Demo.inv1 (grib2_name (Demo.hour_key 1)) Demo.w0)
    as [Hrange Hsame].
  split; [exact Hnative|]. split; [exact Hneg|]. split; [exact Hge|].
  split.
  - intros w' ll Hrun.
    exact (Hrange Demo.grid w' ll Demo.decoded_inv1 Hnative Hrun).
  - exact (Hsame Hneg Hge).
Defined.

(** The worked day meets the hypothesis of C6. *)
Lemma gen_sflux_attribute_table_witness :
  Demo.run_all = (Demo.run_all.1, Ok ())
  ∧ ∃ nc, out_files Demo.run_all.1 !! out_path Demo.date = Some nc
      ∧ (∀ v, ∃ var, Xr.getvar (var_name v) (nc_dataset nc) = Some var
                     ∧ attrs var = attribute_table v)
      ∧ (∀ v, v ∈ [Vstmp; Vprate; Vdlwrf; Vdswrf] →
              Xr.getitem "standard_name" (attribute_table v) = None)
      ∧ Xr.getitem "long_name" (attribute_table Vdlwrf)
        = Some (AStr "Downward short-wave radiation flux")
      ∧ Xr.getitem "long_name" (attribute_table Vdswrf)
        = Some (AStr "Downward long-wave radiation flux").
Proof.
  split; [exact Demo.run_all_ok|].
  exact (gen_sflux_attribute_table Demo.listing Demo.download_all
           Demo.decoder Demo.f32 Demo.box Demo.date 1 Demo.w0
           Demo.run_all.1 Demo.run_all_ok).
Defined.

(** The worked listing meets the hypotheses of C9, with the download of
    hour 2 failing. *)
Lemma files_independent_of_downloads_witness :
  Demo.listing (cycle_dir Demo.date (hour Demo.date) "atmos")
  = Some Demo.pages
  ∧ collect Demo.pages = Some Demo.data
  ∧ ∃ w' inv,
      AWSGrib2Inventory Demo.listing Demo.download_but_2 Demo.date 1
        "atmos" Demo.w0 = (w', Ok inv)
      ∧ (∀ k, k ∈ Demo.selected_keys →
           tmpdir inv !! grib2_name k
           = Some (default [] (Demo.download_but_2 k)))
      ∧ (∀ k, k ∈ Demo.selected_keys → Demo.download_but_2 k = None →
           tmpdir inv !! grib2_name k = Some [])
      ∧ (∀ k, k ∈ Demo.selected_keys →
           grib2_name k ∈ files inv ↔ per_hour_key Demo.date "atmos" k)
      ∧ files inv
        = Py.sorted
            (filter (λ p, glob_match
                            (grib_prefix Demo.date (hour Demo.date) "atmos")
                            ".grib2" p = true)
               (elements (list_to_set (grib2_name <$> Demo.selected_keys)
                          : gset string)))
      ∧ (∀ download' w2 w2' inv2,
           AWSGrib2Inventory Demo.listing download' Demo.date 1 "atmos" w2
           = (w2', Ok inv2) →
           files inv2 = files inv)
      ∧ files inv
        ≡ₚ grib2_name <$> globbed_keys Demo.date "atmos" Demo.selected_keys
      ∧ length (files inv)
        = length (globbed_keys Demo.date "atmos" Demo.selected_keys)
      ∧ (NoDup (Key <$> Demo.data) →
         Forall (per_hour_key Demo.date "atmos") Demo.selected_keys →
         length (files inv) = length Demo.selected_keys).
Proof.
  split; [exact Demo.listing_pages|]. split; [exact Demo.collect_pages|].
  exact (files_independent_of_downloads Demo.listing Demo.download_but_2
           Demo.date 1 "atmos" Demo.pages Demo.data Demo.w0
           Demo.listing_pages Demo.collect_pages).
Defined.

(** C7 on the worked day. Hours 1 to 3 are requested and the download of
    hour 2, in mid-sequence, raises. [__init__] logs it and returns, but
    the file it opened for writing before the download is left with no
    bytes and is listed by [files] with the two others: the failed hour is
    not absent, and the list has three entries, not two. With the decoder
    that refuses a file of no bytes the day's job ends in that decoder
    error and writes nothing; with a decoder that reads any file the day
    is written with a time coordinate of length three. *)
Theorem failed_download_stays_listed :
  ∃ w' inv,
    AWSGrib2Inventory Demo.listing Demo.download_but_2 Demo.date 1 "atmos"
      Demo.w0 = (w', Ok inv)
    ∧ Demo.selected_keys = Demo.hour_key <$> [1; 2; 3]
    ∧ filter (λ k, Demo.download_but_2 k = None) Demo.selected_keys
      = [Demo.hour_key 2]
    ∧ "file " +:+ Demo.hour_key 2 +:+ " is not available" ∈ log w'
    ∧ tmpdir inv !! grib2_name (Demo.hour_key 2) = Some []
    ∧ files inv = grib2_name <$> (Demo.hour_key <$> [1; 2; 3])
    ∧ ¬ ((grib2_name (Demo.hour_key 2) ∉ files inv)
         ∧ length (files inv) = length Demo.selected_keys - 1)
    ∧ Demo.run_but_2.2 = Raise (DecodeError (grib2_name (Demo.hour_key 2)))
    ∧ out_files Demo.run_but_2.1 = ∅
    ∧ ∃ nc tv a,
        Demo.run_but_2_tolerant.2 = Ok ()
        ∧ out_files Demo.run_but_2_tolerant.1 !! out_path Demo.date = Some nc
        ∧ Xr.getvar "time" (nc_dataset nc)
          = Some {| dims := ["time"]; values := Arr1 tv; attrs := a |}
        ∧ length tv = 3.
Proof.
  assert (Hfiles : files (Demo.inventory_but_2.2)
                   = grib2_name <$> (Demo.hour_key <$> [1; 2; 3]))
    by (by vm_compute).
  exists (Demo.inventory_but_2.1), (Demo.inventory_but_2.2).
  split; [by vm_compute|]. split; [exact Demo.selected_keys_eq|].
  split; [by vm_compute|].
  split. { apply (list_elem_of_lookup_2 _ 2). by vm_compute. }
  split; [by vm_compute|]. split; [exact Hfiles|].
  split.
  { intros [Habsent _]. apply Habsent. rewrite Hfiles. right. left. }
  split; [by vm_compute|]. split; [by vm_compute|].
  eexists _, _, _. split; [by vm_compute|].
  split; [by vm_compute|]. split; [reflexivity|]. by vm_compute.
Qed.


(** * The cast to float32, computed *)

Module Binary32.

(** [2^e] for an integer exponent. *)
Definition pow2 (e : Z) : Q :=
  if (0 <=? e)%Z then inject_Z (2 ^ e) else (1 / inject_Z (2 ^ (- e)))%Q.

(** The exponent [e] of the binade of a non-zero [q]:
    [2^e <= |q| < 2^(e+1)]. *)
Definition binade (q : Q) : Z :=
  let e := (Z.log2 (Z.abs (Qnum q)) - Z.log2 (Z.pos (Qden q)))%Z in
  if Qle_bool (pow2 e) (Qabs q) then e else (e - 1)%Z.

(** [astype('float32')] on a value of the normal range, as coordinates in
    degrees are: the nearest number with a 24-bit significand, ties to
    even. *)
Definition round (q : Q) : Q :=
  if Qeq_bool q 0 then 0%Q
  else let ulp := pow2 (binade q - 23) in
       (inject_Z (Np.rint (q / ulp)) * ulp)%Q.

(** A box of nearly the whole circle, straddling 0 degrees: its padded
    west bound 179.999999 lies above its padded east bound 179.999995. *)
Definition box_wide : bbox :=
  {| xmin := - (179000001 # 1000000); xmax := 178999995 # 1000000;
     ymin := -10; ymax := 50 |}.

Example round_values :
  (round (1 # 10) == 13421773 # 134217728)%Q
  ∧ (round 16777217 == 16777216)%Q
  ∧ (round 16777219 == 16777220)%Q
  ∧ (round (wrap360 (xmin box_wide) - 1) == 180)%Q
  ∧ (round (wrap360 (xmax box_wide) + 1) == 180)%Q
  ∧ Forall (λ v, (round v == v)%Q) (longitude Demo.grid).
Proof.
  split; [by vm_compute|]. split; [by vm_compute|].
  split; [by vm_compute|]. split; [by vm_compute|].
  split; [by vm_compute|]. repeat constructor; by vm_compute.
Qed.

End Binary32.


(** The two outcomes of C8 on the worked day: with every download
    succeeding the day's file is written; with the download of hour 2
    failing the decoder refuses the empty file, [gen_sflux] raises, and no
    output file exists. *)
Example worked_day_written :
  Demo.run_all.2 = Ok ()
  ∧ dom (out_files Demo.run_all.1) = {[ "20230101/gfs_2023010100.nc" ]}.
Proof. split; by vm_compute. Qed.

Example worked_day_failed :
  Demo.run_but_2.2 = Raise (DecodeError (grib2_name (Demo.hour_key 2)))
  ∧ out_files Demo.run_but_2.1 = ∅.
Proof. split; by vm_compute. Qed.

(** * Further properties of the code *)

(** ** The slice for any [record] *)

Lemma selected_formula (record : Z) (metadata : list string) :
  selected record metadata
  = take (if (record * 24 + 1 <? 0)%Z
          then Z.to_nat (Z.of_nat (length metadata) + record * 24)
          else Z.to_nat (record * 24))
      (drop 1 metadata).
Proof.
  destruct (Z.ltb_spec (record * 24 + 1) 0) as [Hneg|Hpos].
  - unfold selected, Py.slice, Py.bound.
    destruct (Z.ltb_spec 1 0) as [?|_]; [lia|].
    destruct (Z.ltb_spec (record * 24 + 1) 0) as [_|?]; [|lia].
    destruct metadata as [|x l]; [by rewrite !drop_nil, !take_nil|].
    cbn [length]. rewrite Nat2Z.inj_succ.
    replace (Z.to_nat (Z.max 0 (Z.min (Z.succ (Z.of_nat (length l))) 1)))
      with 1%nat by lia.
    f_equal. lia.
  - apply selected_eq. lia.
Qed.

Lemma selected_nothing (record : Z) (metadata : list string) :
  record = 0%Z ∨ length metadata ≤ 1 → selected record metadata = [].
Proof.
  rewrite (selected_formula record metadata).
  intros [->|Hlen]; [done|].
  destruct metadata as [|x [|y l]]; [simpl; by rewrite take_nil..|].
  simpl in Hlen. lia.
Qed.

(** X1. Whatever integer [record] is, the keys selected for download are
    a run of the sorted listing that starts at its second entry: a prefix
    of the listing without its first key, [record*24] keys long at most
    for a count, and, for a negative [record] (whose stop index Python
    counts from the end), the listing without its first key and without
    its last [-record*24 - 1] keys. Nothing is selected when [record] is 0
    or when at most one key passed the filter. *)
Theorem selected_any_record (record : Z) (metadata : list string) :
  selected record metadata `prefix_of` drop 1 metadata
  ∧ length (selected record metadata) ≤ length metadata - 1
  ∧ ((0 ≤ record)%Z →
     selected record metadata
     = take (Z.to_nat (record * 24)) (drop 1 metadata))
  ∧ ((record < 0)%Z →
     selected record metadata
     = take (Z.to_nat (Z.of_nat (length metadata) + record * 24))
         (drop 1 metadata))
  ∧ (record = 0%Z ∨ length metadata ≤ 1 → selected record metadata = []).
Proof.
  pose proof (selected_formula record metadata) as Hsel.
  split; [rewrite Hsel; apply prefix_take|].
  split. { rewrite Hsel, length_take, length_drop. lia. }
  split. { intros Hrec. by apply selected_eq. }
  split.
  { intros Hrec. rewrite Hsel.
    destruct (Z.ltb_spec (record * 24 + 1) 0) as [_|?]; [done|lia]. }
  apply selected_nothing.
Qed.

(** ** Outcomes of the listing *)

Lemma collect_None (pages : list s3_page) :
  collect pages = None ↔ ∃ p, p ∈ pages ∧ Contents p = None.
Proof.
  induction pages as [|p pages IH]; simpl.
  - split; [done|]. intros (p & Hp & _). by apply elem_of_nil in Hp.
  - destruct (Contents p) as [objs|] eqn:Hp; simpl.
    + destruct (collect pages) as [more|]; simpl.
      * split; [done|]. intros (q & Hq & Hnone).
        apply elem_of_cons in Hq as [->|Hq]; [congruence|].
        assert (Some more = None) as Hn by (apply IH; eauto). done.
      * split; [|done]. intros _. destruct (proj1 IH eq_refl) as (q & Hq & ?).
        exists q. split; [by right|done].
    + split; [|done]. intros _. exists p. split; [left|done].
Qed.

Lemma collect_Some (pages : list s3_page) (data : list s3_object) :
  collect pages = Some data →
  Forall (λ p, is_Some (Contents p)) pages
  ∧ data = concat ((λ p, default [] (Contents p)) <$> pages).
Proof.
  revert data. induction pages as [|p pages IH]; intros data; simpl.
  - intros [= <-]. split; [constructor|done].
  - destruct (Contents p) as [objs|] eqn:Hp; [|done]. simpl.
    destruct (collect pages) as [more|]; [|done]. simpl. intros [= <-].
    destruct (IH more eq_refl) as [Hall ->].
    split; [constructor; [by rewrite Hp|done]|done].
Qed.

(** A computation that leaves the set of output directories alone. *)
Definition same_dirs {A} (m : M A) : Prop :=
  ∀ w, out_dirs (m w).1 = out_dirs w.

Lemma same_dirs_ret {A} (a : A) : same_dirs (ret a).
Proof. done. Qed.

Lemma same_dirs_raise {A} (e : exn) : same_dirs (raise (A:=A) e).
Proof. done. Qed.

Lemma same_dirs_or_raise {A} (e : exn) (o : option A) :
  same_dirs (or_raise e o).
Proof. by destruct o. Qed.

Lemma same_dirs_logger_info (msg : string) : same_dirs (logger_info msg).
Proof. done. Qed.

Lemma same_dirs_to_netcdf ds path mode format unl :
  same_dirs (to_netcdf ds path mode format unl).
Proof. done. Qed.

Lemma same_dirs_bind {A B} (m : M A) (k : A → M B) :
  same_dirs m → (∀ a, same_dirs (k a)) → same_dirs (bind m k).
Proof.
  intros Hm Hk w. unfold bind. specialize (Hm w).
  destruct (m w) as [w1 [a|e]]; simpl in *; [|done].
  by rewrite Hk.
Qed.

Lemma same_dirs_for_each {A S} (body : S → A → M S) (s : S) (l : list A) :
  (∀ s x, same_dirs (body s x)) → same_dirs (for_each body s l).
Proof.
  intros Hbody. revert s. induction l as [|x l IH]; intros s; simpl.
  - apply same_dirs_ret.
  - apply same_dirs_bind; auto.
Qed.

Ltac same_dirs_step :=
  first
    [ apply same_dirs_ret | apply same_dirs_raise | apply same_dirs_or_raise
    | apply same_dirs_logger_info | apply same_dirs_to_netcdf
    | apply same_dirs_bind | apply same_dirs_for_each
    | match goal with
      | |- same_dirs (match ?x with _ => _ end) => destruct x
      end ].

Ltac same_dirs_tac := repeat (intros; same_dirs_step).

Section DayOutcomes.

Variable list_objects_v2 : string → option (list s3_page).
Variable download_fileobj : string → option bytes.
Variable cfgrib : bytes → filter_by_keys → option grib_dataset.
Variable float32 : Q → Q.

(** The steps of [gen_sflux] after the directory has been made. *)
Definition after_mkdir (box : bbox) (date : datetime) (inv : inventory)
  : M () :=
  let grbfiles := files inv in
  let! first := or_raise IndexError (head grbfiles) in
  let! ll := modified_latlon cfgrib float32 box inv first in
  let! acc := for_each (extract cfgrib float32 inv ll) empty_series
                (zip (seq 0 (length grbfiles)) grbfiles) in
  let! fout := assemble float32 acc ll (length grbfiles) in
  to_netcdf (annotate date fout) (out_path date) "w" "NETCDF3_CLASSIC" "time".

Lemma gen_sflux_steps box date record :
  gen_sflux list_objects_v2 download_fileobj cfgrib float32 box date record
  = (let! inv := AWSGrib2Inventory list_objects_v2 download_fileobj
                   date record "atmos" in
     let! _ := mkdir (strftime_Ymd date) in
     after_mkdir box date inv).
Proof. reflexivity. Qed.

Lemma same_dirs_after_mkdir box date inv : same_dirs (after_mkdir box date inv).
Proof.
  unfold after_mkdir, modified_latlon, extract, take_field, assemble,
    open_dataset.
  same_dirs_tac.
Qed.

Lemma same_dirs_AWSGrib2Inventory date record prod :
  same_dirs
    (AWSGrib2Inventory list_objects_v2 download_fileobj date record prod).
Proof. unfold AWSGrib2Inventory, fetch. same_dirs_tac. Qed.

Lemma gen_sflux_raise_keeps_files box date record w w' e :
  gen_sflux list_objects_v2 download_fileobj cfgrib float32
    box date record w = (w', Raise e) →
  out_files w' = out_files w.
Proof.
  intros Hrun.
  assert (Hlast : writes_last (out_path date) (λ _, True)
            (gen_sflux list_objects_v2 download_fileobj cfgrib float32
               box date record)).
  { unfold gen_sflux.
    apply writes_last_bind; [apply quiet_AWSGrib2Inventory | intros inv].
    apply writes_last_bind; [apply quiet_mkdir | intros _].
    apply writes_last_bind; [apply quiet_or_raise | intros first].
    apply writes_last_bind; [apply quiet_modified_latlon | intros ll].
    apply writes_last_bind;
      [apply quiet_for_each; intros; apply quiet_extract | intros acc].
    apply writes_last_bind; [apply quiet_assemble | intros fout].
    eapply writes_last_weaken; [|apply writes_last_to_netcdf]. done. }
  specialize (Hlast w). by rewrite Hrun in Hlast.
Qed.

(** X2. When the listing cannot be read, [gen_sflux] raises before it has
    logged, created or downloaded anything: the exception of the listing
    call when that call raises, and [KeyError: 'Contents'] when some page
    of the listing has no ['Contents'] entry (as the single page of an
    empty prefix has). *)
Theorem gen_sflux_listing_failure box date record w :
  (list_objects_v2 (cycle_dir date (hour date) "atmos") = None →
   gen_sflux list_objects_v2 download_fileobj cfgrib float32
     box date record w = (w, Raise ListingError))
  ∧ (∀ pages p,
       list_objects_v2 (cycle_dir date (hour date) "atmos") = Some pages →
       p ∈ pages → Contents p = None →
       gen_sflux list_objects_v2 download_fileobj cfgrib float32
         box date record w = (w, Raise (KeyError "Contents"))).
Proof.
  split.
  - intros Hlist. unfold gen_sflux, AWSGrib2Inventory, bind, or_raise.
    by rewrite Hlist.
  - intros pages p Hlist Hp Hnone.
    assert (collect pages = None) as Hcol by (apply collect_None; eauto).
    unfold gen_sflux, AWSGrib2Inventory, bind, or_raise, ret, raise.
    by rewrite Hlist, Hcol.
Qed.

(** X3. When no key is selected (a [record] of 0, or a listing in which
    at most one key passes the filter), [gen_sflux] creates the day's
    directory and then raises [IndexError] at [grbfiles[0]]: no download
    is logged and no file is written. *)
Theorem gen_sflux_nothing_selected box date record pages data w :
  list_objects_v2 (cycle_dir date (hour date) "atmos") = Some pages →
  collect pages = Some data →
  record = 0%Z ∨ length (file_metadata data) ≤ 1 →
  gen_sflux list_objects_v2 download_fileobj cfgrib float32
    box date record w
  = ({| out_dirs := {[ strftime_Ymd date ]} ∪ out_dirs w;
        out_files := out_files w; log := log w |}, Raise IndexError).
Proof.
  intros Hpages Hdata Hempty.
  assert (Hsel : selected record (file_metadata data) = []).
  { by apply selected_nothing. }
  rewrite gen_sflux_steps. unfold bind at 1.
  rewrite (AWSGrib2Inventory_run _ _ _ _ _ pages data w Hpages Hdata).
  rewrite Hsel. cbn [fetch_log fetched foldl]. rewrite add_log_nil.
  unfold bind, mkdir, after_mkdir, files. simpl.
  rewrite dom_empty_L, elements_empty. done.
Qed.

(** X4. [gen_sflux] never removes an output directory, and it creates the
    day's directory as soon as the inventory has been built: once the
    listing has been read, the directory is there afterwards whether the
    day's job returns or raises. *)
Theorem gen_sflux_leaves_directory box date record pages data w :
  list_objects_v2 (cycle_dir date (hour date) "atmos") = Some pages →
  collect pages = Some data →
  out_dirs (gen_sflux list_objects_v2 download_fileobj cfgrib float32
              box date record w).1
  = {[ strftime_Ymd date ]} ∪ out_dirs w.
Proof.
  intros Hpages Hdata. rewrite gen_sflux_steps. unfold bind at 1.
  rewrite (AWSGrib2Inventory_run _ _ _ _ _ pages data w Hpages Hdata).
  unfold bind at 1. cbn [mkdir].
  match goal with
  | |- out_dirs (after_mkdir ?b ?d ?i ?w1).1 = _ =>
      rewrite (same_dirs_after_mkdir b d i w1)
  end.
  done.
Qed.

End DayOutcomes.

(** ** What [files] lists *)

(** X5. [files] is lexically ascending and without repetition, and it
    holds exactly the paths present in the temporary directory that have
    the form [<cycle dir>/gfs.tCCz.pgrb2.0p25.f<stem>.grib2] with a stem
    that names no subdirectory. *)
Theorem files_sorted_matching (inv : inventory) :
  StronglySorted String.le (files inv)
  ∧ NoDup (files inv)
  ∧ ∀ p, p ∈ files inv ↔
         is_Some (tmpdir inv !! p)
         ∧ ∃ stem, p = files_prefix inv +:+ stem +:+ ".grib2"
                   ∧ ¬ substring_of "/" stem.
Proof.
  split; [apply files_StronglySorted|]. split; [apply files_NoDup|].
  intros p. rewrite elem_of_files, glob_match_spec. tauto.
Qed.

Section InventoryFiles.

Variable list_objects_v2 : string → option (list s3_page).
Variable download_fileobj : string → option bytes.

Lemma inventory_files_elem date record prod pages data w w' inv p :
  list_objects_v2 (cycle_dir date (hour date) prod) = Some pages →
  collect pages = Some data →
  AWSGrib2Inventory list_objects_v2 download_fileobj date record prod w
  = (w', Ok inv) →
  p ∈ files inv ↔
    ∃ k, k ∈ selected record (file_metadata data)
         ∧ per_hour_key date prod k ∧ p = grib2_name k.
Proof.
  intros Hpages Hdata Hrun.
  rewrite (AWSGrib2Inventory_run list_objects_v2 download_fileobj
             date record prod pages data w Hpages Hdata) in Hrun.
  injection Hrun as _ <-.
  rewrite elem_of_files, <- elem_of_dom. unfold files_prefix. simpl.
  rewrite (fetched_dom list_objects_v2), dom_empty_L.
  rewrite (right_id_L ∅ (∪)), elem_of_list_to_set, list_elem_of_fmap.
  split.
  - intros [Hglob (k & -> & Hk)]. exists k.
    by rewrite <- glob_grib2_name.
  - intros (k & Hk & Hper & ->). split; [by apply glob_grib2_name|].
    by exists k.
Qed.

(** X6. After [__init__], [files] lists exactly the local names of the
    selected keys that are per-hour keys of the cycle
    ([<cycle dir>/gfs.tCCz.pgrb2.0p25.f<stem>]). A selected key of another
    form (a [pgrb2b] file passes the filter, for one) is downloaded to the
    temporary directory all the same, and never listed. *)
Theorem files_are_the_per_hour_keys date record prod pages data w :
  list_objects_v2 (cycle_dir date (hour date) prod) = Some pages →
  collect pages = Some data →
  let keys := selected record (file_metadata data) in
  ∃ w' inv,
    AWSGrib2Inventory list_objects_v2 download_fileobj date record prod w
    = (w', Ok inv)
    ∧ (∀ p, p ∈ files inv ↔
            ∃ k, k ∈ keys ∧ per_hour_key date prod k ∧ p = grib2_name k)
    ∧ (∀ k, k ∈ keys → ¬ per_hour_key date prod k →
            tmpdir inv !! grib2_name k
            = Some (default [] (download_fileobj k))
            ∧ grib2_name k ∉ files inv).
Proof.
  intros Hpages Hdata keys.
  pose proof (AWSGrib2Inventory_run list_objects_v2 download_fileobj
                date record prod pages data w Hpages Hdata) as Hrun.
  eexists _, _. split; [exact Hrun|]. split.
  - intros p. by eapply inventory_files_elem.
  - intros k Hk Hnot. split; [by apply fetched_lookup|].
    intros Hin.
    apply (inventory_files_elem _ _ _ _ _ _ _ _ _ Hpages Hdata Hrun) in Hin
      as (k' & _ & Hper & Heq).
    apply (inj grib2_name) in Heq. by subst k'.
Qed.

End InventoryFiles.

(** ** A failed download and the decoder *)

Section FailedDownload.

Variable list_objects_v2 : string → option (list s3_page).
Variable download_fileobj : string → option bytes.
Variable cfgrib : bytes → filter_by_keys → option grib_dataset.
Variable float32 : Q → Q.

(** X7. With a decoder that cannot read a file of no bytes, one failed
    download of a selected per-hour key is enough for the day to fail:
    [__init__] swallows the exception, but [gen_sflux] then meets the empty
    file (or an earlier failure) and raises, and no output file is
    written. *)
Theorem failed_download_fails_day box date record pages data w k :
  list_objects_v2 (cycle_dir date (hour date) "atmos") = Some pages →
  collect pages = Some data →
  k ∈ selected record (file_metadata data) →
  per_hour_key date "atmos" k →
  download_fileobj k = None →
  (∀ flt, cfgrib [] flt = None) →
  ∃ w' e,
    gen_sflux list_objects_v2 download_fileobj cfgrib float32
      box date record w = (w', Raise e)
    ∧ out_files w' = out_files w.
Proof.
  intros Hpages Hdata Hk Hper Hfail Hempty.
  destruct (gen_sflux list_objects_v2 download_fileobj cfgrib float32
              box date record w) as [w' [[]|e]] eqn:Hrun.
  - exfalso.
    apply gen_sflux_Ok_inv in Hrun
      as (inv & w1 & first & ds0 & ll & arr & sz & Hinv & _ & _ & _ & Hvars
          & _).
    assert (Hin : grib2_name k ∈ files inv).
    { apply (inventory_files_elem _ _ _ _ _ _ _ _ _ _ _ Hpages Hdata Hinv).
      by exists k. }
    rewrite (AWSGrib2Inventory_run list_objects_v2 download_fileobj
               date record "atmos" pages data w Hpages Hdata) in Hinv.
    injection Hinv as _ <-.
    destruct (Hvars Vstmp) as (natives & Hnat & _).
    apply list_elem_of_lookup in Hin as [h Hh].
    destruct (Forall2_lookup_l _ _ _ _ _ Hnat Hh) as (a & _ & Ha).
    unfold native_field, decoded in Ha. simpl in Ha.
    rewrite (fetched_lookup download_fileobj _ ∅ k Hk) in Ha.
    rewrite Hfail in Ha. simpl in Ha. by rewrite Hempty in Ha.
  - exists w', e. split; [done|].
    by eapply gen_sflux_raise_keeps_files.
Qed.

End FailedDownload.

(** ** The window and the grids of [modified_latlon] *)




Section WindowFacts.

Variable cfgrib : bytes → filter_by_keys → option grib_dataset.
Variable float32 : Q → Q.





End WindowFacts.

(** ** Cells of the written arrays on the product's fixed grid *)

Lemma calculate_dimensions_dom (sz sz' : gmap string nat)
    (vars : list (string * (list string * ndarray))) (d : string) :
  Xr.calculate_dimensions sz vars = Some sz' → is_Some (sz' !! d) →
  is_Some (sz !! d) ∨ ∃ nv, nv ∈ vars ∧ d ∈ nv.2.1.
Proof.
  assert (Hadd : ∀ ds shp s s', Xr.add_dims s ds shp = Some s' →
                   is_Some (s' !! d) → is_Some (s !! d) ∨ d ∈ ds).
  { induction ds as [|x ds IH]; intros [|n shp] s s' Ha Hd;
      simpl in Ha; try done.
    - left. congruence.
    - destruct (s !! x) as [m|] eqn:Hx.
      + destruct (bool_decide (m = n)); [|done].
        destruct (IH _ _ _ Ha Hd) as [?|?]; [by left|right; by right].
      + destruct (IH _ _ _ Ha Hd) as [Hin|?]; [|right; by right].
        destruct (decide (x = d)) as [->|Hne]; [right; left|].
        left. by rewrite lookup_insert_ne in Hin. }
  revert sz. induction vars as [|[name [ds a]] vars IH]; intros sz Hc Hd;
    simpl in Hc.
  - left. congruence.
  - destruct (Xr.add_dims sz ds (Np.shape a)) as [s1|] eqn:H1; [|done].
    destruct (IH _ Hc Hd) as [Hin|(nv & Hnv & Hdnv)].
    + destruct (Hadd _ _ _ _ H1 Hin) as [?|?]; [by left|].
      right. exists (name, (ds, a)). split; [left|done].
    + right. exists nv. split; [by right|done].
Qed.

Lemma set_attrs_sizes name a ds : sizes (Xr.set_attrs name a ds) = sizes ds.
Proof.
  unfold Xr.set_attrs. destruct (Xr.getitem name (data_vars ds)); [done|].
  by destruct (Xr.getitem name (coords ds)).
Qed.

Section Cells.

Variable list_objects_v2 : string → option (list s3_page).
Variable download_fileobj : string → option bytes.
Variable cfgrib : bytes → filter_by_keys → option grib_dataset.
Variable float32 : Q → Q.
Variables nlat nlon : nat.

Hypothesis cfgrib_grid :
  ∀ content flt ds,
    cfgrib content flt = Some ds →
    length (latitude ds) = nlat ∧ length (longitude ds) = nlon
    ∧ ∀ name a, Xr.getitem name (fields ds) = Some a → has_shape2 nlat nlon a.

(** What a normal return says about the window: bounds, no gaps, and the
    two grids by position. *)
Lemma window_cells box inv first ds0 ll arr sz n :
  head (files inv) = Some first →
  decoded cfgrib inv first (by_step_level "instant" "surface") = Some ds0 →
  window_of float32 box ds0 = Some ll →
  (∀ v, ∃ natives,
     Forall2 (λ f a, native_field cfgrib inv f v = Some a) (files inv) natives
     ∧ arr v = Arr3 ((λ a, reverse (window float32 ll a)) <$> natives)) →
  Xr.calculate_dimensions ∅ (coords_of float32 ll n ++ data_vars_of arr)
  = Some sz →
  let Ny := S (idx_ymax ll) - idx_ymin ll in
  let Nx := S (idx_xmax ll) - idx_xmin ll in
  (idx_ymin ll ≤ idx_ymax ll < nlat ∧ idx_xmin ll ≤ idx_xmax ll < nlon)
  ∧ (∀ i, idx_ymin ll ≤ i ≤ idx_ymax ll →
       ∃ y, native_lat float32 ds0 !! i = Some y
            ∧ lat_match float32 box y = true)
  ∧ (∀ j, idx_xmin ll ≤ j ≤ idx_xmax ll →
       ∃ x, native_lon float32 ds0 !! j = Some x
            ∧ lon_match float32 box x = true)
  ∧ nx_grid ll
    = replicate Ny
        (unwrap180 <$> take Nx (drop (idx_xmin ll) (native_lon float32 ds0)))
  ∧ ny_grid ll
    = (λ v, replicate Nx v)
        <$> reverse (take Ny (drop (idx_ymin ll) (native_lat float32 ds0))).
Proof.
  intros Hfirst Hds0 Hwin Hvars Hsz Ny Nx.
  destruct (window_bounds cfgrib float32 nlat nlon cfgrib_grid
              _ _ _ _ _ _ Hds0 Hwin) as [Hy Hx].
  destruct (window_contiguous cfgrib float32 nlat nlon cfgrib_grid
              _ _ _ _ _ _ _ _ Hfirst Hds0 Hwin Hvars Hsz) as [Hlat Hlon].
  pose proof (window_of_Some _ _ _ _ Hwin) as (_ & _ & _ & _ & Hnx & Hny).
  destruct (decoded_cfgrib _ _ _ _ _ Hds0) as [content Hcontent].
  destruct (cfgrib_grid _ _ _ Hcontent) as (Hnlat & Hnlon & _).
  fold Ny in Hlat. fold Nx in Hlon.
  split; [done|]. split; [|split; [|split]].
  - intros i Hi.
    assert (i ∈ lat_idxs float32 box ds0) as Hin.
    { rewrite Hlat. apply elem_of_seq. unfold Ny. lia. }
    by apply elem_of_where in Hin.
  - intros j Hj.
    assert (j ∈ lon_idxs float32 box ds0) as Hin.
    { rewrite Hlon. apply elem_of_seq. unfold Nx. lia. }
    by apply elem_of_where in Hin.
  - rewrite Hnx, <- (take_idxs_where (lon_match float32 box)).
    fold (lon_idxs float32 box ds0). rewrite Hlat, Hlon, length_seq.
    rewrite take_idxs_seq; [done|].
    unfold native_lon. rewrite length_fmap. unfold Nx. lia.
  - rewrite Hny, <- (take_idxs_where (lat_match float32 box)).
    fold (lat_idxs float32 box ds0). rewrite Hlat, Hlon, length_seq.
    rewrite take_idxs_seq; [done|].
    unfold native_lat. rewrite length_fmap. unfold Ny. lia.
Qed.


(** X12. On the product's fixed grid, the dataset of a written day has
    exactly the three dimensions [time], [ny_grid] and [nx_grid], of sizes
    the number of files and the extent of the window, and the two
    coordinate grids [lon] and [lat] have the shape of one time slice of
    the variables. *)
Theorem gen_sflux_dimension_sizes box date record w w' :
  gen_sflux list_objects_v2 download_fileobj cfgrib float32
    box date record w = (w', Ok ()) →
  ∃ inv first ll nc (glon glat : array2) alon alat,
    (AWSGrib2Inventory list_objects_v2 download_fileobj
       date record "atmos" w).2 = Ok inv
    ∧ head (files inv) = Some first
    ∧ (modified_latlon cfgrib float32 box inv first w).2 = Ok ll
    ∧ out_files w' !! out_path date = Some nc
    ∧ sizes (nc_dataset nc) !! "time" = Some (length (files inv))
    ∧ sizes (nc_dataset nc) !! "ny_grid"
      = Some (S (idx_ymax ll) - idx_ymin ll)
    ∧ sizes (nc_dataset nc) !! "nx_grid"
      = Some (S (idx_xmax ll) - idx_xmin ll)
    ∧ (∀ d, is_Some (sizes (nc_dataset nc) !! d) →
            d ∈ ["time"; "ny_grid"; "nx_grid"])
    ∧ Xr.getvar "lon" (nc_dataset nc)
      = Some {| dims := ["ny_grid"; "nx_grid"]; values := Arr2 glon;
                attrs := alon |}
    ∧ Xr.getvar "lat" (nc_dataset nc)
      = Some {| dims := ["ny_grid"; "nx_grid"]; values := Arr2 glat;
                attrs := alat |}
    ∧ has_shape2 (S (idx_ymax ll) - idx_ymin ll)
        (S (idx_xmax ll) - idx_xmin ll) glon
    ∧ has_shape2 (S (idx_ymax ll) - idx_ymin ll)
        (S (idx_xmax ll) - idx_xmin ll) glat.
Proof.
  intros Hrun.
  apply gen_sflux_Ok_inv in Hrun
    as (inv & w1 & first & ds0 & ll & arr & sz
        & Hinv & Hfirst & Hds0 & Hwin & Hvars & Hsz & Hout).
  destruct (window_cells _ _ _ _ _ _ _ _ Hfirst Hds0 Hwin Hvars Hsz)
    as ([Hy Hx] & _ & _ & Hnx & Hny).
  destruct (decoded_cfgrib _ _ _ _ _ Hds0) as [content Hcontent].
  destruct (cfgrib_grid _ _ _ Hcontent) as (Hnlat & Hnlon & _).
  set (Ny := S (idx_ymax ll) - idx_ymin ll) in *.
  set (Nx := S (idx_xmax ll) - idx_xmin ll) in *.
  assert (Hlon_shape : has_shape2 Ny Nx (nx_grid ll)).
  { rewrite Hnx. split; [by rewrite length_replicate|].
    apply Forall_replicate.
    rewrite length_fmap, length_take, length_drop. unfold native_lon.
    rewrite length_fmap. unfold Nx. lia. }
  assert (Hlat_shape : has_shape2 Ny Nx (ny_grid ll)).
  { rewrite Hny. split.
    - rewrite length_fmap, length_reverse, length_take, length_drop.
      unfold native_lat. rewrite length_fmap. unfold Ny. lia.
    - apply Forall_fmap, Forall_forall. intros v _. simpl.
      by rewrite length_replicate. }
  destruct (day_dataset_lon float32 date ll (length (files inv)) arr sz)
    as [alon Halon].
  destruct (day_dataset_lat float32 date ll (length (files inv)) arr sz)
    as [alat Halat].
  assert (Hsizes : sizes (day_dataset float32 date ll (length (files inv))
                            arr sz) = sz).
  { unfold day_dataset, annotate. by rewrite !set_attrs_sizes. }
  pose proof (calculate_dimensions_Some _ _ _ Hsz) as [_ Hall].
  apply Forall_app in Hall as [Hco _].
  apply Forall_cons in Hco as [Htime Hco].
  apply Forall_cons in Hco as [Hlon _]. simpl in Htime, Hlon.
  apply Forall2_cons in Htime as [Htime _].
  apply Forall2_cons in Hlon as [Hny2 Hlon].
  apply Forall2_cons in Hlon as [Hnx2 _].
  rewrite time_coord_length in Htime.
  destruct Hlon_shape as [Hrows Hcols]. rewrite Hrows in Hny2.
  assert (length (default [] (head (nx_grid ll))) = Nx) as Hhead.
  { destruct (nx_grid ll) as [|row rows]; [simpl in Hrows; unfold Ny in *; lia|].
    by apply Forall_cons in Hcols as [? _]. }
  rewrite Hhead in Hnx2.
  exists inv, first, ll. eexists _, (nx_grid ll), (ny_grid ll), alon, alat.
  split; [by rewrite Hinv|]. split; [done|].
  split. { rewrite modified_latlon_run, Hds0, Hwin. done. }
  split; [by rewrite Hout, lookup_insert_eq|]. cbn [nc_dataset].
  rewrite Hsizes.
  split; [done|]. split; [done|]. split; [done|]. split.
  { intros d Hd.
    destruct (calculate_dimensions_dom _ _ _ d Hsz Hd)
      as [Hempty|(nv & Hnv & Hdnv)].
    - rewrite lookup_empty in Hempty. by destruct Hempty.
    - apply elem_of_app in Hnv as [Hnv|Hnv].
      + unfold coords_of in Hnv.
        repeat (apply elem_of_cons in Hnv as [->|Hnv];
                [cbn [fst snd] in Hdnv;
                 repeat (apply elem_of_cons in Hdnv as [->|Hdnv];
                         [first [left | right; left | right; right; left]|]);
                 destruct (proj1 (elem_of_nil _) Hdnv)|]).
        destruct (proj1 (elem_of_nil _) Hnv).
      + unfold data_vars_of in Hnv.
        apply list_elem_of_fmap in Hnv as (v & -> & _). exact Hdnv. }
  split; [exact Halon|]. split; [exact Halat|].
  split; [split; [exact Hrows|exact Hcols]|exact Hlat_shape].
Qed.

End Cells.

(** ** The written file *)

Section WrittenFile.

Variable list_objects_v2 : string → option (list s3_page).
Variable download_fileobj : string → option bytes.
Variable cfgrib : bytes → filter_by_keys → option grib_dataset.
Variable float32 : Q → Q.

(** X13. A day that [gen_sflux] completes is written once, to
    [<YYYYMMDD>/gfs_<YYYYMMDD><HH>.nc] inside the directory it has made,
    in mode [w] as [NETCDF3_CLASSIC] with [time] unlimited; every other
    output file is left as it was. The dataset holds the eight variables
    in the order stmp, spfh, uwind, vwind, prmsl, prate, dlwrf, dswrf and
    the coordinates time, lon, lat; [time] carries the base date
    [year, month, day, hour, 0] and units counted in days from the cycle
    time, [lat] and [lon] their units and names. *)
Theorem gen_sflux_written_file box date record w w' :
  gen_sflux list_objects_v2 download_fileobj cfgrib float32
    box date record w = (w', Ok ()) →
  ∃ nc vtime vlat vlon,
    out_files w' !! out_path date = Some nc
    ∧ (∀ p, p ≠ out_path date → out_files w' !! p = out_files w !! p)
    ∧ strftime_Ymd date ∈ out_dirs w'
    ∧ out_path date
      = strftime_Ymd date +:+ "/gfs_" +:+ strftime_Ymd date
        +:+ Py.fmt02d (hour date) +:+ ".nc"
    ∧ nc_mode nc = "w" ∧ nc_format nc = "NETCDF3_CLASSIC"
    ∧ nc_unlimited_dims nc = "time"
    ∧ (data_vars (nc_dataset nc)).*1
      = ["stmp"; "spfh"; "uwind"; "vwind"; "prmsl"; "prate"; "dlwrf"; "dswrf"]
    ∧ (coords (nc_dataset nc)).*1 = ["time"; "lon"; "lat"]
    ∧ Xr.getvar "time" (nc_dataset nc) = Some vtime
    ∧ Xr.getvar "lat" (nc_dataset nc) = Some vlat
    ∧ Xr.getvar "lon" (nc_dataset nc) = Some vlon
    ∧ attrs vtime
      = [("long_name", AStr "Time"); ("standard_name", AStr "time");
         ("base_date",
          AInts [Z.of_nat (year date); Z.of_nat (month date);
                 Z.of_nat (day date); Z.of_nat (hour date); 0%Z]);
         ("units",
          AStr ("days since " +:+ pretty (year date) +:+ "-"
                +:+ pretty (month date) +:+ "-" +:+ pretty (day date)
                +:+ " " +:+ Py.fmt02d (hour date) +:+ ":00 UTC"))]
    ∧ attrs vlat
      = [("units", AStr "degrees_north"); ("long_name", AStr "Latitude");
         ("standard_name", AStr "latitude")]
    ∧ attrs vlon
      = [("units", AStr "degrees_east"); ("long_name", AStr "Longitude");
         ("standard_name", AStr "longitude")].
Proof.
  intros Hrun.
  assert (Hdir : strftime_Ymd date ∈ out_dirs w').
  { pose proof Hrun as Hsteps. rewrite gen_sflux_steps in Hsteps.
    apply bind_Ok_inv in Hsteps as (inv & w1 & _ & Hsteps).
    apply bind_Ok_inv in Hsteps as ([] & w2 & Hmk & Hsteps).
    pose proof (same_dirs_after_mkdir cfgrib float32 box date inv w2) as Hd.
    rewrite Hsteps in Hd. simpl in Hd. rewrite Hd.
    unfold mkdir in Hmk. injection Hmk as <-. simpl.
    apply elem_of_union_l, elem_of_singleton. done. }
  apply gen_sflux_Ok_inv in Hrun
    as (inv & w1 & first & ds0 & ll & arr & sz & _ & _ & _ & _ & _ & _ & Hout).
  eexists _, _, _, _.
  split; [by rewrite Hout, lookup_insert_eq|].
  split. { intros p Hp. by rewrite Hout, lookup_insert_ne. }
  split; [exact Hdir|]. split; [reflexivity|].
  repeat (split; [reflexivity|]). reflexivity.
Qed.

End WrittenFile.

(** ** The time axis *)

Section TimeAxis.

Variable float32 : Q → Q.

(** X14. The time coordinate is the float32 cast of values that, before
    the cast, start at hour 1 (0.0417), are multiples of 0.0001 within
    0.00005 of [h/24], equal the whole number of days at every 24th hour,
    and increase strictly with the position. *)
Theorem time_coord_values (n : nat) :
  ∃ ts : list Q,
    time_coord float32 n = float32 <$> ts
    ∧ length ts = n
    ∧ (∀ t, ts !! 0 = Some t → (t == 417 # 10000)%Q)
    ∧ ∀ h, 1 ≤ h ≤ n →
        ∃ t z, ts !! (h - 1) = Some t
          ∧ (t == inject_Z z / 10000)%Q
          ∧ (t - inject_Z (Z.of_nat h) / 24 <= 1 # 20000)%Q
          ∧ (inject_Z (Z.of_nat h) / 24 - t <= 1 # 20000)%Q
          ∧ (∀ k, h = 24 * k → (t == inject_Z (Z.of_nat k))%Q)
          ∧ (∀ h' t', h < h' → ts !! (h' - 1) = Some t' → (t < t')%Q).
Proof.
  exists (Np.round 4 <$> Np.arange_div24 n).
  assert (Hlookup : ∀ h, 1 ≤ h ≤ n →
            (Np.round 4 <$> Np.arange_div24 n) !! (h - 1)
            = Some (Np.round 4 (inject_Z (Z.of_nat h) / 24))).
  { intros h Hh. unfold Np.arange_div24.
    rewrite !list_lookup_fmap, lookup_seq_lt by lia. simpl.
    by replace (S (h - 1)) with h by lia. }
  split; [done|].
  split. { unfold Np.arange_div24. by rewrite !length_fmap, length_seq. }
  split.
  { intros t Ht. destruct n as [|n]; [done|].
    pose proof (Hlookup 1 ltac:(lia)) as H1.
    change (1 - 1) with 0 in H1. rewrite H1 in Ht. injection Ht as <-.
    done. }
  intros h Hh. eexists _, _. split; [by apply Hlookup|].
  split; [reflexivity|].
  destruct (round4_bounds (inject_Z (Z.of_nat h) / 24)) as [Hlo Hhi].
  split; [done|]. split; [done|]. split.
  - intros k ->. unfold Np.round.
    change (inject_Z (10 ^ Z.of_nat 4)) with (10000 # 1)%Q.
    rewrite (rint_inject_Z _ (Z.of_nat k * 10000)).
    + rewrite inject_Z_mult. change (inject_Z 10000) with (10000 # 1)%Q.
      by field.
    + rewrite Nat2Z.inj_mul, !inject_Z_mult.
      change (inject_Z (Z.of_nat 24)) with (24 # 1)%Q.
      change (inject_Z 10000) with (10000 # 1)%Q. by field.
  - intros h' t' Hlt Ht'.
    assert (h' ≤ n) as Hn.
    { apply lookup_lt_Some in Ht'. unfold Np.arange_div24 in Ht'.
      rewrite !length_fmap, length_seq in Ht'. lia. }
    rewrite Hlookup in Ht' by lia. injection Ht' as <-.
    destruct (round4_bounds (inject_Z (Z.of_nat h') / 24)) as [Hlo' Hhi'].
    pose proof (inject_Z_nat_lt h h' Hlt) as Hstep.
    set (a := inject_Z (Z.of_nat h)) in *.
    set (b := inject_Z (Z.of_nat h')) in *.
    assert (a / 24 == a * (1 # 24))%Q as Ha by (by field).
    assert (b / 24 == b * (1 # 24))%Q as Hb by (by field).
    set (x := (a / 24)%Q) in *. set (y := (b / 24)%Q) in *.
    set (rx := Np.round 4 x) in *. set (ry := Np.round 4 y) in *.
    lra.
Qed.

End TimeAxis.

(** ** The log of a completed day *)

Section LogTrace.

Variable list_objects_v2 : string → option (list s3_page).
Variable download_fileobj : string → option bytes.
Variable cfgrib : bytes → filter_by_keys → option grib_dataset.
Variable float32 : Q → Q.

Lemma AWSGrib2Inventory_Ok_inv date record prod w w1 inv :
  AWSGrib2Inventory list_objects_v2 download_fileobj date record prod w
  = (w1, Ok inv) →
  ∃ pages data,
    list_objects_v2 (cycle_dir date (hour date) prod) = Some pages
    ∧ collect pages = Some data
    ∧ w1 = add_log (fetch_log download_fileobj
                      (selected record (file_metadata data))) w
    ∧ tmpdir inv
      = fetched download_fileobj ∅ (selected record (file_metadata data)).
Proof.
  intros Hrun. pose proof Hrun as Hinv. unfold AWSGrib2Inventory in Hinv.
  apply bind_Ok_inv in Hinv as (pages & w2 & Hpages & Hinv).
  apply or_raise_Ok_inv in Hpages as [Hpages ->].
  apply bind_Ok_inv in Hinv as (data & w3 & Hdata & _).
  apply or_raise_Ok_inv in Hdata as [Hdata ->].
  rewrite (AWSGrib2Inventory_run _ _ _ _ _ pages data w Hpages Hdata) in Hrun.
  injection Hrun as <- <-. by exists pages, data.
Qed.

Ltac log_step :=
  first
    [ rewrite open_dataset_run
    | rewrite take_field_run
    | match goal with
      | |- context [decoded ?c ?i ?f ?flt] =>
          destruct (decoded c i f flt); [|done]
      | |- context [Xr.getitem ?k (fields ?d)] =>
          destruct (Xr.getitem k (fields d)); [|done]
      end ].

Lemma extract_Ok_log inv ll acc entry w w' acc' :
  extract cfgrib float32 inv ll acc entry w = (w', Ok acc') →
  w' = add_log ["file " +:+ pretty entry.1 +:+ " is " +:+ entry.2] w.
Proof.
  unfold extract, bind. simpl. repeat log_step. by intros [= <- _].
Qed.

Lemma extract_loop_log inv ll (fs : list string) :
  ∀ i acc w w' acc',
    for_each (extract cfgrib float32 inv ll) acc
      (zip (seq i (length fs)) fs) w = (w', Ok acc') →
    w' = add_log
           (imap (λ k f, "file " +:+ pretty (i + k) +:+ " is " +:+ f) fs) w.
Proof.
  induction fs as [|f fs IH]; intros i acc w w' acc' Hrun.
  - apply ret_Ok_inv in Hrun as [_ ->]. by rewrite add_log_nil.
  - cbn [length seq zip zip_with for_each] in Hrun.
    apply bind_Ok_inv in Hrun as (acc1 & w1 & Hone & Hrest).
    apply extract_Ok_log in Hone. apply IH in Hrest.
    rewrite Hrest, Hone, add_log_app. f_equal.
    cbn [imap app fst snd]. rewrite Nat.add_0_r. f_equal.
    apply imap_ext. intros k x _. unfold compose. simpl.
    by rewrite Nat.add_succ_r.
Qed.

(** X15. The log of a day that [gen_sflux] completes grows by, in this
    order: for each selected key its [Downloading file] line, followed by
    the [is not available] line exactly when its download raised; the
    line with the four window indices; and one [file i is path] line per
    file of the inventory, in the sorted order and counted from 0. *)
Theorem gen_sflux_log box date record w w' :
  gen_sflux list_objects_v2 download_fileobj cfgrib float32
    box date record w = (w', Ok ()) →
  ∃ pages data inv first ll,
    list_objects_v2 (cycle_dir date (hour date) "atmos") = Some pages
    ∧ collect pages = Some data
    ∧ (AWSGrib2Inventory list_objects_v2 download_fileobj
         date record "atmos" w).2 = Ok inv
    ∧ head (files inv) = Some first
    ∧ (modified_latlon cfgrib float32 box inv first w).2 = Ok ll
    ∧ log w'
      = log w
        ++ (selected record (file_metadata data) ≫= λ k,
              ("Downloading file " +:+ k +:+ ", ")
              :: match download_fileobj k with
                 | Some _ => []
                 | None => ["file " +:+ k +:+ " is not available"]
                 end)
        ++ ["idx_ymin is " +:+ pretty (idx_ymin ll) +:+ ", idx_ymax is "
            +:+ pretty (idx_ymax ll) +:+ ", idx_xmin is "
            +:+ pretty (idx_xmin ll) +:+ ", idx_xmax is "
            +:+ pretty (idx_xmax ll)]
        ++ imap (λ i f, "file " +:+ pretty i +:+ " is " +:+ f) (files inv).
Proof.
  unfold gen_sflux. intros Hrun.
  apply bind_Ok_inv in Hrun as (inv & w1 & Hinv & Hrun).
  apply bind_Ok_inv in Hrun as ([] & w2 & Hmk & Hrun).
  apply bind_Ok_inv in Hrun as (first & w3 & Hfirst & Hrun).
  apply or_raise_Ok_inv in Hfirst as [Hfirst ->].
  apply bind_Ok_inv in Hrun as (ll & w4 & Hll & Hrun).
  apply bind_Ok_inv in Hrun as (acc & w5 & Hloop & Hrun).
  apply bind_Ok_inv in Hrun as (fout & w6 & Hasm & Hrun).
  pose proof (AWSGrib2Inventory_Ok_inv _ _ _ _ _ _ Hinv)
    as (pages & data & Hpages & Hdata & Hw1 & _).
  pose proof (modified_latlon_Ok_inv _ _ _ _ _ _ _ _ Hll)
    as (ds0 & Hds0 & Hwin & Hw4).
  apply extract_loop_log in Hloop.
  apply assemble_Ok_inv in Hasm as (-> & _).
  unfold mkdir in Hmk. injection Hmk as <-.
  unfold to_netcdf in Hrun. injection Hrun as <-.
  exists pages, data, inv, first, ll.
  split; [done|]. split; [done|]. split; [by rewrite Hinv|].
  split; [done|].
  split. { rewrite modified_latlon_run, Hds0, Hwin. done. }
  simpl. rewrite Hloop, Hw4. simpl. rewrite Hw1. simpl.
  by rewrite <- !app_assoc.
Qed.

End LogTrace.

(** ** When a day is written *)

Lemma bind_Ok {A B} (m : M A) (k : A → M B) (w w1 : world) (a : A) :
  m w = (w1, Ok a) → bind m k w = k a w1.
Proof. unfold bind. by intros ->. Qed.

Lemma interval_length (l : list nat) (a b : nat) :
  (∀ i, a ≤ i ≤ b → i ∈ l) → S b - a ≤ length l.
Proof.
  intros Hall. transitivity (length (seq a (S b - a)));
    [by rewrite length_seq|].
  apply submseteq_length, NoDup_submseteq; [apply NoDup_seq|].
  intros i Hi%elem_of_seq. apply Hall. lia.
Qed.

Lemma add_dims_ok (target sz : gmap string nat) (ds : list string)
    (shp : list nat) :
  sz ⊆ target → Forall2 (λ d n, target !! d = Some n) ds shp →
  ∃ sz', Xr.add_dims sz ds shp = Some sz' ∧ sz' ⊆ target.
Proof.
  intros Hsub Hall. revert sz Hsub.
  induction Hall as [|d n ds shp Hd Hall IH]; intros sz Hsub; simpl.
  - eauto.
  - destruct (sz !! d) as [m|] eqn:Hm.
    + assert (target !! d = Some m) as Ht by (by eapply lookup_weaken).
      assert (m = n) as -> by congruence.
      rewrite bool_decide_eq_true_2 by done. by apply IH.
    + apply IH. by apply insert_subseteq_l.
Qed.

Lemma calculate_dimensions_ok (target sz : gmap string nat)
    (vars : list (string * (list string * ndarray))) :
  sz ⊆ target →
  Forall (λ nv, Forall2 (λ d n, target !! d = Some n) nv.2.1
                  (Np.shape nv.2.2)) vars →
  ∃ sz', Xr.calculate_dimensions sz vars = Some sz'.
Proof.
  intros Hsub Hall. revert sz Hsub.
  induction Hall as [|[name [ds a]] vars Hv Hall IH]; intros sz Hsub; simpl.
  - eauto.
  - destruct (add_dims_ok target sz ds (Np.shape a) Hsub Hv)
      as (sz1 & -> & Hsub1).
    by apply IH.
Qed.

Lemma shape2_of_shape (ny nx : nat) (a : array2) :
  0 < ny → has_shape2 ny nx a → Np.shape2 a = (ny, nx).
Proof.
  intros Hny [Hlen Hrows]. unfold Np.shape2. rewrite Hlen.
  destruct a as [|row rows]; [simpl in Hlen; lia|].
  apply Forall_cons in Hrows as [Hrow _]. simpl. by rewrite Hrow.
Qed.

Lemma array_of_shape (ny nx : nat) (l : list array2) :
  0 < ny → l ≠ [] → Forall (has_shape2 ny nx) l →
  Np.array l = Some (Arr3 l).
Proof.
  intros Hny Hne Hall. destruct l as [|a l']; [done|]. unfold Np.array.
  assert (forallb (λ b, bool_decide (Np.shape2 b = Np.shape2 a)) (a :: l')
          = true) as ->; [|done].
  apply forallb_forall. intros b Hb. apply list_elem_of_In in Hb.
  apply bool_decide_eq_true_2. rewrite Forall_forall in Hall.
  rewrite (shape2_of_shape ny nx b), (shape2_of_shape ny nx a);
    [done|done|apply Hall; left|done|by apply Hall].
Qed.

Lemma shape_Arr2 (ny nx : nat) (m : array2) :
  0 < ny → has_shape2 ny nx m → Np.shape (Arr2 m) = [ny; nx].
Proof.
  intros Hny Hm. pose proof (shape2_of_shape ny nx m Hny Hm) as Hs.
  unfold Np.shape2 in Hs. simpl. congruence.
Qed.

Lemma shape_Arr3 (ny nx : nat) (l : list array2) :
  0 < ny → l ≠ [] → Forall (has_shape2 ny nx) l →
  Np.shape (Arr3 l) = [length l; ny; nx].
Proof.
  intros Hny Hne Hall. destruct l as [|a l']; [done|].
  apply Forall_cons in Hall as [Ha _].
  pose proof (shape2_of_shape ny nx a Hny Ha) as Hs.
  unfold Np.shape2 in Hs. simpl. congruence.
Qed.

Section Completion.

Variable list_objects_v2 : string → option (list s3_page).
Variable download_fileobj : string → option bytes.
Variable cfgrib : bytes → filter_by_keys → option grib_dataset.
Variable float32 : Q → Q.
Variables nlat nlon : nat.

Hypothesis cfgrib_grid :
  ∀ content flt ds,
    cfgrib content flt = Some ds →
    length (latitude ds) = nlat ∧ length (longitude ds) = nlon
    ∧ ∀ name a, Xr.getitem name (fields ds) = Some a → has_shape2 nlat nlon a.

Lemma extract_run inv ll acc i f w :
  (∀ v, is_Some (native_field cfgrib inv f v)) →
  ∃ w' acc', extract cfgrib float32 inv ll acc (i, f) w = (w', Ok acc').
Proof.
  intros Hall.
  destruct (Hall Vspfh) as [a1 H1]. destruct (Hall Vstmp) as [a2 H2].
  destruct (Hall Vuwind) as [a3 H3]. destruct (Hall Vvwind) as [a4 H4].
  destruct (Hall Vprmsl) as [a5 H5]. destruct (Hall Vprate) as [a6 H6].
  destruct (Hall Vdlwrf) as [a7 H7]. destruct (Hall Vdswrf) as [a8 H8].
  unfold native_field in *. simpl in *.
  apply bind_Some in H1 as (d1 & Hd1 & Hg1).
  apply bind_Some in H2 as (d2 & Hd2 & Hg2).
  apply bind_Some in H3 as (d3 & Hd3 & Hg3).
  apply bind_Some in H4 as (d4 & Hd4 & Hg4).
  apply bind_Some in H5 as (d5 & Hd5 & Hg5).
  apply bind_Some in H6 as (d6 & Hd6 & Hg6).
  apply bind_Some in H7 as (d7 & Hd7 & Hg7).
  apply bind_Some in H8 as (d8 & Hd8 & Hg8).
  rewrite Hd7 in Hd8. injection Hd8 as <-.
  unfold extract, bind, logger_info. cbn [fst snd].
  repeat first
    [ rewrite open_dataset_run | rewrite take_field_run
    | rewrite Hd1 | rewrite Hd2 | rewrite Hd3 | rewrite Hd4 | rewrite Hd5
    | rewrite Hd6 | rewrite Hd7
    | rewrite Hg1 | rewrite Hg2 | rewrite Hg3 | rewrite Hg4 | rewrite Hg5
    | rewrite Hg6 | rewrite Hg7 | rewrite Hg8 ].
  unfold ret. eauto.
Qed.

Lemma extract_loop_run inv ll (fs : list string) :
  (∀ f v, f ∈ fs → is_Some (native_field cfgrib inv f v)) →
  ∀ i acc w, ∃ w' acc',
    for_each (extract cfgrib float32 inv ll) acc
      (zip (seq i (length fs)) fs) w = (w', Ok acc').
Proof.
  induction fs as [|f fs IH]; intros Hall i acc w;
    cbn [length seq zip zip_with for_each].
  - unfold ret. eauto.
  - destruct (extract_run inv ll acc i f w) as (w1 & acc1 & H1).
    { intros v. apply Hall. left. }
    rewrite (bind_Ok _ _ _ _ _ H1). apply IH.
    intros f' v Hf'. apply Hall. by right.
Qed.

(** A native coordinate in the padded box as written is in the box as
    compared, for a cast that is monotone and leaves a float32 value as it
    is: the premises of X16 are met wherever the exact box holds the
    coordinates between the index bounds. *)
Lemma padded_box_float32 (lo hi u : Q) :
  (∀ x y, (x <= y)%Q → (float32 x <= float32 y)%Q) →
  (∀ x, float32 (float32 x) = float32 x) →
  (lo <= float32 u)%Q → (float32 u <= hi)%Q →
  (float32 lo <= float32 u)%Q ∧ (float32 u <= float32 hi)%Q.
Proof.
  intros Hmono Hidem Hlo Hhi. rewrite <- (Hidem u). split; by apply Hmono.
Qed.

Lemma gen_sflux_completes_cast_box box date record w w1 inv first ds0 ll :
  AWSGrib2Inventory list_objects_v2 download_fileobj date record "atmos" w
  = (w1, Ok inv) →
  head (files inv) = Some first →
  decoded cfgrib inv first (by_step_level "instant" "surface") = Some ds0 →
  window_of float32 box ds0 = Some ll →
  (∀ f v, f ∈ files inv → is_Some (native_field cfgrib inv f v)) →
  (∀ i, idx_ymin ll ≤ i ≤ idx_ymax ll →
     ∃ y, native_lat float32 ds0 !! i = Some y
          ∧ (float32 (ymin box - 1) <= y)%Q
          ∧ (y <= float32 (ymax box + 1))%Q) →
  (∀ j, idx_xmin ll ≤ j ≤ idx_xmax ll →
     ∃ x, native_lon float32 ds0 !! j = Some x
          ∧ (float32 (wrap360 (xmin box) - 1) <= x)%Q
          ∧ (x <= float32 (wrap360 (xmax box) + 1))%Q) →
  ∃ w', gen_sflux list_objects_v2 download_fileobj cfgrib float32
          box date record w = (w', Ok ())
        ∧ is_Some (out_files w' !! out_path date).
Proof.
  intros Hinv Hfirst Hds0 Hwin Hfields Hlat Hlon.
  destruct (window_bounds cfgrib float32 nlat nlon cfgrib_grid
              _ _ _ _ _ _ Hds0 Hwin) as [Hy Hx].
  pose proof (window_of_Some _ _ _ _ Hwin) as (Hy0 & Hy1 & Hx0 & Hx1 & Hnx & Hny).
  set (Ny := S (idx_ymax ll) - idx_ymin ll) in *.
  set (Nx := S (idx_xmax ll) - idx_xmin ll) in *.
  assert (HNy : 0 < Ny) by (unfold Ny; lia).
  assert (Hlat_idxs : lat_idxs float32 box ds0 = seq (idx_ymin ll) Ny).
  { apply sorted_interval; [apply (where_from_sorted _ 0)|done|done|].
    apply interval_length. intros i Hi. apply elem_of_where.
    destruct (Hlat i Hi) as (y & Hyv & Hlo & Hhi).
    exists y. split; [done|]. by apply lat_match_spec. }
  assert (Hlon_idxs : lon_idxs float32 box ds0 = seq (idx_xmin ll) Nx).
  { apply sorted_interval; [apply (where_from_sorted _ 0)|done|done|].
    apply interval_length. intros j Hj. apply elem_of_where.
    destruct (Hlon j Hj) as (x & Hxv & Hlo & Hhi).
    exists x. split; [done|]. by apply lon_match_spec. }
  assert (Hlat_len : length (filter (λ v, lat_match float32 box v = true)
                               (native_lat float32 ds0)) = Ny).
  { rewrite <- (take_idxs_where (lat_match float32 box)),
      length_take_idxs_where.
    change (Np.where_ _ _) with (lat_idxs float32 box ds0).
    by rewrite Hlat_idxs, length_seq. }
  assert (Hlon_len : length (filter (λ v, lon_match float32 box v = true)
                               (native_lon float32 ds0)) = Nx).
  { rewrite <- (take_idxs_where (lon_match float32 box)),
      length_take_idxs_where.
    change (Np.where_ _ _) with (lon_idxs float32 box ds0).
    by rewrite Hlon_idxs, length_seq. }
  assert (Hglon : has_shape2 Ny Nx (nx_grid ll)).
  { rewrite Hnx, Hlat_idxs, length_seq. split; [by rewrite length_replicate|].
    apply Forall_replicate. by rewrite length_fmap. }
  assert (Hglat : has_shape2 Ny Nx (ny_grid ll)).
  { rewrite Hny, Hlon_idxs, length_seq. split.
    - by rewrite length_fmap, length_reverse.
    - apply Forall_fmap, Forall_forall. intros v _. simpl.
      by rewrite length_replicate. }
  unfold gen_sflux.
  rewrite (bind_Ok _ _ _ _ _ Hinv).
  rewrite (bind_Ok (mkdir (strftime_Ymd date)) _ w1 _ () eq_refl).
  set (w2 := {| out_dirs := {[ strftime_Ymd date ]} ∪ out_dirs w1;
                out_files := out_files w1; log := log w1 |}).
  rewrite Hfirst.
  rewrite (bind_Ok (or_raise IndexError (Some first)) _ w2 w2 first eq_refl).
  assert (Hll : modified_latlon cfgrib float32 box inv first w2
                = (add_log [idx_message ll] w2, Ok ll))
    by (by rewrite modified_latlon_run, Hds0, Hwin).
  rewrite (bind_Ok _ _ _ _ _ Hll).
  destruct (extract_loop_run inv ll (files inv) Hfields 0 empty_series
              (add_log [idx_message ll] w2)) as (w4 & acc & Hloop).
  rewrite (bind_Ok _ _ _ _ _ Hloop).
  assert (Hser : ∀ v, var_series v acc ≠ []
                      ∧ length (var_series v acc) = length (files inv)
                      ∧ Forall (has_shape2 Ny Nx) (var_series v acc)).
  { intros v.
    destruct (extract_loop_Ok_inv _ _ _ _ _ _ _ _ _ _ Hloop v)
      as (natives & Hnat & Hacc).
    assert (var_series v empty_series = []) as Hnil by (by destruct v).
    rewrite Hnil, app_nil_l in Hacc. rewrite Hacc.
    pose proof (Forall2_length _ _ _ Hnat) as Hlen.
    split; [|split].
    - destruct natives as [|a natives]; [|done].
      simpl in Hlen. destruct (files inv); [done|simpl in Hlen; lia].
    - by rewrite length_fmap.
    - apply Forall_fmap, Forall_forall. intros a Ha. simpl.
      apply reverse_shape, (window_shape float32 nlat nlon); [|lia..].
      apply list_elem_of_lookup in Ha as [h Hh].
      destruct (Forall2_lookup_r _ _ _ _ _ Hnat Hh) as (f & _ & Hf).
      by eapply (native_field_shape cfgrib nlat nlon cfgrib_grid). }
  assert (Harr : ∀ v, Np.array (var_series v acc)
                      = Some (Arr3 (var_series v acc))).
  { intros v. destruct (Hser v) as (Hne & _ & Hall).
    by apply (array_of_shape Ny Nx). }
  set (target := (<["time" := length (files inv)]>
                    (<["ny_grid" := Ny]> (<["nx_grid" := Nx]> ∅)))
                 : gmap string nat).
  assert (Ht : target !! "time" = Some (length (files inv)))
    by (unfold target; by rewrite lookup_insert_eq).
  assert (Hty : target !! "ny_grid" = Some Ny).
  { unfold target. rewrite lookup_insert_ne by done.
    by rewrite lookup_insert_eq. }
  assert (Htx : target !! "nx_grid" = Some Nx).
  { unfold target. rewrite !lookup_insert_ne by done.
    by rewrite lookup_insert_eq. }
  assert (Hvar : ∀ v, Forall2 (λ d n, target !! d = Some n) grid_dims
                        (Np.shape (Arr3 (var_series v acc)))).
  { intros v. destruct (Hser v) as (Hne & Hlen & Hall).
    rewrite (shape_Arr3 Ny Nx) by done. rewrite Hlen.
    by repeat constructor. }
  assert (Hasm : ∃ fout, assemble float32 acc ll (length (files inv)) w4
                         = (w4, Ok fout)).
  { unfold assemble, bind, or_raise.
    pose proof (Harr Vstmp) as E1. pose proof (Harr Vspfh) as E2.
    pose proof (Harr Vuwind) as E3. pose proof (Harr Vvwind) as E4.
    pose proof (Harr Vprmsl) as E5. pose proof (Harr Vprate) as E6.
    pose proof (Harr Vdlwrf) as E7. pose proof (Harr Vdswrf) as E8.
    cbn [var_series] in E1, E2, E3, E4, E5, E6, E7, E8.
    rewrite E1, E2, E3, E4, E5, E6, E7, E8. unfold ret, Xr.mk_dataset.
    match goal with
    | |- context [Xr.calculate_dimensions ∅ ?vars] =>
        destruct (calculate_dimensions_ok target ∅ vars) as [sz Hsz]
    end.
    - apply map_empty_subseteq.
    - apply Forall_app. split.
      + constructor; [|constructor; [|constructor; [|constructor]]];
          cbn [fst snd].
        * cbn [Np.shape]. rewrite time_coord_length. by repeat constructor.
        * rewrite (shape_Arr2 Ny Nx) by done. by repeat constructor.
        * rewrite (shape_Arr2 Ny Nx) by done. by repeat constructor.
      + repeat apply Forall_cons_2;
          [exact (Hvar Vstmp) | exact (Hvar Vspfh) | exact (Hvar Vuwind)
          | exact (Hvar Vvwind) | exact (Hvar Vprmsl) | exact (Hvar Vprate)
          | exact (Hvar Vdlwrf) | exact (Hvar Vdswrf) | apply Forall_nil_2].
    - rewrite Hsz. simpl. eauto. }
  destruct Hasm as [fout Hasm]. rewrite (bind_Ok _ _ _ _ _ Hasm).
  eexists. split; [reflexivity|]. simpl. rewrite lookup_insert_eq. eauto.
Qed.

(** X16. On the product's fixed grid, [gen_sflux] completes and writes
    the day's file whenever the inventory has been built, its first file
    decodes under the instant/surface filter and has a window for the box,
    every file of the inventory holds each of the eight variables under
    its filter, and the native coordinates between the window's index
    bounds all lie in the padded box, its bounds cast to float32 as the
    comparison has them. *)
Theorem gen_sflux_completes box date record w w1 inv first ds0 ll :
  AWSGrib2Inventory list_objects_v2 download_fileobj date record "atmos" w
  = (w1, Ok inv) →
  head (files inv) = Some first →
  decoded cfgrib inv first (by_step_level "instant" "surface") = Some ds0 →
  window_of float32 box ds0 = Some ll →
  (∀ f v, f ∈ files inv → is_Some (native_field cfgrib inv f v)) →
  (∀ i, idx_ymin ll ≤ i ≤ idx_ymax ll →
     ∃ y, native_lat float32 ds0 !! i = Some y
          ∧ (float32 (ymin box - 1) <= y)%Q
          ∧ (y <= float32 (ymax box + 1))%Q) →
  (∀ j, idx_xmin ll ≤ j ≤ idx_xmax ll →
     ∃ x, native_lon float32 ds0 !! j = Some x
          ∧ (float32 (wrap360 (xmin box) - 1) <= x)%Q
          ∧ (x <= float32 (wrap360 (xmax box) + 1))%Q) →
  ∃ w', gen_sflux list_objects_v2 download_fileobj cfgrib float32
          box date record w = (w', Ok ())
        ∧ is_Some (out_files w' !! out_path date).
Proof. apply gen_sflux_completes_cast_box. Qed.

(** With a cast that is monotone and leaves a float32 value as it is, the
    same holds when the native coordinates between the index bounds lie in
    the padded box as written. *)
Lemma gen_sflux_completes_exact_box box date record w w1 inv first ds0 ll :
  (∀ x y, (x <= y)%Q → (float32 x <= float32 y)%Q) →
  (∀ x, float32 (float32 x) = float32 x) →
  AWSGrib2Inventory list_objects_v2 download_fileobj date record "atmos" w
  = (w1, Ok inv) →
  head (files inv) = Some first →
  decoded cfgrib inv first (by_step_level "instant" "surface") = Some ds0 →
  window_of float32 box ds0 = Some ll →
  (∀ f v, f ∈ files inv → is_Some (native_field cfgrib inv f v)) →
  (∀ i, idx_ymin ll ≤ i ≤ idx_ymax ll →
     ∃ y, native_lat float32 ds0 !! i = Some y
          ∧ (ymin box - 1 <= y)%Q ∧ (y <= ymax box + 1)%Q) →
  (∀ j, idx_xmin ll ≤ j ≤ idx_xmax ll →
     ∃ x, native_lon float32 ds0 !! j = Some x
          ∧ (wrap360 (xmin box) - 1 <= x)%Q
          ∧ (x <= wrap360 (xmax box) + 1)%Q) →
  ∃ w', gen_sflux list_objects_v2 download_fileobj cfgrib float32
          box date record w = (w', Ok ())
        ∧ is_Some (out_files w' !! out_path date).
Proof.
  intros Hmono Hidem Hinv Hfirst Hds0 Hwin Hfields Hlat Hlon.
  apply (gen_sflux_completes_cast_box box date record w w1 inv first ds0 ll
           Hinv Hfirst Hds0 Hwin Hfields).
  - intros i Hi. destruct (Hlat i Hi) as (y & Hy & Hlo & Hhi).
    exists y. split; [done|].
    unfold native_lat in Hy. rewrite list_lookup_fmap in Hy.
    destruct (latitude ds0 !! i) as [u|]; [|done]. injection Hy as <-.
    by apply padded_box_float32.
  - intros j Hj. destruct (Hlon j Hj) as (x & Hx & Hlo & Hhi).
    exists x. split; [done|].
    unfold native_lon in Hx. rewrite list_lookup_fmap in Hx.
    destruct (longitude ds0 !! j) as [u|]; [|done]. injection Hx as <-.
    by apply padded_box_float32.
Qed.

End Completion.

(** ** Failures at the first file *)

Section FirstFile.

Variable list_objects_v2 : string → option (list s3_page).
Variable download_fileobj : string → option bytes.
Variable cfgrib : bytes → filter_by_keys → option grib_dataset.
Variable float32 : Q → Q.


End FirstFile.

(** * A second listing: a secondary product file among the hourly files *)

Module Demo2.

(** A file of the [pgrb2b] set: it passes the filter of line 50 but is not
    matched by the pattern of [files]. *)
Definition extra_key : string :=
  "gfs.20230101/00/atmos/gfs.t00z.pgrb2b.0p25.f000".

Definition pages : list s3_page :=
  [ {| Contents := Some [Demo.obj extra_key; Demo.obj (Demo.hour_key 1);
                          Demo.obj (Demo.hour_key 0)] |} ].

Definition data : list s3_object :=
  [Demo.obj extra_key; Demo.obj (Demo.hour_key 1); Demo.obj (Demo.hour_key 0)].

Definition listing (prefix : string) : option (list s3_page) :=
  if String.eqb prefix "gfs.20230101/00/atmos/" then Some pages else None.

(** A listing that raises, and one with a page without ['Contents']. *)
Definition no_listing (prefix : string) : option (list s3_page) := None.

Definition empty_page : s3_page := {| Contents := None |}.

Definition listing_empty_page (prefix : string) : option (list s3_page) :=
  Some [empty_page].


Lemma pgrb2b_listing_pages :
  listing (cycle_dir Demo.date (hour Demo.date) "atmos") = Some pages.
Proof. reflexivity. Qed.

Lemma pgrb2b_collect_pages : collect pages = Some data.
Proof. reflexivity. Qed.

Lemma pgrb2b_selected_keys_eq :
  selected 1 (file_metadata data) = [Demo.hour_key 1; extra_key].
Proof. vm_compute. reflexivity. Qed.

Lemma extra_key_selected : extra_key ∈ selected 1 (file_metadata data).
Proof. rewrite pgrb2b_selected_keys_eq. right. left. Qed.

Lemma extra_key_not_per_hour : ¬ per_hour_key Demo.date "atmos" extra_key.
Proof.
  intros Hk. apply per_hour_key_glob in Hk. vm_compute in Hk. done.
Qed.


End Demo2.

(** C9 as stated fails on the second listing. Two keys are selected, the
    per-hour key of hour 1 and a [pgrb2b] key; each has its local file,
    but the pattern of [files] does not match the second: [files] has one
    entry, not as many as keys were selected. *)
Lemma files_shorter_than_selected :
  ∃ w' inv,
    AWSGrib2Inventory Demo2.listing Demo.download_all Demo.date 1 "atmos"
      Demo.w0 = (w', Ok inv)
    ∧ selected 1 (file_metadata Demo2.data)
      = [Demo.hour_key 1; Demo2.extra_key]
    ∧ is_Some (tmpdir inv !! grib2_name Demo2.extra_key)
    ∧ files inv = [grib2_name (Demo.hour_key 1)]
    ∧ (grib2_name Demo2.extra_key ∉ files inv)
    ∧ length (files inv) ≠ length (selected 1 (file_metadata Demo2.data)).
Proof.
  eexists _, _. split; [vm_compute; reflexivity|].
  split; [exact Demo2.pgrb2b_selected_keys_eq|].
  split; [eexists; by vm_compute|].
  assert (Hfiles : ∀ l, l = [grib2_name (Demo.hour_key 1)] →
            (grib2_name Demo2.extra_key ∉ l)
            ∧ length l ≠ length (selected 1 (file_metadata Demo2.data))).
  { intros l ->. rewrite Demo2.pgrb2b_selected_keys_eq. split; [|done].
    intros Hin%list_elem_of_singleton. by vm_compute in Hin. }
  split; [by vm_compute|]. apply Hfiles. by vm_compute.
Qed.

(** * The further properties on the worked days *)

(** X3 on the worked listing with no day requested. *)
Lemma gen_sflux_nothing_selected_witness :
  Demo.listing (cycle_dir Demo.date (hour Demo.date) "atmos")
  = Some Demo.pages
  ∧ collect Demo.pages = Some Demo.data
  ∧ (0%Z = 0%Z ∨ length (file_metadata Demo.data) ≤ 1)
  ∧ gen_sflux Demo.listing Demo.download_all Demo.decoder Demo.f32
      Demo.box Demo.date 0 Demo.w0
    = ({| out_dirs := {[ strftime_Ymd Demo.date ]} ∪ out_dirs Demo.w0;
          out_files := out_files Demo.w0; log := log Demo.w0 |},
       Raise IndexError).
Proof.
  split; [exact Demo.listing_pages|]. split; [exact Demo.collect_pages|].
  split; [by left|].
  exact (gen_sflux_nothing_selected Demo.listing Demo.download_all
           Demo.decoder Demo.f32 Demo.box Demo.date 0 Demo.pages Demo.data
           Demo.w0 Demo.listing_pages Demo.collect_pages
           (or_introl eq_refl)).
Defined.

(** X4 on the worked day whose second download raises: the day fails and
    its directory is there. *)
Lemma gen_sflux_leaves_directory_witness :
  Demo.listing (cycle_dir Demo.date (hour Demo.date) "atmos")
  = Some Demo.pages
  ∧ collect Demo.pages = Some Demo.data
  ∧ out_dirs Demo.run_but_2.1 = {[ strftime_Ymd Demo.date ]} ∪ out_dirs Demo.w0.
Proof.
  split; [exact Demo.listing_pages|]. split; [exact Demo.collect_pages|].
  exact (gen_sflux_leaves_directory Demo.listing Demo.download_but_2
           Demo.decoder Demo.f32 Demo.box Demo.date 1 Demo.pages Demo.data
           Demo.w0 Demo.listing_pages Demo.collect_pages).
Defined.

(** X6 on the second listing: the [pgrb2b] file is selected and
    downloaded, and is no member of [files]. *)
Lemma files_are_the_per_hour_keys_witness :
  Demo2.listing (cycle_dir Demo.date (hour Demo.date) "atmos")
  = Some Demo2.pages
  ∧ collect Demo2.pages = Some Demo2.data
  ∧ Demo2.extra_key ∈ selected 1 (file_metadata Demo2.data)
  ∧ ¬ per_hour_key Demo.date "atmos" Demo2.extra_key
  ∧ ∃ w' inv,
      AWSGrib2Inventory Demo2.listing Demo.download_all Demo.date 1 "atmos"
        Demo.w0 = (w', Ok inv)
      ∧ tmpdir inv !! grib2_name Demo2.extra_key
        = Some (default [] (Demo.download_all Demo2.extra_key))
      ∧ (grib2_name Demo2.extra_key ∉ files inv).
Proof.
  split; [exact Demo2.pgrb2b_listing_pages|]. split; [exact Demo2.pgrb2b_collect_pages|].
  split; [exact Demo2.extra_key_selected|].
  split; [exact Demo2.extra_key_not_per_hour|].
  destruct (files_are_the_per_hour_keys Demo2.listing Demo.download_all
              Demo.date 1 "atmos" Demo2.pages Demo2.data Demo.w0
              Demo2.pgrb2b_listing_pages Demo2.pgrb2b_collect_pages)
    as (w' & inv & Hrun & _ & Hother).
  exists w', inv. split; [exact Hrun|].
  exact (Hother Demo2.extra_key Demo2.extra_key_selected
           Demo2.extra_key_not_per_hour).
Defined.

(** X7 on the worked day whose second download raises. *)
Lemma failed_download_fails_day_witness :
  Demo.listing (cycle_dir Demo.date (hour Demo.date) "atmos")
  = Some Demo.pages
  ∧ collect Demo.pages = Some Demo.data
  ∧ Demo.hour_key 2 ∈ selected 1 (file_metadata Demo.data)
  ∧ per_hour_key Demo.date "atmos" (Demo.hour_key 2)
  ∧ Demo.download_but_2 (Demo.hour_key 2) = None
  ∧ (∀ flt, Demo.decoder [] flt = None)
  ∧ ∃ w' e, Demo.run_but_2 = (w', Raise e)
            ∧ out_files w' = out_files Demo.w0.
Proof.
  assert (Hper : per_hour_key Demo.date "atmos" (Demo.hour_key 2)).
  { exists "002". split; [reflexivity|]. by apply str_in_false. }
  split; [exact Demo.listing_pages|]. split; [exact Demo.collect_pages|].
  split; [exact Demo.hour_2_selected|]. split; [exact Hper|].
  split; [reflexivity|]. split; [done|].
  exact (failed_download_fails_day Demo.listing Demo.download_but_2
           Demo.decoder Demo.f32 Demo.box Demo.date 1 Demo.pages Demo.data
           Demo.w0 (Demo.hour_key 2) Demo.listing_pages Demo.collect_pages
           Demo.hour_2_selected Hper eq_refl (λ _, eq_refl)).
Defined.





(** X12 on the worked day: three files, a 2 x 1 window. *)
Lemma gen_sflux_dimension_sizes_witness :
  (∀ content flt ds,
     Demo.decoder content flt = Some ds →
     length (latitude ds) = 5 ∧ length (longitude ds) = 4
     ∧ ∀ name a, Xr.getitem name (fields ds) = Some a → has_shape2 5 4 a)
  ∧ Demo.run_all = (Demo.run_all.1, Ok ())
  ∧ ∃ inv ll nc,
      (AWSGrib2Inventory Demo.listing Demo.download_all
         Demo.date 1 "atmos" Demo.w0).2 = Ok inv
      ∧ out_files Demo.run_all.1 !! out_path Demo.date = Some nc
      ∧ sizes (nc_dataset nc) !! "time" = Some (length (files inv))
      ∧ sizes (nc_dataset nc) !! "ny_grid"
        = Some (S (idx_ymax ll) - idx_ymin ll)
      ∧ sizes (nc_dataset nc) !! "nx_grid"
        = Some (S (idx_xmax ll) - idx_xmin ll)
      ∧ (∀ d, is_Some (sizes (nc_dataset nc) !! d) →
              d ∈ ["time"; "ny_grid"; "nx_grid"]).
Proof.
  split; [exact Demo.decoder_grid|]. split; [exact Demo.run_all_ok|].
  destruct (gen_sflux_dimension_sizes Demo.listing Demo.download_all
              Demo.decoder Demo.f32 5 4 Demo.decoder_grid Demo.box Demo.date
              1 Demo.w0 Demo.run_all.1 Demo.run_all_ok)
    as (inv & first & ll & nc & glon & glat & alon & alat
        & Hinv & _ & _ & Hout & Ht & Hy & Hx & Honly & _).
  exists inv, ll, nc.
  split; [exact Hinv|]. split; [exact Hout|]. split; [exact Ht|].
  split; [exact Hy|]. split; [exact Hx|]. exact Honly.
Defined.

(** X13 on the worked day. *)
Lemma gen_sflux_written_file_witness :
  Demo.run_all = (Demo.run_all.1, Ok ())
  ∧ out_path Demo.date = "20230101/gfs_2023010100.nc"
  ∧ ∃ nc vtime,
      out_files Demo.run_all.1 !! "20230101/gfs_2023010100.nc" = Some nc
      ∧ "20230101" ∈ out_dirs Demo.run_all.1
      ∧ nc_mode nc = "w" ∧ nc_format nc = "NETCDF3_CLASSIC"
      ∧ nc_unlimited_dims nc = "time"
      ∧ Xr.getvar "time" (nc_dataset nc) = Some vtime
      ∧ Xr.getitem "base_date" (attrs vtime)
        = Some (AInts [2023; 1; 1; 0; 0]%Z)
      ∧ Xr.getitem "units" (attrs vtime)
        = Some (AStr "days since 2023-1-1 00:00 UTC").
Proof.
  split; [exact Demo.run_all_ok|]. split; [reflexivity|].
  destruct (gen_sflux_written_file Demo.listing Demo.download_all
              Demo.decoder Demo.f32 Demo.box Demo.date 1 Demo.w0
              Demo.run_all.1 Demo.run_all_ok)
    as (nc & vtime & vlat & vlon & Hout & _ & Hdir & _ & Hmode & Hfmt & Hunl
        & _ & _ & Htime & _ & _ & Hattrs & _).
  exists nc, vtime.
  split; [exact Hout|]. split; [exact Hdir|]. split; [exact Hmode|].
  split; [exact Hfmt|]. split; [exact Hunl|]. split; [exact Htime|].
  rewrite Hattrs. split; reflexivity.
Defined.

(** X15 on the worked day whose downloads all succeed: three download
    lines, the index line, three file lines. *)
Lemma gen_sflux_log_witness :
  Demo.run_all = (Demo.run_all.1, Ok ())
  ∧ ∃ data inv ll,
      log Demo.run_all.1
      = log Demo.w0
        ++ (selected 1 (file_metadata data) ≫= λ k,
              ("Downloading file " +:+ k +:+ ", ")
              :: match Demo.download_all k with
                 | Some _ => []
                 | None => ["file " +:+ k +:+ " is not available"]
                 end)
        ++ ["idx_ymin is " +:+ pretty (idx_ymin ll) +:+ ", idx_ymax is "
            +:+ pretty (idx_ymax ll) +:+ ", idx_xmin is "
            +:+ pretty (idx_xmin ll) +:+ ", idx_xmax is "
            +:+ pretty (idx_xmax ll)]
        ++ imap (λ i f, "file " +:+ pretty i +:+ " is " +:+ f) (files inv).
Proof.
  split; [exact Demo.run_all_ok|].
  destruct (gen_sflux_log Demo.listing Demo.download_all Demo.decoder
              Demo.f32 Demo.box Demo.date 1 Demo.w0 Demo.run_all.1
              Demo.run_all_ok)
    as (pages & data & inv & first & ll & _ & _ & _ & _ & _ & Hlog).
  exists data, inv, ll. exact Hlog.
Defined.

(** The log of the worked day, line by line. *)
Example worked_day_log :
  length (log Demo.run_all.1) = 7
  ∧ log Demo.run_all.1 !! 3
    = Some "idx_ymin is 1, idx_ymax is 2, idx_xmin is 3, idx_xmax is 3"
  ∧ log Demo.run_all.1 !! 4
    = Some ("file 0 is " +:+ grib2_name (Demo.hour_key 1)).
Proof. split; [|split]; by vm_compute. Qed.

(** X2 on a listing that raises and on one with an empty page. *)
Example gen_sflux_listing_failure_examples :
  gen_sflux Demo2.no_listing Demo.download_all Demo.decoder Demo.f32
    Demo.box Demo.date 1 Demo.w0 = (Demo.w0, Raise ListingError)
  ∧ gen_sflux Demo2.listing_empty_page Demo.download_all Demo.decoder
      Demo.f32 Demo.box Demo.date 1 Demo.w0
    = (Demo.w0, Raise (KeyError "Contents")).
Proof. split; by vm_compute. Qed.

(** * The worked day, step by step *)

Module DemoRun.

(** The inventory of the worked day. *)
Definition inv : inventory :=
  {| start_date := Demo.date; inv_record := 1; product := "atmos";
     forecast_cycle := Demo.date; cycle := hour Demo.date;
     tmpdir := fetched Demo.download_all ∅
                 (selected 1 (file_metadata Demo.data)) |}.

Definition w1 : world :=
  add_log (fetch_log Demo.download_all (selected 1 (file_metadata Demo.data)))
    Demo.w0.

Definition ll : latlon :=
  {| nx_grid := [[-90]; [-90]]%Q; ny_grid := [[0]; [45]]%Q;
     idx_ymin := 1; idx_ymax := 2; idx_xmin := 3; idx_xmax := 3 |}.

Lemma inventory_built :
  AWSGrib2Inventory Demo.listing Demo.download_all Demo.date 1 "atmos" Demo.w0
  = (w1, Ok inv).
Proof.
  exact (AWSGrib2Inventory_run Demo.listing Demo.download_all Demo.date 1
           "atmos" Demo.pages Demo.data Demo.w0 Demo.listing_pages
           Demo.collect_pages).
Qed.

Lemma inventory_files :
  files inv = grib2_name <$> (Demo.hour_key <$> [1; 2; 3]).
Proof. by vm_compute. Qed.

Lemma first_file : head (files inv) = Some (grib2_name (Demo.hour_key 1)).
Proof. by rewrite inventory_files. Qed.

Lemma first_decoded :
  decoded Demo.decoder inv (grib2_name (Demo.hour_key 1))
    (by_step_level "instant" "surface") = Some Demo.grid.
Proof. by vm_compute. Qed.

Lemma first_window : window_of Demo.f32 Demo.box Demo.grid = Some ll.
Proof. by vm_compute. Qed.

Lemma every_field f v :
  f ∈ files inv → is_Some (native_field Demo.decoder inv f v).
Proof.
  rewrite inventory_files. intros Hf.
  repeat (apply elem_of_cons in Hf as [->|Hf];
          [destruct v; eexists; by vm_compute|]).
  destruct (proj1 (elem_of_nil _) Hf).
Qed.

Lemma latitudes_in_box i :
  idx_ymin ll ≤ i ≤ idx_ymax ll →
  ∃ y, native_lat Demo.f32 Demo.grid !! i = Some y
       ∧ (Demo.f32 (ymin Demo.box - 1) <= y)%Q
       ∧ (y <= Demo.f32 (ymax Demo.box + 1))%Q.
Proof.
  simpl. intros Hi. destruct i as [|[|[|i]]]; [lia| | |lia];
    eexists; (split; [reflexivity|]); split; by vm_compute.
Qed.

Lemma longitudes_in_box j :
  idx_xmin ll ≤ j ≤ idx_xmax ll →
  ∃ x, native_lon Demo.f32 Demo.grid !! j = Some x
       ∧ (Demo.f32 (wrap360 (xmin Demo.box) - 1) <= x)%Q
       ∧ (x <= Demo.f32 (wrap360 (xmax Demo.box) + 1))%Q.
Proof.
  simpl. intros Hj. destruct j as [|[|[|[|j]]]]; [lia|lia|lia| |lia].
  eexists. split; [reflexivity|]. split; by vm_compute.
Qed.

End DemoRun.

(** X16 on the worked day. *)
Lemma gen_sflux_completes_witness :
  (∀ content flt ds,
     Demo.decoder content flt = Some ds →
     length (latitude ds) = 5 ∧ length (longitude ds) = 4
     ∧ ∀ name a, Xr.getitem name (fields ds) = Some a → has_shape2 5 4 a)
  ∧ AWSGrib2Inventory Demo.listing Demo.download_all Demo.date 1 "atmos"
      Demo.w0 = (DemoRun.w1, Ok DemoRun.inv)
  ∧ head (files DemoRun.inv) = Some (grib2_name (Demo.hour_key 1))
  ∧ decoded Demo.decoder DemoRun.inv (grib2_name (Demo.hour_key 1))
      (by_step_level "instant" "surface") = Some Demo.grid
  ∧ window_of Demo.f32 Demo.box Demo.grid = Some DemoRun.ll
  ∧ (∀ f v, f ∈ files DemoRun.inv →
            is_Some (native_field Demo.decoder DemoRun.inv f v))
  ∧ ∃ w', gen_sflux Demo.listing Demo.download_all Demo.decoder Demo.f32
            Demo.box Demo.date 1 Demo.w0 = (w', Ok ())
          ∧ is_Some (out_files w' !! out_path Demo.date).
Proof.
  split; [exact Demo.decoder_grid|]. split; [exact DemoRun.inventory_built|].
  split; [exact DemoRun.first_file|]. split; [exact DemoRun.first_decoded|].
  split; [exact DemoRun.first_window|]. split; [exact DemoRun.every_field|].
  exact (gen_sflux_completes Demo.listing Demo.download_all Demo.decoder
           Demo.f32 5 4 Demo.decoder_grid Demo.box Demo.date 1 Demo.w0
           DemoRun.w1 DemoRun.inv (grib2_name (Demo.hour_key 1)) Demo.grid
           DemoRun.ll DemoRun.inventory_built DemoRun.first_file
           DemoRun.first_decoded DemoRun.first_window DemoRun.every_field
           DemoRun.latitudes_in_box DemoRun.longitudes_in_box).
Defined.


(** The files of the worked day are those of the forecast hours 1, 2 and
    3, in this order, and their time values are 0.0417, 0.0833 and
    0.125. *)
Example worked_day_hours :
  files DemoRun.inv
  = (λ h, files_prefix DemoRun.inv +:+ hour_stem h) <$> [1; 2; 3]
  ∧ time_coord Demo.f32 (length (files DemoRun.inv))
    = [(417 # 10000)%Q; (833 # 10000)%Q; (1250 # 10000)%Q].
Proof. split; by vm_compute. Qed.
